(** * Recipe enrichment pipeline: a shallow embedding and its properties

    The repository holds two variants of the enrichment system:
    - [Part000] embeds [src/unnamed/part_000], the serverless variant with
      the response cache, the circuit breaker and the rule-based fallback
      classifier;
    - [Part001] embeds [src/unnamed/part_001], the variant with title
      standardization, code-fence stripping and [validateAnalysis].

    Conventions of the embedding.
    - JavaScript strings are [string]; the development speaks about ASCII
      text, on which [toLowerCase], [toUpperCase], [trim] and the regular
      expression classes [\s] and [.] are the functions below.
    - [null] and [undefined] are [None]; a JavaScript truthiness test on a
      string is [truthy], on an optional array [has_items]/[is_array].
    - A JavaScript object used as a dictionary is a [gmap string _].
    - Code that may throw returns a [Completion]; the outside world (clock,
      network replies, the HTML parser, [JSON.parse]) is passed in
      explicitly.
    - A request body is a parsed JSON value; a loaded page answers a
      selector with the elements it matches.

    Part II holds the properties the specification states, Part III
    further properties of the same code. *)

From Stdlib Require Import String Ascii List ZArith QArith Bool Lia.
From stdpp Require Import base option list strings gmap.

Open Scope string_scope.

Set Warnings "-register-all,-abstract-large-number".

(* ===================================================================== *)
(** * Part I: definitions *)
(* ===================================================================== *)

(** ** Host-language helpers *)

Module JS.

(** Character classes and case mapping on ASCII. *)

Definition is_upper (c : ascii) : bool :=
  let n := N_of_ascii c in (65 <=? n)%N && (n <=? 90)%N.

Definition is_lower (c : ascii) : bool :=
  let n := N_of_ascii c in (97 <=? n)%N && (n <=? 122)%N.

Definition lower_char (c : ascii) : ascii :=
  if is_upper c then ascii_of_N (N_of_ascii c + 32) else c.

Definition upper_char (c : ascii) : ascii :=
  if is_lower c then ascii_of_N (N_of_ascii c - 32) else c.

(** [\n] and [\r]: the characters the regular expression [.] rejects. *)
Definition is_line_terminator (c : ascii) : bool :=
  let n := N_of_ascii c in (n =? 10)%N || (n =? 13)%N.

(** The class [\s], also what [trim] removes: tab, line feed, vertical
    tab, form feed, carriage return and space. *)
Definition is_space (c : ascii) : bool :=
  let n := N_of_ascii c in ((9 <=? n)%N && (n <=? 13)%N) || (n =? 32)%N.

Fixpoint toLowerCase (s : string) : string :=
  match s with
  | EmptyString => EmptyString
  | String c s' => String (lower_char c) (toLowerCase s')
  end.

Fixpoint toUpperCase (s : string) : string :=
  match s with
  | EmptyString => EmptyString
  | String c s' => String (upper_char c) (toUpperCase s')
  end.

(** [s.startsWith(sub)] and [s.includes(sub)] on strings. *)
Fixpoint startsWith (s sub : string) {struct sub} : bool :=
  match sub with
  | EmptyString => true
  | String p sub' =>
      match s with
      | String c s' => Ascii.eqb p c && startsWith s' sub'
      | EmptyString => false
      end
  end.

Fixpoint includes (s sub : string) : bool :=
  startsWith s sub ||
  match s with
  | EmptyString => false
  | String _ s' => includes s' sub
  end.

(** [arr.includes(x)] on arrays of strings. *)
Definition arr_includes (arr : list string) (x : string) : bool :=
  bool_decide (x ∈ arr).

(** [arr.join(sep)]. *)
Definition join (sep : string) (arr : list string) : string :=
  String.concat sep arr.

(** Truthiness of a possibly missing string: [undefined], [null] and the
    empty string are falsy. *)
Definition truthy (o : option string) : bool :=
  match o with
  | Some s => negb (String.eqb s "")
  | None => false
  end.

(** [arr?.length > 0] and [arr && arr.length > 0] on a possibly missing
    array. *)
Definition has_items {A} (o : option (list A)) : bool :=
  match o with
  | Some (_ :: _) => true
  | _ => false
  end.

(** Truthiness of a possibly missing array: every array, also the empty
    one, is truthy. *)
Definition is_array {A} (o : option (list A)) : bool :=
  match o with
  | Some _ => true
  | None => false
  end.

(** [arr.slice(0, n)]. *)
Definition slice0 {A} (n : nat) (arr : list A) : list A := take n arr.

(** Normal or abrupt completion of a call.  An error thrown is given by its
    [message], the text that [error.message] reads; where the engine words
    the message after the input it met, as for a syntax error of
    [JSON.parse], and the error is caught at once, a word stands for it. *)
Inductive Completion (A : Type) : Type :=
| Return (a : A)
| Throw (message : string).
Arguments Return {A} a.
Arguments Throw {A} message.


(** *** Regular expressions

    The fragment the sources use: a pattern is a sequence of atoms over
    character classes, matched with JavaScript's backtracking priority
    (greedy quantifiers, leftmost match). *)

Inductive atom :=
| One (p : ascii -> bool)     (* a single character of the class *)
| Many (p : ascii -> bool)    (* [p*], greedy *)
| Many1 (p : ascii -> bool)   (* [p+], greedy *)
| Maybe (p : ascii -> bool)   (* [p?], greedy *)
| Eol.                        (* [$], end of input *)

(** [many p k s]: consume as many [p] characters as possible, giving back
    one at a time until the continuation [k] accepts the rest. *)
Fixpoint many (p : ascii -> bool) (k : string -> option string) (s : string)
  : option string :=
  match s with
  | String c s' =>
      if p c then
        match many p k s' with
        | Some rest => Some rest
        | None => k s
        end
      else k s
  | EmptyString => k s
  end.

(** [match_here re s]: match [re] at the start of [s]; the result is the
    text left after the match. *)
Fixpoint match_here (re : list atom) : string -> option string :=
  match re with
  | [] => fun s => Some s
  | One p :: re' => fun s =>
      match s with
      | String c s' => if p c then match_here re' s' else None
      | EmptyString => None
      end
  | Many p :: re' => many p (match_here re')
  | Many1 p :: re' => fun s =>
      match s with
      | String c s' => if p c then many p (match_here re') s' else None
      | EmptyString => None
      end
  | Maybe p :: re' => fun s =>
      match s with
      | String c s' =>
          if p c then
            match match_here re' s' with
            | Some rest => Some rest
            | None => match_here re' s
            end
          else match_here re' s
      | EmptyString => match_here re' s
      end
  | Eol :: re' => fun s =>
      match s with
      | EmptyString => match_here re' s
      | String _ _ => None
      end
  end.

(** The leftmost match of [re] in [s] removed, if there is one. *)
Fixpoint remove_first (re : list atom) (s : string) : option string :=
  match match_here re s with
  | Some rest => Some rest
  | None =>
      match s with
      | String c s' => option_map (String c) (remove_first re s')
      | EmptyString => None
      end
  end.

(** [s.replace(/re/, '')]. *)
Definition replace_empty (re : list atom) (s : string) : string :=
  match remove_first re s with
  | Some s' => s'
  | None => s
  end.

(** [s.replace(/^re/, '')]: the pattern is anchored at the start. *)
Definition replace_empty_anchored (re : list atom) (s : string) : string :=
  match match_here re s with
  | Some s' => s'
  | None => s
  end.

(** Atoms for a literal text, case-sensitive or under the [i] flag. *)
Definition chr (c : ascii) : atom := One (Ascii.eqb c).

Definition chr_i (c : ascii) : atom :=
  One (fun x => Ascii.eqb (lower_char x) (lower_char c)).

Definition lit (s : string) : list atom := map chr (list_ascii_of_string s).

Definition lit_i (s : string) : list atom := map chr_i (list_ascii_of_string s).

(** The class [.]: any character but a line terminator. *)
Definition dot (c : ascii) : bool := negb (is_line_terminator c).

(** *** [trim], [split], [charAt], [slice] *)

Fixpoint trimStart (s : string) : string :=
  match s with
  | String c s' => if is_space c then trimStart s' else s
  | EmptyString => EmptyString
  end.

(** [trimEnd s] drops the trailing run of white space. *)
Fixpoint trimEnd (s : string) : string :=
  match s with
  | String c s' =>
      match trimEnd s' with
      | EmptyString => if is_space c then EmptyString else String c EmptyString
      | t => String c t
      end
  | EmptyString => EmptyString
  end.

Definition trim (s : string) : string := trimEnd (trimStart s).

(** [s.split(' ')]: the words between single spaces; never empty. *)
Fixpoint split_space (s : string) : list string :=
  match s with
  | EmptyString => [EmptyString]
  | String c s' =>
      if Ascii.eqb c " " then EmptyString :: split_space s'
      else
        match split_space s' with
        | w :: ws => String c w :: ws
        | [] => [String c EmptyString]
        end
  end.

(** [s.charAt(0)] and [s.slice(1)]. *)
Definition charAt0 (s : string) : string :=
  match s with
  | String c _ => String c EmptyString
  | EmptyString => EmptyString
  end.

Definition slice1 (s : string) : string :=
  match s with
  | String _ s' => s'
  | EmptyString => EmptyString
  end.

(** Text within ASCII.  On such text the functions above are those of
    JavaScript: [toLowerCase] and [toUpperCase] change the 26 letters and
    keep the length, [trim] and [\s] know the six white-space characters,
    [.] rejects the two line terminators, and [length] counts characters.
    Beyond ASCII the host maps case by Unicode (and may lengthen a string)
    and knows more white space; the definitions here leave such characters
    as they are. *)
Fixpoint is_ascii_text (s : string) : bool :=
  match s with
  | EmptyString => true
  | String c s' => (N_of_ascii c <? 128)%N && is_ascii_text s'
  end.

Definition ascii_text (s : string) : Prop := is_ascii_text s = true.

(** *** JSON values and a reference [JSON.parse]

    A number keeps its decimal reading [mantissa * 10 ^ exponent]. *)

Inductive json :=
| JNull
| JBool (b : bool)
| JNum (mantissa exponent : Z)
| JStr (s : string)
| JArr (items : list json)
| JObj (fields : list (string * json)).

(** [obj[key]] on a parsed object: of two members with one key the later
    one counts. *)
Fixpoint obj_get (fields : list (string * json)) (key : string) : option json :=
  match fields with
  | [] => None
  | (k, v) :: rest =>
      match obj_get rest key with
      | Some v' => Some v'
      | None => if String.eqb k key then Some v else None
      end
  end.

(** [Object.entries(obj)] on a parsed object: one entry for each key, with
    the value that counts.  (Keys that read as array indices come first in
    JavaScript; that order plays no part where the entries are used.) *)
Definition Object_entries (fields : list (string * json)) : list (string * json) :=
  omap (fun key => pair key <$> obj_get fields key)
       (reverse (remove_dups (reverse (map fst fields)))).

(** [obj[key] = value] on a parsed object: a member that is there keeps its
    place and takes the value, a new one goes to the end. *)
Definition obj_set (fields : list (string * json)) (key : string) (value : json)
  : list (string * json) :=
  match obj_get fields key with
  | Some _ => map (fun member => if String.eqb (fst member) key
                                 then (fst member, value) else member) fields
  | None => (fields ++ [(key, value)])%list
  end.

(** A JSON number is the double nearest to its decimal.  It is zero when the
    decimal is, or when the decimal is nearer to zero than to the least
    positive double [2 ^ -1074], the midpoint [2 ^ -1075] included (ties go
    to the even neighbour). *)
Definition reads_as_zero (mantissa exponent : Z) : bool :=
  (mantissa =? 0)%Z
  || ((exponent <? 0)%Z && (Z.abs mantissa * 2 ^ 1075 <=? 10 ^ (- exponent))%Z).

(** Truthiness of a parsed value. *)
Definition json_truthy (value : json) : bool :=
  match value with
  | JNull => false
  | JBool b => b
  | JNum m e => negb (reads_as_zero m e)
  | JStr s => negb (String.eqb s "")
  | JArr _ | JObj _ => true
  end.

(** [arr.includes(value)] on an array of strings and a parsed value: only a
    string can be a member. *)
Definition json_includes (arr : list string) (value : json) : bool :=
  match value with
  | JStr s => arr_includes arr s
  | _ => false
  end.

(** The double quote, and a text between double quotes. *)
Definition DQ : ascii := "034"%char.

Definition quoted (s : string) : string := String DQ (s ++ String DQ EmptyString).

Module Parser.

Definition is_json_ws (c : ascii) : bool :=
  let n := N_of_ascii c in
  (n =? 32)%N || (n =? 9)%N || (n =? 10)%N || (n =? 13)%N.

Fixpoint skip_ws (s : string) : string :=
  match s with
  | String c s' => if is_json_ws c then skip_ws s' else s
  | EmptyString => EmptyString
  end.

Definition is_digit (c : ascii) : bool :=
  let n := N_of_ascii c in (48 <=? n)%N && (n <=? 57)%N.

Definition digit_value (c : ascii) : Z := Z.of_N (N_of_ascii c) - 48.

Definition hex_value (c : ascii) : option N :=
  let n := N_of_ascii c in
  if (48 <=? n)%N && (n <=? 57)%N then Some (n - 48)%N
  else if (97 <=? n)%N && (n <=? 102)%N then Some (n - 87)%N
  else if (65 <=? n)%N && (n <=? 70)%N then Some (n - 55)%N
  else None.

(** A run of digits: its value continuing [acc], how many there were, and
    the rest of the input. *)
Fixpoint digits (s : string) (acc : Z) (count : nat) : Z * nat * string :=
  match s with
  | String c s' =>
      if is_digit c then digits s' (10 * acc + digit_value c)%Z (S count)
      else (acc, count, s)
  | EmptyString => (acc, count, s)
  end.

(** The four hexadecimal digits of a [\u] escape; the reference parser
    reads code units below 256 only. *)
Definition unicode_escape (s : string) : option (ascii * string) :=
  match s with
  | String a (String b (String c (String d rest))) =>
      match hex_value a, hex_value b, hex_value c, hex_value d with
      | Some x, Some y, Some z, Some w =>
          let code := (((x * 16 + y) * 16 + z) * 16 + w)%N in
          if (code <? 256)%N then Some (ascii_of_N code, rest) else None
      | _, _, _, _ => None
      end
  | _ => None
  end.

(** The characters of a string literal after its opening quote. *)
Fixpoint string_body (fuel : nat) (s : string) : option (string * string) :=
  match fuel with
  | O => None
  | S fuel' =>
      match s with
      | EmptyString => None
      | String c s' =>
          if Ascii.eqb c DQ then Some (EmptyString, s')
          else if Ascii.eqb c "\" then
            match s' with
            | String e s'' =>
                let simple (x : ascii) :=
                  match string_body fuel' s'' with
                  | Some (t, rest) => Some (String x t, rest)
                  | None => None
                  end in
                if Ascii.eqb e DQ then simple DQ
                else if Ascii.eqb e "\" then simple "\"%char
                else if Ascii.eqb e "/" then simple "/"%char
                else if Ascii.eqb e "b" then simple (ascii_of_N 8)
                else if Ascii.eqb e "f" then simple (ascii_of_N 12)
                else if Ascii.eqb e "n" then simple (ascii_of_N 10)
                else if Ascii.eqb e "r" then simple (ascii_of_N 13)
                else if Ascii.eqb e "t" then simple (ascii_of_N 9)
                else if Ascii.eqb e "u" then
                  match unicode_escape s'' with
                  | Some (x, rest) =>
                      match string_body fuel' rest with
                      | Some (t, rest') => Some (String x t, rest')
                      | None => None
                      end
                  | None => None
                  end
                else None
            | EmptyString => None
            end
          else if (N_of_ascii c <? 32)%N then None
          else
            match string_body fuel' s' with
            | Some (t, rest) => Some (String c t, rest)
            | None => None
            end
      end
  end.

(** [-? int frac? exp?] *)
Definition number (s : string) : option (json * string) :=
  let '(neg, s1) :=
    match s with
    | String "-" r => (true, r)
    | _ => (false, s)
    end in
  let '(int_part, n_int, s2) := digits s1 0%Z O in
  let leading_zero :=
    match s1 with
    | String "0" _ => true
    | _ => false
    end in
  if (n_int =? 0)%nat || (leading_zero && negb (n_int =? 1)%nat) then None
  else
    let frac :=
      match s2 with
      | String "." r =>
          let '(m, n_frac, s3) := digits r int_part O in
          if (n_frac =? 0)%nat then None else Some (m, Z.of_nat n_frac, s3)
      | _ => Some (int_part, 0%Z, s2)
      end in
    match frac with
    | None => None
    | Some (m, scale, s3) =>
        let signed := if neg then (- m)%Z else m in
        match s3 with
        | String e r =>
            if Ascii.eqb e "e" || Ascii.eqb e "E" then
              let '(eneg, r1) :=
                match r with
                | String "-" r' => (true, r')
                | String "+" r' => (false, r')
                | _ => (false, r)
                end in
              let '(ex, n_ex, s4) := digits r1 0%Z O in
              if (n_ex =? 0)%nat then None
              else Some (JNum signed ((if eneg then - ex else ex) - scale)%Z, s4)
            else Some (JNum signed (- scale)%Z, s3)
        | EmptyString => Some (JNum signed (- scale)%Z, s3)
        end
    end.

Definition keyword (word : string) (v : json) (s : string) : option (json * string) :=
  if startsWith s word
  then Some (v, String.substring (String.length word)
                  (String.length s - String.length word) s)
  else None.

Fixpoint value (fuel : nat) (s : string) : option (json * string) :=
  match fuel with
  | O => None
  | S fuel' =>
      match skip_ws s with
      | String "{" r =>
          match skip_ws r with
          | String "}" r' => Some (JObj [], r')
          | r' => members fuel' r' []
          end
      | String "[" r =>
          match skip_ws r with
          | String "]" r' => Some (JArr [], r')
          | r' => elements fuel' r' []
          end
      | String "034"%char r =>
          match string_body (S (String.length r)) r with
          | Some (t, rest) => Some (JStr t, rest)
          | None => None
          end
      | String "t" _ as w => keyword "true" (JBool true) w
      | String "f" _ as w => keyword "false" (JBool false) w
      | String "n" _ as w => keyword "null" JNull w
      | w => number w
      end
  end
with elements (fuel : nat) (s : string) (acc : list json) : option (json * string) :=
  match fuel with
  | O => None
  | S fuel' =>
      match value fuel' s with
      | Some (v, rest) =>
          match skip_ws rest with
          | String "," r => elements fuel' r (acc ++ [v])
          | String "]" r => Some (JArr (acc ++ [v]), r)
          | _ => None
          end
      | None => None
      end
  end
with members (fuel : nat) (s : string) (acc : list (string * json))
  : option (json * string) :=
  match fuel with
  | O => None
  | S fuel' =>
      match skip_ws s with
      | String "034"%char r =>
          match string_body (S (String.length r)) r with
          | Some (key, rest) =>
              match skip_ws rest with
              | String ":" r1 =>
                  match value fuel' r1 with
                  | Some (v, rest1) =>
                      match skip_ws rest1 with
                      | String "," r2 => members fuel' r2 (acc ++ [(key, v)])
                      | String "}" r2 => Some (JObj (acc ++ [(key, v)]), r2)
                      | _ => None
                      end
                  | None => None
                  end
              | _ => None
              end
          | None => None
          end
      | _ => None
      end
  end.

End Parser.

(** A reference [JSON.parse(text)]: [None] stands for the [SyntaxError].
    The classifiers below take the parser as a parameter; this one serves
    to run them on concrete responses. *)
Definition reference_JSON_parse (text : string) : option json :=
  match Parser.value (2 * String.length text + 2) text with
  | Some (v, rest) =>
      match Parser.skip_ws rest with
      | EmptyString => Some v
      | String _ _ => None
      end
  | None => None
  end.

End JS.

Import JS.

(** ** Vocabulary registry: [RECIPE_OPTIONS], identical in both variants *)

Definition CUISINE_OPTIONS : list string :=
  [ "African"; "American"; "Asian"; "Brazilian"; "Chinese"; "Dessert";
    "French"; "German"; "Greek"; "Hungarian"; "Indian"; "Italian";
    "Japanese"; "Korean"; "Mediterranean"; "Mexican"; "Middle Eastern";
    "Persian"; "Peruvian"; "Spanish"; "Thai"; "Vietnamese" ].

Definition MEAL_OPTIONS : list string :=
  [ "Main Dish"; "Side Dish"; "Breakfast"; "Dessert"; "Snack"; "Beverage" ].

Definition TAG_OPTIONS : list string :=
  [ "Appetizer"; "Baked"; "Braised"; "Breakfast"; "Chocolate"; "Citrusy";
    "Condiment"; "Creamy"; "Curry"; "Drink"; "Eggs"; "Fish"; "Grilled";
    "Herby"; "No Bake"; "Pasta"; "Pickled"; "Refreshing"; "Roasted";
    "Salad"; "Sandwich"; "Savory"; "Seafood"; "Soup"; "Spicy"; "Steamed";
    "Stew"; "Stir-Fry"; "Sweet"; "Tangy"; "Traditional"; "Vegan";
    "Vegetarian" ].

Definition INGREDIENT_OPTIONS : list string :=
  [ "Beef"; "Chicken"; "Pork"; "Fish"; "Salmon"; "Shrimp"; "Eggs"; "Cheese";
    "Pasta"; "Rice"; "Bread"; "Potato"; "Tomato"; "Onions"; "Garlic";
    "Spinach"; "Broccoli"; "Carrot"; "Mushrooms"; "Peppers"; "Lemon";
    "Basil"; "Herbs"; "Ginger"; "Chili"; "Beans"; "Cream"; "Milk" ].

(** ** Data model *)

(** A recipe as [getIncompleteRecipes] builds it from a database page. *)
Record Recipe := mkRecipe {
  name : string;
  link : string;
  current_meal : option string;
  current_cuisine : option string;
  current_tags : option (list string);
  current_ingredients : option (list string)
}.

(** What the page extractor returns for one URL. *)
Record Image := mkImage {
  img_url : string;
  img_alt : string;
  img_width : option Z;
  img_height : option Z;
  img_source : string
}.

Record ExtractedData := mkExtractedData {
  title : option string;
  ingredients : option (list string);
  instructions : option (list string);
  images : option (list Image);
  description : option string;
  imageUrl : option string
}.

(** A classification result: the object the prompt asks the model for and
    the fallback classifier builds. *)
Record Analysis := mkAnalysis {
  standardized_title : option string;
  meal : option string;
  cuisine : option string;
  tags : option (list string);
  key_ingredients : option (list string);
  confidence : option Q;
  reasoning : option string
}.

(** The four categorical fields of a recipe. *)
Inductive CategoricalField := FMeal | FCuisine | FTags | FKeyIngredients.

(** The key under which a field appears in a suggested change set. *)
Definition change_key (f : CategoricalField) : string :=
  match f with
  | FMeal => "meal"
  | FCuisine => "cuisine"
  | FTags => "tags"
  | FKeyIngredients => "key_ingredients"
  end.

(** The field of the recipe already holds one or more values. *)
Definition field_nonempty (r : Recipe) (f : CategoricalField) : bool :=
  match f with
  | FMeal => truthy (current_meal r)
  | FCuisine => truthy (current_cuisine r)
  | FTags => has_items (current_tags r)
  | FKeyIngredients => has_items (current_ingredients r)
  end.

(** One entry [{current, suggested}] of a suggested change set; a value is
    a string or an array of strings. *)
Inductive FieldValue :=
| VString (s : string)
| VArray (l : list string).

Record Change := mkChange {
  current : FieldValue;
  suggested : FieldValue
}.

(** ** Reading a parsed object as a classification result

    The fields of the classification result shape, each absent, [null] or
    of the type the shape gives it; keys outside the shape are ignored.  An
    object with a field of another type is outside the shape. *)

Definition as_string (o : option json) : option (option string) :=
  match o with
  | None | Some JNull => Some None
  | Some (JStr s) => Some (Some s)
  | Some _ => None
  end.

Fixpoint as_strings (items : list json) : option (list string) :=
  match items with
  | [] => Some []
  | JStr s :: rest =>
      match as_strings rest with
      | Some l => Some (s :: l)
      | None => None
      end
  | _ :: _ => None
  end.

Definition as_string_array (o : option json) : option (option (list string)) :=
  match o with
  | None | Some JNull => Some None
  | Some (JArr items) =>
      match as_strings items with
      | Some l => Some (Some l)
      | None => None
      end
  | Some _ => None
  end.

(** The rational [mantissa * 10 ^ exponent]. *)
Definition decimal (mantissa exponent : Z) : Q :=
  if (0 <=? exponent)%Z then inject_Z (mantissa * 10 ^ exponent)
  else Qmake mantissa (Z.to_pos (10 ^ (- exponent))).

Definition as_number (o : option json) : option (option Q) :=
  match o with
  | None | Some JNull => Some None
  | Some (JNum m e) => Some (Some (decimal m e))
  | Some _ => None
  end.

Definition asAnalysis (j : json) : option Analysis :=
  match j with
  | JObj fields =>
      match as_string (obj_get fields "standardized_title"),
            as_string (obj_get fields "meal"),
            as_string (obj_get fields "cuisine"),
            as_string_array (obj_get fields "tags"),
            as_string_array (obj_get fields "key_ingredients"),
            as_number (obj_get fields "confidence"),
            as_string (obj_get fields "reasoning") with
      | Some t, Some m, Some c, Some tg, Some k, Some cf, Some r =>
          Some (mkAnalysis t m c tg k cf r)
      | _, _, _, _, _, _, _ => None
      end
  | _ => None
  end.

(** The analysis object a classifier hands back: a classification result,
    or a parsed value outside that shape, which is carried along as it is
    and not followed further; such a value can be an array that was given
    properties of its own, which JSON cannot show. *)
Inductive AnalysisObject :=
| Shaped (a : Analysis)
| Unshaped (j : json)
| ArrayWith (items : list json) (own : list (string * json)).

Definition read_analysis (j : json) : AnalysisObject :=
  match asAnalysis j with
  | Some a => Shaped a
  | None => Unshaped j
  end.

(** A parsed value after assignments to its properties: those of an object
    are its members, those given to an array are kept beside it. *)
Record Assigned := mkAssigned {
  value : json;
  own : list (string * json)
}.

(** [assigned[key]] for a key that no prototype has. *)
Definition property (assigned : Assigned) (key : string) : option json :=
  match value assigned with
  | JObj fields => obj_get fields key
  | JArr _ => obj_get (own assigned) key
  | _ => None
  end.

Definition analysis_object (assigned : Assigned) : AnalysisObject :=
  match value assigned with
  | JArr items => ArrayWith items (own assigned)
  | j => read_analysis j
  end.

(** [!analysis || typeof analysis !== 'object'] on a parsed value: arrays
    and objects pass. *)
Definition is_object (j : json) : bool :=
  match j with
  | JArr _ | JObj _ => true
  | _ => false
  end.

(** ** The outside world *)

(** One [fetch] of a page: the promise rejects, or a response arrives with
    its [ok] flag and the completion of [response.text()]. *)
Inductive FetchOutcome :=
| FetchRejected (message : string)
| FetchResponded (ok : bool) (body : Completion string).

(** One chat-completion request: the request fails (rejection or timeout),
    the status is not 2xx, the body cannot be read as the expected
    structure, or the message content arrives ([None] when a link of
    [data.choices?.[0]?.message?.content] is missing). *)
Inductive AIReply :=
| AIRequestFailed (message : string)
| AIStatusNotOk (status : string)
| AIBodyUnreadable (message : string)
| AIContent (content : option string).

(** What a review item shows as extracted data. *)
Inductive ItemData :=
| PageData (d : ExtractedData)
| NotionOnly.

Record ReviewItem := mkReviewItem {
  item_recipe : Recipe;
  item_extractedData : ItemData;
  item_analysis : Analysis;
  item_suggestedChanges : gmap string Change
}.

(** ** Pages: what the extractors read

    A loaded page answers a selector with the elements it matches, in
    document order; an element has its text and its attributes. *)

Record Element := mkElement {
  el_text : string;
  el_attr : string -> option string
}.

Definition Page : Type := string -> list Element.

(** [$(selector).first().text()]: the text of the first match, empty when
    there is none. *)
Definition first_text (page : Page) (selector : string) : string :=
  match page selector with
  | el :: _ => el_text el
  | [] => EmptyString
  end.

(** [re.test(s)], and the test of a pattern with alternatives, which
    matches where one of its alternatives does. *)
Definition test (re : list atom) (s : string) : bool :=
  match remove_first re s with
  | Some _ => true
  | None => false
  end.

Definition test_any (alternatives : list (list atom)) (s : string) : bool :=
  existsb (fun re => test re s) alternatives.

(** [[...new Set(arr)]]: the values in the order of their first
    occurrence. *)
Fixpoint Set_values (seen : list string) (arr : list string) : list string :=
  match arr with
  | [] => []
  | x :: rest =>
      if arr_includes seen x then Set_values seen rest
      else x :: Set_values (x :: seen) rest
  end.

(** The loops of the form: for each selector, push what the selector
    gives, and leave as soon as something has been pushed. *)
Fixpoint first_successful (collect : string -> list string) (selectors : list string)
  (pushed : list string) : list string :=
  match selectors with
  | [] => pushed
  | selector :: rest =>
      let pushed := (pushed ++ collect selector)%list in
      if (0 <? length pushed)%nat then pushed
      else first_successful collect rest pushed
  end.

(** ** Database pages: what [getIncompleteRecipes] reads

    Of a page of the database the properties the recipes are built from,
    each as the optional chain of the source reads it ([None] where a link
    of the chain is missing). *)

Record NotionPage := mkNotionPage {
  page_Name : option string;                  (* [Name?.title?.[0]?.plain_text] *)
  page_Link : option string;                  (* [Link?.url] *)
  page_Meal : option string;                  (* [Meal?.select?.name] *)
  page_Cuisine : option string;               (* [Cuisine?.select?.name] *)
  page_Tags : option (list string);           (* [Tags?.multi_select?.map(...)] *)
  page_KeyIngredients : option (list string)  (* ['Key Ingredients']?.multi_select?.map(...) *)
}.

(** ** Update requests: the validation utilities, identical in both variants

    A request body is a parsed JSON value.  What the host does with numbers,
    [String(n)] and the truthiness of [n], is left to two parameters. *)

(** [s.slice(0, n)] on a string. *)
Fixpoint str_slice0 (n : nat) (s : string) : string :=
  match n, s with
  | S n', String c s' => String c (str_slice0 n' s')
  | _, _ => EmptyString
  end.

Section Validation.

Variable number_toString : Z -> Z -> string.
Variable number_truthy : Z -> Z -> bool.

(** [String(x)].  The text of an array joins the texts of its elements,
    taken from left to right, [null] counting as empty.  An object is
    converted by its [toString]: the one of [Object.prototype], unless the
    object has a member of that name, which — being parsed, it is no
    function — leaves nothing to convert with, and the conversion throws. *)
Fixpoint ToString (x : json) : Completion string :=
  match x with
  | JNull => Return "null"
  | JBool true => Return "true"
  | JBool false => Return "false"
  | JNum m e => Return (number_toString m e)
  | JStr s => Return s
  | JArr items =>
      let fix texts (items : list json) : Completion (list string) :=
        match items with
        | [] => Return []
        | item :: rest =>
            match match item with
                  | JNull => Return ""
                  | _ => ToString item
                  end with
            | Throw e => Throw e
            | Return text =>
                match texts rest with
                | Throw e => Throw e
                | Return l => Return (text :: l)
                end
            end
        end in
      match texts items with
      | Throw e => Throw e
      | Return l => Return (join "," l)
      end
  | JObj fields =>
      match obj_get fields "toString" with
      | Some _ => Throw "Cannot convert object to primitive value"
      | None => Return "[object Object]"
      end
  end.

(** Truthiness of a value that may be [undefined]. *)
Definition ToBoolean (x : option json) : bool :=
  match x with
  | None | Some JNull => false
  | Some (JBool b) => b
  | Some (JNum m e) => number_truthy m e
  | Some (JStr s) => negb (String.eqb s "")
  | Some (JArr _) | Some (JObj _) => true
  end.

(** [items.map(item => String(item).trim().slice(0, 100))]. *)
Fixpoint sanitizeItems (items : list json) : Completion (list json) :=
  match items with
  | [] => Return []
  | item :: rest =>
      match ToString item with
      | Throw e => Throw e
      | Return text =>
          match sanitizeItems rest with
          | Throw e => Throw e
          | Return l => Return (JStr (str_slice0 100 (trim text)) :: l)
          end
      end
  end.

Definition sanitizeInput (input : json) : Completion json :=
  match input with
  | JStr s => Return (JStr (str_slice0 10000 (trim s)))
  | JArr items =>
      match sanitizeItems (slice0 50 items) with
      | Throw e => Throw e
      | Return l => Return (JArr l)
      end
  | _ => Return input
  end.

Definition allowedFields : list string :=
  ["title"; "meal"; "cuisine"; "tags"; "keyIngredients"; "selectedImage"].

(** The loop over [Object.entries(updates)], which throws on [null].  Only
    an object has entries under the allowed keys: those of an array or a
    string are indices, and a number or a boolean has none.  A parsed value
    is never [undefined]. *)
Definition validateUpdateData (updates : json) : Completion (gmap string json) :=
  match updates with
  | JNull => Throw "Cannot convert undefined or null to object"
  | JObj fields =>
      fold_left (fun (validated : Completion (gmap string json)) '(key, value) =>
                   match validated with
                   | Throw e => Throw e
                   | Return validated =>
                       if arr_includes allowedFields key
                       then match sanitizeInput value with
                            | Return sanitized => Return (<[key := sanitized]> validated)
                            | Throw e => Throw e
                            end
                       else Return validated
                   end)
                (Object_entries fields) (Return ∅)
  | _ => Return ∅
  end.

Definition validateRecipeId (recipeId : option json) : Completion string :=
  match recipeId with
  | Some (JStr s) =>
      if negb (truthy (Some s)) || (String.length s <? 10)%nat
      then Throw "Invalid recipe ID"
      else Return s
  | _ => Throw "Invalid recipe ID"
  end.

(** A property of a database page as the handlers write it, and a call of
    [notion.pages.update]. *)
Inductive Property :=
| Title (content : json)
| Select (name : json)
| MultiSelect (names : list json).

Inductive NotionWrite :=
| CoverUpdate (page_id : string) (url : json)
| PropertiesUpdate (page_id : string) (properties : gmap string Property).

(** The block of the handlers that builds [properties] from the validated
    updates, the same text in both. *)
Definition updateProperties (validatedUpdates : gmap string json)
  : gmap string Property :=
  let properties : gmap string Property := ∅ in
  let properties :=
    if ToBoolean (validatedUpdates !! "title")
    then <["Name" := Title (default JNull (validatedUpdates !! "title"))]> properties
    else properties in
  let properties :=
    if ToBoolean (validatedUpdates !! "meal")
    then <["Meal" := Select (default JNull (validatedUpdates !! "meal"))]> properties
    else properties in
  let properties :=
    if ToBoolean (validatedUpdates !! "cuisine")
    then <["Cuisine" := Select (default JNull (validatedUpdates !! "cuisine"))]> properties
    else properties in
  let properties :=
    match validatedUpdates !! "tags" with
    | Some (JArr tags) => <["Tags" := MultiSelect tags]> properties
    | _ => properties
    end in
  let properties :=
    match validatedUpdates !! "keyIngredients" with
    | Some (JArr ings) => <["Key Ingredients" := MultiSelect ings]> properties
    | _ => properties
    end in
  properties.

End Validation.

(** A request as the handlers read it: the method, [req.query.refresh] and
    the body ([None] when there is none). *)
Record Request := mkRequest {
  req_method : string;
  req_query_refresh : option string;
  req_body : option json
}.

(** [body.key] for a body that may be anything: only an object has the
    members the handlers ask for. *)
Definition body_field (body : option json) (key : string) : option json :=
  match body with
  | Some (JObj fields) => obj_get fields key
  | _ => None
  end.

(** [x === s] for a string [s]. *)
Definition strict_equals (x : option json) (s : string) : bool :=
  match x with
  | Some (JStr t) => String.eqb t s
  | _ => false
  end.

(** The response: the status and the JSON body.  Of the body the fields
    [details], [processingTime], [avgConfidence], [aiAvailable] and
    [cacheSize] are not followed; [totalRecipes] is the length of the
    review. *)
Inductive ResponseBody :=
| NoBody                                             (* [res.status(200).end()] *)
| ReviewBody (review : list ReviewItem) (totalSuggestions imagesFound : nat)
             (note : option string)                  (* [success: true, data, stats] *)
| MessageBody (note : string)                        (* [success: true, message] *)
| ErrorBody (reason : string)                        (* [success: false, error] *)
| BareErrorBody (reason : string)                    (* [error] alone *)
| RunBody (result : option (nat * nat)).             (* what [run()] returned *)

Record HttpResponse := mkHttpResponse {
  res_status : nat;
  res_body : ResponseBody
}.

(** ** [part_000]: cache, circuit breaker, fallback classifier *)

Module Part000.

Definition MAX_RECIPES_PER_BATCH : nat := 3.
Definition MAX_RETRIES : nat := 2.
Definition CACHE_TTL_MS : Z := 24 * 60 * 60 * 1000.

(** *** Circuit breaker *)

Record CircuitBreaker := mkBreaker {
  failures : nat;
  lastFailTime : option Z
}.

Definition threshold : nat := 3.
Definition resetTime : Z := 5 * 60 * 1000.

(** [isOpen()] at clock reading [now]; a [null] time counts as 0 in the
    subtraction. *)
Definition isOpen (cb : CircuitBreaker) (now : Z) : bool :=
  if (threshold <=? failures cb)%nat then
    let timeSinceLastFail := (now - default 0%Z (lastFailTime cb))%Z in
    (timeSinceLastFail <? resetTime)%Z
  else false.

Definition recordSuccess (cb : CircuitBreaker) : CircuitBreaker :=
  mkBreaker 0 None.

Definition recordFailure (cb : CircuitBreaker) (now : Z) : CircuitBreaker :=
  mkBreaker (S (failures cb)) (Some now).

(** *** Process state: the cache and the breaker

    The one [Map] of the source holds two families of keys, [scrape:<url>]
    and [ai:<name>:<link>]; they are kept as two maps over the full keys. *)

Record CacheEntry (A : Type) := mkEntry {
  data : A;
  timestamp : Z
}.
Arguments mkEntry {A} data timestamp.
Arguments data {A} c.
Arguments timestamp {A} c.

Record State := mkState {
  scrape_cache : gmap string (CacheEntry ExtractedData);
  ai_cache : gmap string (CacheEntry AnalysisObject);
  circuitBreaker : CircuitBreaker
}.

Definition initial_state : State :=
  mkState ∅ ∅ (mkBreaker 0 None).

(** [cached && Date.now() - cached.timestamp < CONFIG.CACHE_TTL_MS] *)
Definition fresh {A} (cached : option (CacheEntry A)) (now : Z) : option A :=
  match cached with
  | Some e => if (now - timestamp e <? CACHE_TTL_MS)%Z then Some (data e) else None
  | None => None
  end.

(** *** Fallback classifier *)

Definition ingredientMapping : list (string * list string) :=
  [ ("chicken", ["chicken"; "poultry"]);
    ("beef", ["beef"; "ground beef"; "steak"]);
    ("pork", ["pork"; "bacon"; "ham"]);
    ("fish", ["fish"; "cod"; "tilapia"]);
    ("salmon", ["salmon"]);
    ("shrimp", ["shrimp"; "prawns"]);
    ("eggs", ["egg"; "eggs"]);
    ("cheese", ["cheese"; "cheddar"; "mozzarella"; "parmesan"]);
    ("pasta", ["pasta"; "spaghetti"; "penne"; "noodles"]);
    ("rice", ["rice"; "basmati"; "jasmine"]);
    ("bread", ["bread"; "flour"; "wheat"]);
    ("potato", ["potato"; "potatoes"]);
    ("tomato", ["tomato"; "tomatoes"]);
    ("onions", ["onion"; "onions"]);
    ("garlic", ["garlic"]);
    ("spinach", ["spinach"]);
    ("broccoli", ["broccoli"]);
    ("carrot", ["carrot"; "carrots"]);
    ("mushrooms", ["mushroom"; "mushrooms"]);
    ("peppers", ["pepper"; "peppers"; "bell pepper"]);
    ("lemon", ["lemon"; "lemons"]);
    ("basil", ["basil"]);
    ("herbs", ["herbs"; "parsley"; "cilantro"; "oregano"]);
    ("ginger", ["ginger"]);
    ("chili", ["chili"; "jalapeño"; "cayenne"]);
    ("beans", ["beans"; "black beans"; "kidney beans"]);
    ("cream", ["cream"; "heavy cream"]);
    ("milk", ["milk"]) ].

(** The body of the inner loop: one entry of the mapping against one
    lower-cased scraped ingredient. *)
Definition match_entry (ingredient : string) (keyIngredients : list string)
  (entry : string * list string) : list string :=
  let '(keyIngredient, patterns) := entry in
  if existsb (fun pattern => includes ingredient pattern) patterns then
    match find (fun opt => String.eqb (toLowerCase opt) (toLowerCase keyIngredient))
               INGREDIENT_OPTIONS with
    | Some mappedIngredient =>
        if truthy (Some mappedIngredient)
           && negb (arr_includes keyIngredients mappedIngredient)
        then keyIngredients ++ [mappedIngredient]
        else keyIngredients
    | None => keyIngredients
    end
  else keyIngredients.

(** The outer loop, leaving as soon as five key ingredients are there. *)
Fixpoint scan_ingredients (scraped : list string) (keyIngredients : list string)
  : list string :=
  match scraped with
  | [] => keyIngredients
  | scrapedIngredient :: rest =>
      let ingredient := toLowerCase scrapedIngredient in
      let keyIngredients :=
        fold_left (match_entry ingredient) ingredientMapping keyIngredients in
      if (5 <=? length keyIngredients)%nat then keyIngredients
      else scan_ingredients rest keyIngredients
  end.

Definition extractKeyIngredientsFromList (scrapedIngredients : list string)
  : option (list string) :=
  let keyIngredients := scan_ingredients (slice0 10 scrapedIngredients) [] in
  if (0 <? length keyIngredients)%nat then Some keyIngredients else None.

Definition push_if (c : bool) (tag : string) (tags : list string) : list string :=
  if c then tags ++ [tag] else tags.

Definition ingredientTextOf (ingredients : list string) : string :=
  toLowerCase (join " " ingredients).

Definition meatKeywords : list string :=
  ["chicken"; "beef"; "pork"; "fish"; "salmon"; "shrimp"].

Definition hasMeat (name ingredientText : string) : bool :=
  existsb (fun meat => includes name meat || includes ingredientText meat)
          meatKeywords.

(** The cooking-method, dish-type and flavour tags, in push order. *)
Definition styleTags (name ingredientText : string) : list string :=
  let tags := [] in
  let tags := push_if (includes name "baked" || includes name "baking") "Baked" tags in
  let tags := push_if (includes name "grilled" || includes name "grill") "Grilled" tags in
  let tags := push_if (includes name "roasted" || includes name "roast") "Roasted" tags in
  let tags := push_if (includes name "stir fry" || includes name "stir-fry") "Stir-Fry" tags in
  let tags := push_if (includes name "steamed") "Steamed" tags in
  let tags := push_if (includes name "braised") "Braised" tags in
  let tags := push_if (includes name "salad") "Salad" tags in
  let tags := push_if (includes name "soup") "Soup" tags in
  let tags := push_if (includes name "sandwich") "Sandwich" tags in
  let tags := push_if (includes name "pasta") "Pasta" tags in
  let tags := push_if (includes name "curry") "Curry" tags in
  let tags := push_if (includes name "spicy" || includes ingredientText "chili"
                       || includes ingredientText "pepper") "Spicy" tags in
  let tags := push_if (includes name "sweet" || includes ingredientText "sugar"
                       || includes ingredientText "honey") "Sweet" tags in
  let tags := push_if (includes name "creamy" || includes ingredientText "cream"
                       || includes ingredientText "cheese") "Creamy" tags in
  tags.

(** The dietary tag pushed last, if any. *)
Definition dietaryTags (name ingredientText : string) : list string :=
  if negb (hasMeat name ingredientText)
     && negb (includes ingredientText "egg")
     && negb (includes ingredientText "cheese")
  then ["Vegan"]
  else if negb (hasMeat name ingredientText) then ["Vegetarian"]
  else [].

Definition inferTagsFromNameAndIngredients (name : string) (ingredients : list string)
  : option (list string) :=
  let ingredientText := ingredientTextOf ingredients in
  let tags := (styleTags name ingredientText ++ dietaryTags name ingredientText)%list in
  if (0 <? length tags)%nat then Some (slice0 4 tags) else None.

Definition inferMeal (name : string) : string :=
  if includes name "breakfast" || includes name "pancake"
     || includes name "oatmeal" || includes name "cereal" then "Breakfast"
  else if includes name "dessert" || includes name "cake"
          || includes name "cookie" || includes name "ice cream" then "Dessert"
  else if includes name "salad" || includes name "side"
          || includes name "appetizer" then "Side Dish"
  else if includes name "drink" || includes name "smoothie"
          || includes name "juice" then "Beverage"
  else if includes name "snack" then "Snack"
  else "Main Dish".

Definition inferCuisine (name : string) : option string :=
  if includes name "italian" || includes name "pasta"
     || includes name "pizza" || includes name "risotto" then Some "Italian"
  else if includes name "mexican" || includes name "taco"
          || includes name "burrito" || includes name "enchilada" then Some "Mexican"
  else if includes name "chinese" || includes name "stir fry"
          || includes name "wok" then Some "Chinese"
  else if includes name "indian" || includes name "curry"
          || includes name "masala" then Some "Indian"
  else if includes name "french" || includes name "crepe"
          || includes name "baguette" then Some "French"
  else if includes name "japanese" || includes name "sushi"
          || includes name "teriyaki" then Some "Japanese"
  else if includes name "thai" || includes name "pad thai" then Some "Thai"
  else if includes name "mediterranean" || includes name "greek" then Some "Mediterranean"
  else None.

Definition createSmartFallbackAnalysis (recipe : Recipe)
  (extractedData : option ExtractedData) : Analysis :=
  let name := toLowerCase (name recipe) in
  let ingredients :=
    match extractedData with
    | Some d => default [] (ingredients d)
    | None => []
    end in
  let meal :=
    if negb (truthy (current_meal recipe)) then Some (inferMeal name) else None in
  let cuisine :=
    if negb (truthy (current_cuisine recipe)) then inferCuisine name else None in
  let key_ingredients :=
    if negb (has_items (current_ingredients recipe)) && (0 <? length ingredients)%nat
    then extractKeyIngredientsFromList ingredients
    else None in
  let tags :=
    if negb (has_items (current_tags recipe))
    then inferTagsFromNameAndIngredients name ingredients
    else None in
  {| standardized_title := None;
     meal := meal;
     cuisine := cuisine;
     tags := tags;
     key_ingredients := key_ingredients;
     confidence := Some (7 # 10)%Q;
     reasoning := Some "Smart rule-based analysis with ingredient extraction" |}.

(** *** Suggested change set *)

(** [o || d] on a possibly missing string. *)
Definition str_or (o : option string) (d : string) : string :=
  match o with
  | Some s => if String.eqb s "" then d else s
  | None => d
  end.

Definition formatSuggestedChanges (recipe : Recipe) (analysis : Analysis)
  (extractedData : option ExtractedData) : gmap string Change :=
  let changes : gmap string Change := ∅ in
  let changes :=
    if negb (truthy (current_meal recipe)) && truthy (meal analysis)
    then <["meal" := mkChange (VString (str_or (current_meal recipe) "Empty"))
                              (VString (default "" (meal analysis)))]> changes
    else changes in
  let changes :=
    if negb (truthy (current_cuisine recipe)) && truthy (cuisine analysis)
    then <["cuisine" := mkChange (VString (str_or (current_cuisine recipe) "Empty"))
                                 (VString (default "" (cuisine analysis)))]> changes
    else changes in
  let changes :=
    if negb (has_items (current_tags recipe)) && has_items (tags analysis)
    then <["tags" := mkChange (VArray (default [] (current_tags recipe)))
                              (VArray (default [] (tags analysis)))]> changes
    else changes in
  let changes :=
    if negb (has_items (current_ingredients recipe))
       && has_items (key_ingredients analysis)
    then <["key_ingredients" :=
             mkChange (VArray (default [] (current_ingredients recipe)))
                      (VArray (default [] (key_ingredients analysis)))]> changes
    else changes in
  let changes :=
    if truthy (standardized_title analysis)
       && negb (String.eqb (default "" (standardized_title analysis)) (name recipe))
    then <["title" := mkChange (VString (name recipe))
                               (VString (default "" (standardized_title analysis)))]>
         changes
    else changes in
  changes.

(** *** Page extraction *)

Record Response := mkResponse {
  ok : bool;
  text : Completion string
}.

(** [withTimeout(promise, ms, errorMessage)]: the race is decided by the
    world, [timed_out] says the timer won. *)
Definition withTimeout {A} (promise : Completion A) (timed_out : bool)
  (errorMessage : string) : Completion A :=
  if timed_out then Throw errorMessage else promise.

(** [withRetry(fn, maxRetries)]: [fn n] is the outcome of the [n]-th call.
    The loop falls through to [undefined] when it never runs. *)
Fixpoint retry_from {A} (fn : nat -> Completion A) (maxRetries attempt remaining : nat)
  : Completion (option A) :=
  match remaining with
  | O => Return None
  | S remaining' =>
      match fn attempt with
      | Return a => Return (Some a)
      | Throw e =>
          if (attempt =? maxRetries)%nat then Throw e
          else retry_from fn maxRetries (S attempt) remaining'
      end
  end.

Definition withRetry {A} (fn : nat -> Completion A) (maxRetries : nat)
  : Completion (option A) :=
  retry_from fn maxRetries 1 maxRetries.

(** The callback handed to [withRetry].  After the fetch it tests
    [response.ok], and [response] is the constant of the enclosing block that
    this very call is still initialising: the read throws. *)
Definition fetchAttempt (f : FetchOutcome) : Completion Response :=
  match f with
  | FetchRejected message => Throw message
  | FetchResponded _ _ =>
      Throw "ReferenceError: Cannot access 'response' before initialization"
  end.

Record ScrapeEnv := mkScrapeEnv {
  scrape_now_lookup : Z;            (* [Date.now()] at the cache test *)
  scrape_now_store : Z;             (* [Date.now()] when the result is cached *)
  fetches : nat -> FetchOutcome;    (* the fetch of the n-th attempt *)
  scrape_timed_out : bool
}.

Record AIEnv := mkAIEnv {
  ai_now_check : Z;                  (* [Date.now()] inside [isOpen()] *)
  ai_now_lookup : Z;                (* [Date.now()] at the cache test *)
  ai_now_done : Z;                  (* [Date.now()] at [cache.set] or [recordFailure] *)
  ai_reply : AIReply
}.

(** How a call of the classifier went. *)
Inductive Route :=
| Unavailable   (* no API key or breaker open: fallback, nothing sent *)
| FromCache     (* a fresh cached analysis, nothing sent *)
| Answered      (* request sent, the content parsed to an object *)
| Unparsable    (* request sent, the content did not parse: fallback *)
| Failed.       (* request sent, failure recorded: fallback *)

Definition request_sent (r : Route) : bool :=
  match r with
  | Unavailable | FromCache => false
  | Answered | Unparsable | Failed => true
  end.

Section Classifier.

(** [cheerio.load(html)] followed by the extractors. *)
Variable scrapePage : string -> Completion ExtractedData.
(** [JSON.parse]. *)
Variable JSON_parse : string -> option json.
(** [process.env.OPENAI_API_KEY]. *)
Variable OPENAI_API_KEY : option string.

Definition extractRecipeFromURL (env : ScrapeEnv) (url : string) (st : State)
  : Completion (option ExtractedData) * State :=
  if negb (truthy (Some url)) then (Return None, st)
  else
    let cacheKey := "scrape:" ++ url in
    match fresh (scrape_cache st !! cacheKey) (scrape_now_lookup env) with
    | Some cached => (Return (Some cached), st)
    | None =>
        (* try *)
        let body : Completion ExtractedData :=
          match withTimeout
                  (withRetry (fun n => fetchAttempt (fetches env n)) MAX_RETRIES)
                  (scrape_timed_out env) "Web scraping timeout" with
          | Throw e => Throw e
          | Return None => Throw "Cannot read properties of undefined (reading 'text')"
          | Return (Some response) =>
              match text response with
              | Throw e => Throw e
              | Return html => scrapePage html
              end
          end in
        match body with
        | Return recipeData =>
            (Return (Some recipeData),
             mkState (<[cacheKey := mkEntry recipeData (scrape_now_store env)]>
                        (scrape_cache st))
                     (ai_cache st) (circuitBreaker st))
        | Throw _ => (Return None, st)          (* catch *)
        end
    end.

Definition analyzeRecipeWithAI (env : AIEnv) (recipe : Recipe)
  (extractedData : option ExtractedData) (st : State)
  : Completion (Route * AnalysisObject) * State :=
  if negb (truthy OPENAI_API_KEY) || isOpen (circuitBreaker st) (ai_now_check env)
  then (Return (Unavailable, Shaped (createSmartFallbackAnalysis recipe extractedData)), st)
  else
    let cacheKey := "ai:" ++ name recipe ++ ":" ++ link recipe in
    match fresh (ai_cache st !! cacheKey) (ai_now_lookup env) with
    | Some cached => (Return (FromCache, cached), st)
    | None =>
        (* try *)
        let body : Completion (Route * AnalysisObject) * State :=
          match ai_reply env with
          | AIRequestFailed message => (Throw message, st)
          | AIStatusNotOk status => (Throw ("OpenAI API error: " ++ status), st)
          | AIBodyUnreadable message => (Throw message, st)
          | AIContent content =>
              let content := option_map trim content in
              if negb (truthy content) then (Throw "Empty response from OpenAI", st)
              else
                match JSON_parse (default "" content) with
                | None =>
                    (* inner catch *)
                    (Return (Unparsable,
                             Shaped (createSmartFallbackAnalysis recipe extractedData)),
                     st)
                | Some analysis =>
                    if negb (is_object analysis)
                    then (Throw "Invalid analysis structure", st)
                    else
                      (Return (Answered, read_analysis analysis),
                       mkState (scrape_cache st)
                               (<[cacheKey := mkEntry (read_analysis analysis)
                                                      (ai_now_done env)]> (ai_cache st))
                               (recordSuccess (circuitBreaker st)))
                end
          end in
        match body with
        | (Return r, st') => (Return r, st')
        | (Throw _, st') =>                      (* catch *)
            (Return (Failed, Shaped (createSmartFallbackAnalysis recipe extractedData)),
             mkState (scrape_cache st') (ai_cache st')
                     (recordFailure (circuitBreaker st') (ai_now_done env)))
        end
    end.

End Classifier.

(** *** Orchestrator

    [createReviewData] starts one task per recipe of the batch, all of them
    before any is awaited, and awaits them together with [Promise.all].  The
    tasks interleave at their [await]s in an order the scheduler chooses,
    and they share the caches and the circuit breaker through [this].  What
    the batch makes of its tasks does not depend on that order, only on how
    the calls of each task end: a task awaits at most one call of the
    extractor and then one of the classifier.  So the two are given here by
    the outcome of the call that each task makes, throwing included, the
    task being named by its index in the batch. *)

Section Orchestrator.

Variable this_extractRecipeFromURL :
  nat -> string -> Completion (option ExtractedData).
Variable this_analyzeRecipeWithAI :
  nat -> Recipe -> option ExtractedData -> Completion (option Analysis).

(** [let extractedData = null; if (recipe.link) extractedData = await ...]. *)
Definition extractedData_of (task : nat) (recipe : Recipe)
  : Completion (option ExtractedData) :=
  if truthy (Some (link recipe))
  then this_extractRecipeFromURL task (link recipe)
  else Return None.

(** The body of the [try] block of one task. *)
Definition processBody (task : nat) (recipe : Recipe)
  : Completion (option ReviewItem) :=
  match extractedData_of task recipe with
  | Throw e => Throw e
  | Return extractedData =>
      match this_analyzeRecipeWithAI task recipe extractedData with
      | Throw e => Throw e
      | Return (Some analysis) =>
          Return (Some
            {| item_recipe := recipe;
               item_extractedData :=
                 match extractedData with
                 | Some d => PageData d
                 | None => NotionOnly
                 end;
               item_analysis := analysis;
               item_suggestedChanges :=
                 formatSuggestedChanges recipe analysis extractedData |})
      | Return None => Return None
      end
  end.

(** One task: the body under its [catch], which returns [null]; the promise
    of a task is therefore always fulfilled, never rejected. *)
Definition processRecipe (task : nat) (recipe : Recipe) : option ReviewItem :=
  match processBody task recipe with
  | Return item => item
  | Throw _ => None
  end.

(** [processedRecipes.map(async (recipe) => ...)] and [Promise.all]: no
    promise being rejected, the results are those of the tasks in the order
    of the batch, whatever the order they were settled in. *)
Definition results (processedRecipes : list Recipe) : list (option ReviewItem) :=
  imap processRecipe processedRecipes.

Definition createReviewData (recipes : list Recipe) : Completion (list ReviewItem) :=
  let processedRecipes := slice0 MAX_RECIPES_PER_BATCH recipes in
  (* results.filter(item => item !== null) *)
  Return (omap (fun item => item) (results processedRecipes)).

End Orchestrator.

(** *** [getIncompleteRecipes] *)

(** The callback of [response.results.map]. *)
Definition recipeOf (page : NotionPage) : Recipe :=
  {| name := str_or (page_Name page) "";
     link := str_or (page_Link page) "";
     current_meal := page_Meal page;
     current_cuisine := page_Cuisine page;
     current_tags := Some (default [] (page_Tags page));
     current_ingredients := Some (default [] (page_KeyIngredients page)) |}.

Section Query.

(** The client [notion] was initialised; the query of the database, and
    whether the timer of [withTimeout] wins against it. *)
Variable notion : bool.
Variable notion_databases_query : Completion (list NotionPage).
Variable query_timed_out : bool.

Definition getIncompleteRecipes : Completion (list Recipe) :=
  (* try *)
  let body : Completion (list Recipe) :=
    if negb notion then Throw "Notion client not initialized - check NOTION_TOKEN"
    else
      match withTimeout notion_databases_query query_timed_out "Notion API timeout" with
      | Throw e => Throw e
      | Return results => Return (map recipeOf results)
      end in
  match body with
  | Return recipes => Return recipes
  | Throw e => Throw ("Failed to fetch recipes: " ++ e)        (* catch *)
  end.

End Query.

(** *** The extractors *)

Definition titleSelectors : list string :=
  [ ".recipe-title"; ".entry-title"; ".post-title";
    "[class*=" ++ quoted "recipe" ++ "] h1";
    "h1[class*=" ++ quoted "title" ++ "]";
    "h1" ].

Fixpoint extractTitle_from (page : Page) (selectors : list string) : option string :=
  match selectors with
  | [] => None
  | selector :: rest =>
      let title := trim (first_text page selector) in
      if truthy (Some title) && (5 <? String.length title)%nat
      then Some (str_slice0 200 title)
      else extractTitle_from page rest
  end.

Definition extractTitle (page : Page) : option string :=
  extractTitle_from page titleSelectors.

Definition ingredientSelectors : list string :=
  [ ".recipe-ingredient"; ".ingredient";
    "[class*=" ++ quoted "ingredient" ++ "]";
    "[itemprop=" ++ quoted "recipeIngredient" ++ "]";
    ".ingredients li"; ".recipe-ingredients li";
    "ul[class*=" ++ quoted "ingredient" ++ "] li" ].

(** What the callback of [each] pushes for one selector. *)
Definition ingredientsOf (page : Page) (selector : string) : list string :=
  List.filter (fun ingredient =>
                 truthy (Some ingredient) && (2 <? String.length ingredient)%nat
                 && (String.length ingredient <? 200)%nat)
              (map (fun el => trim (el_text el)) (page selector)).

Definition extractIngredients (page : Page) : list string :=
  let ingredients := first_successful (ingredientsOf page) ingredientSelectors [] in
  slice0 25 (Set_values [] ingredients).

Definition instructionSelectors : list string :=
  [ ".recipe-instruction"; ".instruction";
    "[class*=" ++ quoted "instruction" ++ "]";
    "[itemprop=" ++ quoted "recipeInstructions" ++ "]";
    ".instructions li"; ".recipe-instructions li";
    "ol[class*=" ++ quoted "instruction" ++ "] li" ].

Definition instructionsOf (page : Page) (selector : string) : list string :=
  List.filter (fun instruction =>
                 truthy (Some instruction) && (5 <? String.length instruction)%nat
                 && (String.length instruction <? 1000)%nat)
              (map (fun el => trim (el_text el)) (page selector)).

Definition extractInstructions (page : Page) : list string :=
  let instructions := first_successful (instructionsOf page) instructionSelectors [] in
  slice0 20 instructions.

(** [/\.(jpg|jpeg|png|gif|webp|svg)(\?|$)/i], an alternative at a time. *)
Definition imageExtensions : list (list atom) :=
  flat_map (fun ext => [ (lit_i ("." ++ ext) ++ [chr "?"])%list;
                         (lit_i ("." ++ ext) ++ [Eol])%list ])
           ["jpg"; "jpeg"; "png"; "gif"; "webp"; "svg"].

(** [/\.(amazonaws\.com|cloudfront\.net|wp\.com|squarespace\.com)/i] *)
Definition imageDomains : list (list atom) :=
  map (fun domain => lit_i ("." ++ domain))
      ["amazonaws.com"; "cloudfront.net"; "wp.com"; "squarespace.com"].

Definition isValidImageUrl (url : option string) : bool :=
  if negb (truthy url) then false
  else if negb (startsWith (default "" url) "http") then false
  else test_any imageExtensions (default "" url)
       || test_any imageDomains (default "" url).

Definition prioritySelectors : list string :=
  [ ".recipe-image img"; ".post-thumbnail img"; ".featured-image img";
    "[class*=" ++ quoted "recipe" ++ "] img" ].

Definition descSelectors : list string :=
  [ ".recipe-description"; ".recipe-summary"; ".entry-content p";
    "[class*=" ++ quoted "description" ++ "]" ].

Fixpoint extractDescription_from (page : Page) (selectors : list string) : option string :=
  match selectors with
  | [] => None
  | selector :: rest =>
      let desc := trim (first_text page selector) in
      if truthy (Some desc) && (50 <? String.length desc)%nat
         && (String.length desc <? 500)%nat
      then Some desc
      else extractDescription_from page rest
  end.

Definition extractDescription (page : Page) : option string :=
  extractDescription_from page descSelectors.

Section Images.

(** [parseInt(x)] on an attribute that may be missing; [None] is [NaN]. *)
Variable parseInt : option string -> option Z.

(** [parseInt(img.attr(name)) || null] *)
Definition dimension (img : Element) (name : string) : option Z :=
  match parseInt (el_attr img name) with
  | Some n => if (n =? 0)%Z then None else Some n
  | None => None
  end.

(** [img.attr('src') || img.attr('data-src')] *)
Definition srcOf (img : Element) : option string :=
  if truthy (el_attr img "src") then el_attr img "src" else el_attr img "data-src".

(** The callback of [each]: [images] and [seenUrls] before and after. *)
Definition pushImage (source : string) (state : list Image * list string)
  (img : Element) : list Image * list string :=
  let '(images, seenUrls) := state in
  let src := srcOf img in
  if truthy src && isValidImageUrl src
     && negb (arr_includes seenUrls (default "" src))
  then ((images ++ [mkImage (default "" src) (str_or (el_attr img "alt") "")
                            (dimension img "width") (dimension img "height")
                            source])%list,
        (seenUrls ++ [default "" src])%list)
  else state.

(** The loop over the priority selectors, left once three images are
    there. *)
Fixpoint scanPriority (page : Page) (selectors : list string)
  (state : list Image * list string) : list Image * list string :=
  match selectors with
  | [] => state
  | selector :: rest =>
      let state := fold_left (pushImage "priority") (page selector) state in
      if (3 <=? length (fst state))%nat then state
      else scanPriority page rest state
  end.

Definition extractMainImage (page : Page) : option (list Image) :=
  let images := fst (scanPriority page prioritySelectors ([], [])) in
  if (0 <? length images)%nat then Some images else None.

(** The object [recipeData] that [extractRecipeFromURL] builds from a
    loaded page. *)
Definition recipeData (page : Page) : ExtractedData :=
  {| title := extractTitle page;
     ingredients := Some (extractIngredients page);
     instructions := Some (extractInstructions page);
     images := extractMainImage page;
     description := extractDescription page;
     imageUrl := None |}.

End Images.

(** *** The states a process can be in

    The state at the start, and what calls of the extractor and of the
    classifier make of it. *)
Inductive reachable (scrapePage : string -> Completion ExtractedData)
  (JSON_parse : string -> option json) (OPENAI_API_KEY : option string) : State -> Prop :=
| reach_start : reachable scrapePage JSON_parse OPENAI_API_KEY initial_state
| reach_extract (st : State) (env : ScrapeEnv) (url : string) :
    reachable scrapePage JSON_parse OPENAI_API_KEY st ->
    reachable scrapePage JSON_parse OPENAI_API_KEY
      (snd (extractRecipeFromURL scrapePage env url st))
| reach_analyze (st : State) (env : AIEnv) (recipe : Recipe)
    (extractedData : option ExtractedData) :
    reachable scrapePage JSON_parse OPENAI_API_KEY st ->
    reachable scrapePage JSON_parse OPENAI_API_KEY
      (snd (analyzeRecipeWithAI JSON_parse OPENAI_API_KEY env recipe extractedData st)).

(** *** Reading the outcome of a classifier call *)

Definition ai_route (run : Completion (Route * AnalysisObject) * State)
  : option Route :=
  match run with
  | (Return (route, _), _) => Some route
  | (Throw _, _) => None
  end.

(** The AI path was taken: the call was not turned to the fallback by the
    breaker.  A request went out unless a fresh cached analysis was there. *)
Definition ai_path_attempted
  (run : Completion (Route * AnalysisObject) * State) : Prop :=
  exists route, ai_route run = Some route /\ route <> Unavailable.

(** *** The API handler

    The methods of the enricher and [notion.pages.update] are parameters;
    the handler returns its response and the calls of [notion.pages.update]
    it made, in order. *)

Definition DEFAULT_DATABASE_ID : string := "1b1ea313dfba4618915c4574ad7ed576".

Section Handler.

Variable number_toString : Z -> Z -> string.
Variable number_truthy : Z -> Z -> bool.
(** [process.env.NOTION_TOKEN] and [process.env.NOTION_DATABASE_ID]. *)
Variable NOTION_TOKEN : option string.
Variable NOTION_DATABASE_ID : option string.
Variable enricher_getIncompleteRecipes : Completion (list Recipe).
Variable enricher_createReviewData : list Recipe -> Completion (list ReviewItem).
Variable notion_pages_update : NotionWrite -> Completion unit.
(** The timer of [withTimeout] wins against the update of the properties. *)
Variable update_timed_out : bool.

Definition DATABASE_ID : string := str_or NOTION_DATABASE_ID DEFAULT_DATABASE_ID.

(** [item.extractedData?.images] is truthy. *)
Definition hasImages (item : ReviewItem) : bool :=
  match item_extractedData item with
  | PageData d => is_array (images d)
  | NotionOnly => false
  end.

(** The inner [try] of the update, with its [catch]. *)
Definition updateRecipe (validatedRecipeId : string)
  (validatedUpdates : gmap string json) : HttpResponse * list NotionWrite :=
  let properties := updateProperties number_truthy validatedUpdates in
  let failed := mkHttpResponse 500 (ErrorBody "Failed to update recipe") in
  let updated := mkHttpResponse 200 (MessageBody "Recipe updated successfully") in
  let cover :=
    CoverUpdate validatedRecipeId (default JNull (validatedUpdates !! "selectedImage")) in
  let write := PropertiesUpdate validatedRecipeId properties in
  let '(covered, writes) :=
    if ToBoolean number_truthy (validatedUpdates !! "selectedImage")
    then (notion_pages_update cover, [cover])
    else (Return tt, []) in
  match covered with
  | Throw _ => (failed, writes)
  | Return _ =>
      if (0 <? size properties)%nat then
        match withTimeout (notion_pages_update write) update_timed_out
                "Notion update timeout" with
        | Throw _ => (failed, writes ++ [write])%list
        | Return _ => (updated, writes ++ [write])%list
        end
      else (updated, writes)
  end.

Definition handler (req : Request) : HttpResponse * list NotionWrite :=
  if String.eqb (req_method req) "OPTIONS" then (mkHttpResponse 200 NoBody, [])
  else
    (* try *)
    let body : Completion HttpResponse * list NotionWrite :=
      if negb (truthy NOTION_TOKEN) || negb (truthy (Some DATABASE_ID))
      then (Return (mkHttpResponse 500
                      (ErrorBody "Missing required environment variables")), [])
      else if String.eqb (req_method req) "GET" then
        match enricher_getIncompleteRecipes with
        | Throw e => (Throw e, [])
        | Return recipes =>
            if (length recipes =? 0)%nat
            then (Return (mkHttpResponse 200
                            (ReviewBody [] 0 0 (Some "No recipes need enrichment"))), [])
            else
              match enricher_createReviewData recipes with
              | Throw e => (Throw e, [])
              | Return reviewData =>
                  (Return (mkHttpResponse 200
                     (ReviewBody reviewData
                        (fold_left (fun sum item =>
                                      (sum + size (item_suggestedChanges item))%nat)
                                   reviewData 0%nat)
                        (length (List.filter hasImages reviewData))
                        None)), [])
              end
        end
      else if String.eqb (req_method req) "POST" then
        (* [req.body || {}] *)
        let action := body_field (req_body req) "action" in
        let recipeId := body_field (req_body req) "recipeId" in
        let updates := body_field (req_body req) "updates" in
        if strict_equals action "updateRecipe"
           && ToBoolean number_truthy recipeId && ToBoolean number_truthy updates
        then
          match validateRecipeId recipeId with
          | Throw e => (Throw e, [])
          | Return validatedRecipeId =>
              match validateUpdateData number_toString (default JNull updates) with
              | Throw e => (Throw e, [])
              | Return validatedUpdates =>
                  let '(response, writes) :=
                    updateRecipe validatedRecipeId validatedUpdates in
                  (Return response, writes)
              end
          end
        else (Return (mkHttpResponse 400
                        (ErrorBody
                           "Invalid request format - missing action, recipeId, or updates")),
              [])
      else (Return (mkHttpResponse 405 (ErrorBody "Method not allowed")), []) in
    match body with
    | (Return response, writes) => (response, writes)
    | (Throw e, writes) => (mkHttpResponse 500 (ErrorBody e), writes)   (* catch *)
    end.

End Handler.

End Part000.

(** ** [part_001]: title standardization, fence stripping, validation *)

Module Part001.

Definition MAX_RECIPES_PER_BATCH : nat := 5.

(** *** Title standardization *)

(** [/\s*\|\s*.+$/] *)
Definition re_site_bar : list atom :=
  [Many is_space; chr "|"; Many is_space; Many1 dot; Eol].

(** [/Recipe\s*$/i] *)
Definition re_trailing_recipe : list atom :=
  (lit_i "Recipe" ++ [Many is_space; Eol])%list.

(** [/^\s*Recipe:\s*/i], anchored at the start. *)
Definition re_leading_recipe : list atom :=
  (Many is_space :: lit_i "Recipe:" ++ [Many is_space])%list.

(** [/\s*-\s*.+$/] *)
Definition re_site_dash : list atom :=
  [Many is_space; chr "-"; Many is_space; Many1 dot; Eol].

(** The chain of four [replace] calls and the [trim]. *)
Definition stripBoilerplate (title : string) : string :=
  let title := replace_empty re_site_bar title in
  let title := replace_empty re_trailing_recipe title in
  let title := replace_empty_anchored re_leading_recipe title in
  let title := replace_empty re_site_dash title in
  trim title.

Definition lowercaseWords : list string :=
  ["with"; "and"; "or"; "in"; "on"; "at"; "to"; "for"; "of"; "the"; "a"; "an"].

(** The callback of [map]. *)
Definition capitalizeWord (word : string) : string :=
  if arr_includes lowercaseWords (toLowerCase word) then toLowerCase word
  else toUpperCase (charAt0 word) ++ toLowerCase (slice1 word).

(** [.replace(/^./, c => c.toUpperCase())] *)
Definition upperFirst (s : string) : string :=
  match s with
  | String c s' => if dot c then String (upper_char c) s' else s
  | EmptyString => EmptyString
  end.

(** The capitalization stage: [split], [map], [join], first character. *)
Definition titleCase (title : string) : string :=
  upperFirst (join " " (map capitalizeWord (split_space title))).

Definition standardizeTitle (title : string) : string :=
  titleCase (stripBoilerplate title).

(** *** Code fences *)

Definition LF : ascii := "010"%char.

(** [/```json\n?/] and [/```\n?/] *)
Definition re_fence_json : list atom :=
  (lit "```json" ++ [Maybe (Ascii.eqb LF)])%list.

Definition re_fence : list atom :=
  (lit "```" ++ [Maybe (Ascii.eqb LF)])%list.

(** The clean-up of the response content before it is parsed. *)
Definition stripFences (aiContent : string) : string :=
  if includes aiContent "```"
  then replace_empty re_fence (replace_empty re_fence_json aiContent)
  else aiContent.

(** A response in the form the prompt tends to get: a [json] fence, a line
    feed, the text, a line feed, the closing fence. *)
Definition fenced (inner : string) : string :=
  "```json" ++ String LF (inner ++ String LF "```").

(** *** Validation against the vocabulary *)

Definition validateAnalysis (analysis : Analysis) (recipe : Recipe) : Analysis :=
  (* Preserve existing data *)
  let meal := if truthy (current_meal recipe) then None else meal analysis in
  let cuisine := if truthy (current_cuisine recipe) then None else cuisine analysis in
  let tags := if has_items (current_tags recipe) then None else tags analysis in
  let key_ingredients :=
    if has_items (current_ingredients recipe) then None
    else key_ingredients analysis in
  (* Validate against available options *)
  let meal :=
    if truthy meal && negb (arr_includes MEAL_OPTIONS (default "" meal))
    then Some "Main Dish" else meal in
  let cuisine :=
    if truthy cuisine && negb (arr_includes CUISINE_OPTIONS (default "" cuisine))
    then Some "American" else cuisine in
  let tags :=
    if is_array tags
    then Some (List.filter (fun tag => arr_includes TAG_OPTIONS tag) (default [] tags))
    else tags in
  let key_ingredients :=
    if is_array key_ingredients
    then Some (List.filter (fun ing => arr_includes INGREDIENT_OPTIONS ing)
                           (default [] key_ingredients))
    else key_ingredients in
  {| standardized_title := standardized_title analysis;
     meal := meal;
     cuisine := cuisine;
     tags := tags;
     key_ingredients := key_ingredients;
     confidence := confidence analysis;
     reasoning := reasoning analysis |}.

(** [validateAnalysis] on whatever [JSON.parse] handed to it.  The function
    above is this one on the values inside the classification result shape;
    outside the shape the same statements run on values of any type.  The
    module being strict code, an assignment to a property of a string, a
    number or a boolean throws, as every access to a property of [null]
    does; [filter] is there on arrays only.  The catch of
    [analyzeRecipeWithAI], the only caller, drops the error, and the text of
    an error that names the value it met is not followed further than its
    first words. *)

(** The keys of [if (recipe.current_...) analysis.... = null], in order. *)
Definition preserved (recipe : Recipe) : list string :=
  ((if truthy (current_meal recipe) then ["meal"] else [])
   ++ (if truthy (current_cuisine recipe) then ["cuisine"] else [])
   ++ (if has_items (current_tags recipe) then ["tags"] else [])
   ++ (if has_items (current_ingredients recipe) then ["key_ingredients"] else []))%list.

Definition nullify (preserve : bool) (key : string) (fields : list (string * json))
  : list (string * json) :=
  if preserve then obj_set fields key JNull else fields.

(** [if (analysis.key && !OPTIONS.includes(analysis.key)) analysis.key = fallback]. *)
Definition validate_choice (options : list string) (fallback key : string)
  (fields : list (string * json)) : list (string * json) :=
  match obj_get fields key with
  | Some v =>
      if json_truthy v && negb (json_includes options v)
      then obj_set fields key (JStr fallback)
      else fields
  | None => fields
  end.

(** [if (analysis.key) analysis.key = analysis.key.filter(x => OPTIONS.includes(x))]. *)
Definition validate_set (options : list string) (key : string)
  (fields : list (string * json)) : Completion (list (string * json)) :=
  match obj_get fields key with
  | Some v =>
      if json_truthy v then
        match v with
        | JArr items =>
            Return (obj_set fields key (JArr (List.filter (json_includes options) items)))
        | _ => Throw ("analysis." ++ key ++ ".filter is not a function")
        end
      else Return fields
  | None => Return fields
  end.

Definition validateAnalysis_parsed (analysis : json) (recipe : Recipe)
  : Completion Assigned :=
  match analysis with
  | JNull =>
      match preserved recipe with
      | key :: _ =>
          Throw ("Cannot set properties of null (setting '" ++ key ++ "')")
      | [] => Throw "Cannot read properties of null (reading 'meal')"
      end
  | JBool _ | JNum _ _ | JStr _ =>
      match preserved recipe with
      | _ :: _ => Throw "Cannot create property"
      | [] => Return (mkAssigned analysis [])
      end
  | JArr _ =>
      Return (mkAssigned analysis (map (fun key => (key, JNull)) (preserved recipe)))
  | JObj fields =>
      (* Preserve existing data *)
      let fields := nullify (truthy (current_meal recipe)) "meal" fields in
      let fields := nullify (truthy (current_cuisine recipe)) "cuisine" fields in
      let fields := nullify (has_items (current_tags recipe)) "tags" fields in
      let fields :=
        nullify (has_items (current_ingredients recipe)) "key_ingredients" fields in
      (* Validate against available options *)
      let fields := validate_choice MEAL_OPTIONS "Main Dish" "meal" fields in
      let fields := validate_choice CUISINE_OPTIONS "American" "cuisine" fields in
      match validate_set TAG_OPTIONS "tags" fields with
      | Throw e => Throw e
      | Return fields =>
          match validate_set INGREDIENT_OPTIONS "key_ingredients" fields with
          | Throw e => Throw e
          | Return fields => Return (mkAssigned (JObj fields) [])
          end
      end
  end.

(** *** Suggested change set *)

Definition formatSuggestedChanges (recipe : Recipe) (analysis : Analysis)
  (extractedData : option ExtractedData) : gmap string Change :=
  let changes : gmap string Change := ∅ in
  let changes :=
    if truthy (standardized_title analysis)
       && negb (String.eqb (default "" (standardized_title analysis)) (name recipe))
    then <["title" := mkChange (VString (name recipe))
                               (VString (default "" (standardized_title analysis)))]>
         changes
    else changes in
  let changes :=
    if truthy (meal analysis) && negb (truthy (current_meal recipe))
    then <["meal" := mkChange (VString "Empty")
                              (VString (default "" (meal analysis)))]> changes
    else changes in
  let changes :=
    if truthy (cuisine analysis) && negb (truthy (current_cuisine recipe))
    then <["cuisine" := mkChange (VString "Empty")
                                 (VString (default "" (cuisine analysis)))]> changes
    else changes in
  let changes :=
    if is_array (tags analysis) && negb (has_items (current_tags recipe))
    then <["tags" := mkChange (VArray (default [] (current_tags recipe)))
                              (VArray (default [] (tags analysis)))]> changes
    else changes in
  let changes :=
    if is_array (key_ingredients analysis)
       && negb (has_items (current_ingredients recipe))
    then <["key_ingredients" :=
             mkChange (VArray (default [] (current_ingredients recipe)))
                      (VArray (default [] (key_ingredients analysis)))]> changes
    else changes in
  let changes :=
    if truthy (match extractedData with
               | Some d => imageUrl d
               | None => None
               end)
    then <["image" :=
             mkChange (VString "No image")
                      (VString (default "" (match extractedData with
                                            | Some d => imageUrl d
                                            | None => None
                                            end)))]> changes
    else changes in
  changes.

(** *** Page extraction and classification *)

Section Classifier.

Variable scrapePage : string -> Completion ExtractedData.
Variable JSON_parse : string -> option json.

Definition extractRecipeFromURL (fetched : FetchOutcome) (url : string)
  : Completion (option ExtractedData) :=
  if negb (truthy (Some url)) then Return None
  else
    (* try *)
    let body : Completion (option ExtractedData) :=
      match fetched with
      | FetchRejected message => Throw message
      | FetchResponded ok text =>
          if negb ok then Return None
          else
            match text with
            | Throw e => Throw e
            | Return html =>
                match scrapePage html with
                | Return recipeData => Return (Some recipeData)
                | Throw e => Throw e
                end
            end
      end in
    match body with
    | Return r => Return r
    | Throw _ => Return None                     (* catch *)
    end.

Definition analyzeRecipeWithAI (reply : AIReply) (recipe : Recipe)
  (extractedData : option ExtractedData) : Completion (option AnalysisObject) :=
  (* try *)
  let body : Completion (option AnalysisObject) :=
    match reply with
    | AIRequestFailed message => Throw message
    | AIStatusNotOk status => Throw ("OpenAI API error: " ++ status)
    | AIBodyUnreadable message => Throw message
    | AIContent None => Throw "Cannot read properties of undefined (reading 'trim')"
    | AIContent (Some content) =>
        let aiContent := trim content in
        let aiContent := stripFences aiContent in
        match JSON_parse aiContent with
        | None => Throw "SyntaxError"
        | Some analysis =>
            match validateAnalysis_parsed analysis recipe with
            | Return validated => Return (Some (analysis_object validated))
            | Throw e => Throw e
            end
        end
    end in
  match body with
  | Return r => Return r
  | Throw _ => Return None                       (* catch *)
  end.

End Classifier.

(** *** Orchestrators *)

(** [filterExtractedData(extractedData, missingFields)]: only the title, the
    images and the image URL are kept.  Its first statement reads a property
    of the argument, which throws on [null]. *)
Definition filterExtractedData (extractedData : option ExtractedData)
  : Completion ExtractedData :=
  match extractedData with
  | None => Throw "Cannot read properties of null (reading 'title')"
  | Some d =>
      Return {| title := if truthy (title d) then title d else None;
                ingredients := None;
                instructions := None;
                images := if is_array (images d) then images d else None;
                description := None;
                imageUrl := if truthy (imageUrl d) then imageUrl d else None |}
  end.

Definition createBasicAnalysis (extractedData : option ExtractedData) : Analysis :=
  let scraped :=
    match extractedData with
    | Some d => ingredients d
    | None => None
    end in
  {| standardized_title := None;
     meal := None;
     cuisine := None;
     tags := Some (slice0 3 (default [] scraped));
     key_ingredients := Some (slice0 5 (default [] scraped));
     confidence := Some (5 # 10)%Q;
     reasoning := Some "Basic analysis - AI processing was unavailable" |}.

Section Orchestrator.

(** The extractor and the classifier as the orchestrators see them, one
    outcome per recipe; [page_loads] says whether [loadPageContent] got the
    page of the recipe. *)
Variable this_extractRecipeFromURL : string -> Completion (option ExtractedData).
Variable this_analyzeRecipeWithAI :
  Recipe -> option ExtractedData -> Completion (option Analysis).
Variable page_loads : Recipe -> bool.

(** [needsDataExtraction(recipe).needsAnyData]: everything is needed when
    the page content could not be loaded, and nothing otherwise, the list
    of missing fields being left empty. *)
Definition needsAnyData (recipe : Recipe) : bool :=
  if negb (page_loads recipe) then true
  else (0 <? @length string [])%nat.

(** One round of the loop of [createReviewData]: the item to push, if any. *)
Definition reviewRecipe (recipe : Recipe) : Completion (option ReviewItem) :=
  let extracted : Completion (option ExtractedData) :=
    if needsAnyData recipe then
      match this_extractRecipeFromURL (link recipe) with
      | Throw e => Throw e
      | Return None => Return None
      | Return (Some d) =>
          match filterExtractedData (Some d) with
          | Return d' => Return (Some d')
          | Throw e => Throw e
          end
      end
    else Return None in
  match extracted with
  | Throw e => Throw e
  | Return extractedData =>
      match this_analyzeRecipeWithAI recipe extractedData with
      | Throw e => Throw e
      | Return None => Return None
      | Return (Some analysis) =>
          match
            match extractedData with
            | Some d =>
                match filterExtractedData (Some d) with
                | Return d' => Return (PageData d')
                | Throw e => Throw e
                end
            | None => Return NotionOnly
            end
          with
          | Throw e => Throw e
          | Return shown =>
              Return (Some
                {| item_recipe := recipe;
                   item_extractedData := shown;
                   item_analysis := analysis;
                   item_suggestedChanges :=
                     formatSuggestedChanges recipe analysis extractedData |})
          end
      end
  end.

(** One round of the loop of [createReviewDataWithWebsiteRefresh]. *)
Definition rescrapeRecipe (recipe : Recipe) : Completion (option ReviewItem) :=
  match this_extractRecipeFromURL (link recipe) with
  | Throw e => Throw e
  | Return extractedData =>
      let analysis : option Analysis :=
        match this_analyzeRecipeWithAI recipe extractedData with
        | Return a => a
        | Throw _ => Some (createBasicAnalysis extractedData)     (* catch *)
        end in
      match analysis with
      | None => Return None
      | Some analysis =>
          match filterExtractedData extractedData with
          | Throw e => Throw e
          | Return shown =>
              Return (Some
                {| item_recipe := recipe;
                   item_extractedData := PageData shown;
                   item_analysis := analysis;
                   item_suggestedChanges :=
                     formatSuggestedChanges recipe analysis None |})
          end
      end
  end.

(** A [for] loop pushing the items of its rounds; a throwing round ends
    the loop and the call. *)
Fixpoint reviewLoop (round : Recipe -> Completion (option ReviewItem))
  (recipes : list Recipe) (reviewItems : list ReviewItem)
  : Completion (list ReviewItem) :=
  match recipes with
  | [] => Return reviewItems
  | recipe :: rest =>
      match round recipe with
      | Throw e => Throw e
      | Return (Some item) => reviewLoop round rest (reviewItems ++ [item])
      | Return None => reviewLoop round rest reviewItems
      end
  end.

Definition createReviewData (recipes : list Recipe) : Completion (list ReviewItem) :=
  reviewLoop reviewRecipe (slice0 MAX_RECIPES_PER_BATCH recipes) [].

Definition createReviewDataWithWebsiteRefresh (recipes : list Recipe)
  : Completion (list ReviewItem) :=
  reviewLoop rescrapeRecipe (slice0 MAX_RECIPES_PER_BATCH recipes) [].

(** One round of the loop of [createReviewDataWithAIRefresh].  A recipe
    carries no [cachedExtractedData] (none is set where recipes are built),
    so the page is extracted. *)
Definition reclassifyRecipe (recipe : Recipe) : Completion (option ReviewItem) :=
  match this_extractRecipeFromURL (link recipe) with
  | Throw e => Throw e
  | Return extractedData =>
      match this_analyzeRecipeWithAI recipe extractedData with
      | Throw e => Throw e
      | Return None => Return None
      | Return (Some analysis) =>
          match filterExtractedData extractedData with
          | Throw e => Throw e
          | Return shown =>
              Return (Some
                {| item_recipe := recipe;
                   item_extractedData := PageData shown;
                   item_analysis := analysis;
                   item_suggestedChanges :=
                     formatSuggestedChanges recipe analysis None |})
          end
      end
  end.

Definition createReviewDataWithAIRefresh (recipes : list Recipe)
  : Completion (list ReviewItem) :=
  reviewLoop reclassifyRecipe (slice0 MAX_RECIPES_PER_BATCH recipes) [].

End Orchestrator.

(** *** [getIncompleteRecipes] *)

(** The callback of [response.results.map]. *)
Definition recipeOf (page : NotionPage) : Recipe :=
  {| name := Part000.str_or (page_Name page) "";
     link := Part000.str_or (page_Link page) "";
     current_meal := page_Meal page;
     current_cuisine := page_Cuisine page;
     current_tags := Some (default [] (page_Tags page));
     current_ingredients := Some (default [] (page_KeyIngredients page)) |}.

Definition getIncompleteRecipes (notion_databases_query : Completion (list NotionPage))
  : Completion (list Recipe) :=
  (* try *)
  match notion_databases_query with
  | Return results => Return (map recipeOf results)
  | Throw _ => Return []                                       (* catch *)
  end.

(** *** The extractors *)

Definition titleSelectors : list string :=
  [ "h1.recipe-title";
    "h1[class*=" ++ quoted "recipe" ++ "]";
    ".entry-title"; "h1.post-title"; "h1"; "title" ].

Fixpoint extractTitle_from (page : Page) (selectors : list string) : option string :=
  match selectors with
  | [] => None
  | selector :: rest =>
      let title := trim (first_text page selector) in
      if truthy (Some title) && (3 <? String.length title)%nat
      then Some (standardizeTitle title)
      else extractTitle_from page rest
  end.

Definition extractTitle (page : Page) : option string :=
  extractTitle_from page titleSelectors.

Definition ingredientSelectors : list string :=
  [ ".recipe-ingredient"; ".ingredients li";
    "[class*=" ++ quoted "ingredient" ++ "] li";
    ".recipe-ingredients li" ].

(** What the callback of [each] pushes for one selector. *)
Definition textsOf (page : Page) (selector : string) : list string :=
  List.filter (fun text => truthy (Some text))
              (map (fun el => trim (el_text el)) (page selector)).

Definition extractIngredients (page : Page) : list string :=
  first_successful (textsOf page) ingredientSelectors [].

Definition instructionSelectors : list string :=
  [ ".recipe-instruction"; ".instructions li"; ".directions li";
    "[class*=" ++ quoted "instruction" ++ "] li" ].

Definition extractInstructions (page : Page) : list string :=
  first_successful (textsOf page) instructionSelectors [].

(** The object [recipeData] that [extractRecipeFromURL] builds from a
    loaded page.  The extractors are called through [this] in the order of
    the properties; the class has no [extractDescription] (nor the
    extractors named after it), so the fifth call throws. *)
Section RecipeData.

Variable this_extractTitle : Page -> Completion (option string).
Variable this_extractIngredients : Page -> Completion (list string).
Variable this_extractInstructions : Page -> Completion (list string).
Variable this_extractMainImage : Page -> Completion (option (list Image)).

Definition recipeData (page : Page) : Completion ExtractedData :=
  match this_extractTitle page with
  | Throw e => Throw e
  | Return title =>
      match this_extractIngredients page with
      | Throw e => Throw e
      | Return ingredients =>
          match this_extractInstructions page with
          | Throw e => Throw e
          | Return instructions =>
              match this_extractMainImage page with
              | Throw e => Throw e
              | Return images =>
                  Throw "this.extractDescription is not a function"
              end
          end
      end
  end.

End RecipeData.

(** *** [run] and [applyChangesToNotion]

    [sendMail] is [this.emailTransporter.sendMail]; a run returns its
    summary [(processed, total)], or nothing when no recipe needs
    enrichment, together with the mails it handed to [sendMail]. *)

Inductive Mail :=
| ReviewMail (reviewItems : list ReviewItem)
| ErrorMail (reason : string).

Section Run.

Variable this_getIncompleteRecipes : Completion (list Recipe).
Variable this_createReviewData : list Recipe -> Completion (list ReviewItem).
Variable sendMail : Mail -> Completion unit.

(** [sendEmailNotification]: the mail is handed over, a failure is logged
    and nothing is thrown. *)
Definition sendEmailNotification (reviewItems : list ReviewItem)
  : Completion unit * list Mail :=
  match sendMail (ReviewMail reviewItems) with
  | Return _ => (Return tt, [ReviewMail reviewItems])
  | Throw _ => (Return tt, [ReviewMail reviewItems])          (* catch *)
  end.

Definition run : Completion (option (nat * nat)) * list Mail :=
  (* try *)
  let body : Completion (option (nat * nat)) * list Mail :=
    match this_getIncompleteRecipes with
    | Throw e => (Throw e, [])
    | Return recipes =>
        if (length recipes =? 0)%nat then
          match sendEmailNotification [] with
          | (Return _, mails) => (Return None, mails)
          | (Throw e, mails) => (Throw e, mails)
          end
        else
          match this_createReviewData recipes with
          | Throw e => (Throw e, [])
          | Return reviewItems =>
              match sendEmailNotification reviewItems with
              | (Return _, mails) =>
                  (Return (Some (length reviewItems, length recipes)), mails)
              | (Throw e, mails) => (Throw e, mails)
              end
          end
    end in
  match body with
  | (Return result, mails) => (Return result, mails)
  | (Throw e, mails) =>                                        (* catch *)
      match sendMail (ErrorMail e) with
      | Return _ => (Throw e, mails ++ [ErrorMail e])%list
      | Throw e' => (Throw e', mails ++ [ErrorMail e])%list
      end
  end.

End Run.

(** One entry of the [changes] handed to [applyChangesToNotion]. *)
Record Approval := mkApproval {
  apply : option json;
  decided : option json          (* [suggested] *)
}.

Inductive NotionCall :=
| PagesUpdate (page_id : string) (properties : gmap string Property)
| BlocksAppend (block_id : string) (url : option json).

Section Apply.

Variable number_truthy : Z -> Z -> bool.
Variable notion_pages_update : NotionCall -> Completion unit.
Variable notion_blocks_append : NotionCall -> Completion unit.

(** [changes.key?.apply] is truthy. *)
Definition approved (changes : gmap string Approval) (key : string) : bool :=
  match changes !! key with
  | Some d => ToBoolean number_truthy (apply d)
  | None => false
  end.

Definition suggestedOf (changes : gmap string Approval) (key : string) : option json :=
  match changes !! key with
  | Some d => decided d
  | None => None
  end.

(** [suggested.map(x => ({ name: x }))], which only an array has. *)
Definition namesOf (x : option json) : Completion (list json) :=
  match x with
  | Some (JArr items) => Return items
  | _ => Throw "suggested.map is not a function"
  end.

(** [addImageToPage]: the block is appended, a failure is logged. *)
Definition addImageToPage (pageId : string) (imageUrl : option json)
  : Completion unit * list NotionCall :=
  match notion_blocks_append (BlocksAppend pageId imageUrl) with
  | Return _ => (Return tt, [BlocksAppend pageId imageUrl])
  | Throw _ => (Return tt, [BlocksAppend pageId imageUrl])    (* catch *)
  end.

Definition applyChangesToNotion (recipeId : string) (changes : gmap string Approval)
  : bool * list NotionCall :=
  (* try *)
  let properties : gmap string Property := ∅ in
  let properties :=
    if approved changes "title"
    then <["Name" := Title (default JNull (suggestedOf changes "title"))]> properties
    else properties in
  let properties :=
    if approved changes "meal"
    then <["Meal" := Select (default JNull (suggestedOf changes "meal"))]> properties
    else properties in
  let properties :=
    if approved changes "cuisine"
    then <["Cuisine" := Select (default JNull (suggestedOf changes "cuisine"))]> properties
    else properties in
  let tagged : Completion (gmap string Property) :=
    if approved changes "tags" then
      match namesOf (suggestedOf changes "tags") with
      | Return names => Return (<["Tags" := MultiSelect names]> properties)
      | Throw e => Throw e
      end
    else Return properties in
  let built : Completion (gmap string Property) :=
    match tagged with
    | Throw e => Throw e
    | Return properties =>
        if approved changes "key_ingredients" then
          match namesOf (suggestedOf changes "key_ingredients") with
          | Return names => Return (<["Key Ingredients" := MultiSelect names]> properties)
          | Throw e => Throw e
          end
        else Return properties
    end in
  match built with
  | Throw _ => (false, [])                                    (* catch *)
  | Return properties =>
      match notion_pages_update (PagesUpdate recipeId properties) with
      | Throw _ => (false, [PagesUpdate recipeId properties]) (* catch *)
      | Return _ =>
          if approved changes "image"
             && ToBoolean number_truthy (suggestedOf changes "image")
          then
            match addImageToPage recipeId (suggestedOf changes "image") with
            | (Return _, calls) => (true, PagesUpdate recipeId properties :: calls)
            | (Throw _, calls) => (false, PagesUpdate recipeId properties :: calls)
            end
          else (true, [PagesUpdate recipeId properties])
      end
  end.

End Apply.

(** *** The API handler

    As in [part_000] the methods of the enricher and [notion.pages.update]
    are parameters, and the handler returns its response with the calls of
    [notion.pages.update] it made.  [enricher_run] is [enricher.run()], which
    returns a summary [(processed, total)] or nothing. *)

Section Handler.

Variable number_toString : Z -> Z -> string.
Variable number_truthy : Z -> Z -> bool.
Variable enricher_getIncompleteRecipes : Completion (list Recipe).
Variable enricher_createReviewData : list Recipe -> Completion (list ReviewItem).
Variable enricher_createReviewDataWithWebsiteRefresh :
  list Recipe -> Completion (list ReviewItem).
Variable enricher_createReviewDataWithAIRefresh :
  list Recipe -> Completion (list ReviewItem).
Variable enricher_run : Completion (option (nat * nat)).
Variable notion_pages_update : NotionWrite -> Completion unit.

(** [item.extractedData?.imageUrl] is truthy. *)
Definition hasImageUrl (item : ReviewItem) : bool :=
  match item_extractedData item with
  | PageData d => truthy (imageUrl d)
  | NotionOnly => false
  end.

(** The inner [try] of the update, with its [catch]. *)
Definition updateRecipe (validatedRecipeId : string)
  (validatedUpdates : gmap string json) : HttpResponse * list NotionWrite :=
  let properties := updateProperties number_truthy validatedUpdates in
  let failed := mkHttpResponse 500 (ErrorBody "Failed to update recipe") in
  let updated := mkHttpResponse 200 (MessageBody "Recipe updated successfully") in
  let cover :=
    CoverUpdate validatedRecipeId (default JNull (validatedUpdates !! "selectedImage")) in
  let write := PropertiesUpdate validatedRecipeId properties in
  let '(covered, writes) :=
    if ToBoolean number_truthy (validatedUpdates !! "selectedImage")
    then (notion_pages_update cover, [cover])
    else (Return tt, []) in
  match covered with
  | Throw _ => (failed, writes)
  | Return _ =>
      if (0 <? size properties)%nat then
        match notion_pages_update write with
        | Throw _ => (failed, writes ++ [write])%list
        | Return _ => (updated, writes ++ [write])%list
        end
      else (updated, writes)
  end.

Definition handler (req : Request) : HttpResponse * list NotionWrite :=
  if String.eqb (req_method req) "OPTIONS" then (mkHttpResponse 200 NoBody, [])
  else
    (* try *)
    let body : Completion HttpResponse * list NotionWrite :=
      if String.eqb (req_method req) "GET" then
        let refreshType := Part000.str_or (req_query_refresh req) "notion" in
        let reviewed : Completion (list ReviewItem) :=
          match enricher_getIncompleteRecipes with
          | Throw e => Throw e
          | Return recipes =>
              if String.eqb refreshType "notion" then enricher_createReviewData recipes
              else if String.eqb refreshType "website"
                   then enricher_createReviewDataWithWebsiteRefresh recipes
              else if String.eqb refreshType "ai"
                   then enricher_createReviewDataWithAIRefresh recipes
              else enricher_createReviewData recipes
          end in
        match reviewed with
        | Throw e => (Throw e, [])
        | Return reviewData =>
            (Return (mkHttpResponse 200
               (ReviewBody reviewData
                  (fold_left (fun sum item =>
                                (sum + size (item_suggestedChanges item))%nat)
                             reviewData 0%nat)
                  (length (List.filter hasImageUrl reviewData))
                  None)), [])
        end
      else if String.eqb (req_method req) "POST" then
        (* [const { action, recipeId, updates } = req.body] *)
        match req_body req with
        | None =>
            (Throw "Cannot destructure property 'action' of 'req.body' as it is undefined.",
             [])
        | Some JNull =>
            (Throw "Cannot destructure property 'action' of 'req.body' as it is null.", [])
        | Some _ =>
            let action := body_field (req_body req) "action" in
            let recipeId := body_field (req_body req) "recipeId" in
            let updates := body_field (req_body req) "updates" in
            if strict_equals action "updateRecipe"
               && ToBoolean number_truthy recipeId && ToBoolean number_truthy updates
            then
              match validateRecipeId recipeId with
              | Throw e => (Throw e, [])
              | Return validatedRecipeId =>
                  match validateUpdateData number_toString (default JNull updates) with
                  | Throw e => (Throw e, [])
                  | Return validatedUpdates =>
                      let '(response, writes) :=
                        updateRecipe validatedRecipeId validatedUpdates in
                      (Return response, writes)
                  end
              end
            else
              match enricher_run with
              | Throw e => (Throw e, [])
              | Return result => (Return (mkHttpResponse 200 (RunBody result)), [])
              end
        end
      else (Return (mkHttpResponse 405 (BareErrorBody "Method not allowed")), []) in
    match body with
    | (Return response, writes) => (response, writes)
    | (Throw e, writes) => (mkHttpResponse 500 (ErrorBody e), writes)   (* catch *)
    end.

End Handler.

End Part001.

(** ** Predicates used in the statements *)

(** Every categorical value that is not [null] belongs to its vocabulary. *)
Definition vocabulary_closed (a : Analysis) : Prop :=
  (forall m, meal a = Some m -> m ∈ MEAL_OPTIONS)
  /\ (forall c, cuisine a = Some c -> c ∈ CUISINE_OPTIONS)
  /\ (forall l, tags a = Some l -> Forall (fun t => t ∈ TAG_OPTIONS) l)
  /\ (forall l, key_ingredients a = Some l ->
                Forall (fun i => i ∈ INGREDIENT_OPTIONS) l).

(** The same for the values that are neither [null] nor the empty string. *)
Definition vocabulary_closed_nonempty (a : Analysis) : Prop :=
  (forall m, meal a = Some m -> m <> "" -> m ∈ MEAL_OPTIONS)
  /\ (forall c, cuisine a = Some c -> c <> "" -> c ∈ CUISINE_OPTIONS)
  /\ (forall l, tags a = Some l -> Forall (fun t => t ∈ TAG_OPTIONS) l)
  /\ (forall l, key_ingredients a = Some l ->
                Forall (fun i => i ∈ INGREDIENT_OPTIONS) l).


(** What the validation of a single-valued field makes of the value it
    finds, and what the validation of a set makes of it. *)
Definition chosen (options : list string) (fallback : string) (found : option json)
  : option json :=
  match found with
  | Some v =>
      if json_truthy v && negb (json_includes options v) then Some (JStr fallback)
      else Some v
  | None => None
  end.

Definition filtered (options : list string) (key : string) (found : option json)
  : Completion (option json) :=
  match found with
  | Some v =>
      if json_truthy v then
        match v with
        | JArr items => Return (Some (JArr (List.filter (json_includes options) items)))
        | _ => Throw ("analysis." ++ key ++ ".filter is not a function")
        end
      else Return (Some v)
  | None => Return None
  end.

(** A field of a recipe is kept: the value found for it is replaced by
    [null] before the validation. *)
Definition kept (preserve : bool) (found : option json) : option json :=
  if preserve then Some JNull else found.





(** The tags the cooking-method, dish-type and flavour rules can push. *)
Definition styleVocabulary : list string :=
  ["Baked"; "Grilled"; "Roasted"; "Stir-Fry"; "Steamed"; "Braised"; "Salad";
   "Soup"; "Sandwich"; "Pasta"; "Curry"; "Spicy"; "Sweet"; "Creamy"].

(** A word: a string without a space, as [split(' ')] cuts them. *)
Fixpoint is_word (w : string) : Prop :=
  match w with
  | EmptyString => True
  | String c w' => Ascii.eqb c " " = false /\ is_word w'
  end.

(** The route and the analysis of a classifier call of [part_000]. *)
Definition ai_result_of
  (run : Completion (Part000.Route * AnalysisObject) * Part000.State)
  : option (Part000.Route * AnalysisObject) :=
  match run with
  | (Return r, _) => Some r
  | (Throw _, _) => None
  end.

(** ** Runs of classifier calls

    The calls of a process, one after the other over its state: the routes
    they took and the state at the end. *)

Section Runs.

Variable JSON_parse : string -> option json.
Variable OPENAI_API_KEY : option string.

Fixpoint run_calls (calls : list (Part000.AIEnv * Recipe * option ExtractedData))
  (st : Part000.State) : list Part000.Route * Part000.State :=
  match calls with
  | [] => ([], st)
  | (env, recipe, extractedData) :: rest =>
      match Part000.analyzeRecipeWithAI JSON_parse OPENAI_API_KEY env recipe
              extractedData st with
      | (Return (route, _), st1) =>
          let '(routes, st2) := run_calls rest st1 in
          (route :: routes, st2)
      | (Throw _, st1) => ([], st1)
      end
  end.

End Runs.


(** The value a classification result offers for a categorical field. *)
Definition suggestion (a : Analysis) (f : CategoricalField) : option FieldValue :=
  match f with
  | FMeal => VString <$> meal a
  | FCuisine => VString <$> cuisine a
  | FTags => VArray <$> tags a
  | FKeyIngredients => VArray <$> key_ingredients a
  end.

(** The vocabulary axis of a categorical field. *)
Definition options_of (f : CategoricalField) : list string :=
  match f with
  | FMeal => MEAL_OPTIONS
  | FCuisine => CUISINE_OPTIONS
  | FTags => TAG_OPTIONS
  | FKeyIngredients => INGREDIENT_OPTIONS
  end.

(** A value lies within a list of options: the string is one of them, the
    items of the array all are. *)
Definition value_within (options : list string) (v : FieldValue) : Prop :=
  match v with
  | VString s => s ∈ options
  | VArray l => Forall (fun x => x ∈ options) l
  end.

(** The characters of a string. *)
Definition chars (s : string) : list ascii := list_ascii_of_string s.

(** The limits [sanitizeInput] sets: a string of at most 10000 characters,
    an array of at most 50 strings of at most 100 characters each.  A value
    of another type is under no limit. *)
Definition within_limits (x : json) : Prop :=
  match x with
  | JStr s => (String.length s <= 10000)%nat
  | JArr items =>
      (length items <= 50)%nat
      /\ Forall (fun item => match item with
                             | JStr s => (String.length s <= 100)%nat
                             | _ => False
                             end) items
  | _ => True
  end.

Definition propertyNames : list string :=
  ["Name"; "Meal"; "Cuisine"; "Tags"; "Key Ingredients"].




(** A well-formed update request: the action, a truthy recipe id and
    truthy updates. *)
Definition is_update (number_truthy : Z -> Z -> bool) (req : Request) : bool :=
  strict_equals (body_field (req_body req) "action") "updateRecipe"
  && ToBoolean number_truthy (body_field (req_body req) "recipeId")
  && ToBoolean number_truthy (body_field (req_body req) "updates").


(** [extractRecipeFromURL] of [part_001] on the page the fetch of the URL
    brings, read as the source reads it. *)
Definition extractLoaded (cheerio_load : string -> Page)
  (this_extractTitle : Page -> Completion (option string))
  (this_extractIngredients : Page -> Completion (list string))
  (this_extractInstructions : Page -> Completion (list string))
  (this_extractMainImage : Page -> Completion (option (list Image)))
  (fetched : string -> FetchOutcome) (url : string)
  : Completion (option ExtractedData) :=
  Part001.extractRecipeFromURL
    (fun html => Part001.recipeData this_extractTitle this_extractIngredients
                   this_extractInstructions this_extractMainImage (cheerio_load html))
    (fetched url) url.

(** The key of [changes] a property of the page is written from. *)
Definition changeOf (property : string) : string :=
  if String.eqb property "Name" then "title"
  else if String.eqb property "Meal" then "meal"
  else if String.eqb property "Cuisine" then "cuisine"
  else if String.eqb property "Tags" then "tags"
  else "key_ingredients".

(** What holds of [images] and [seenUrls] throughout the scan of
    [extractMainImage] in [part_000]. *)
Definition scanned (state : list Image * list string) : Prop :=
  map img_url (fst state) = snd state
  /\ NoDup (snd state)
  /\ Forall (fun image =>
               Part000.isValidImageUrl (Some (img_url image)) = true
               /\ img_source image = "priority"
               /\ img_width image <> Some 0%Z /\ img_height image <> Some 0%Z)
            (fst state).

(** The result of a loop that leaves at the first selector which gives
    something: all that this selector gives, or nothing at all. *)
Definition from_first_selector (collect : string -> list string)
  (selectors lines : list string) : Prop :=
  (lines = [] /\ Forall (fun s => collect s = []) selectors)
  \/ exists before selector after,
       selectors = (before ++ selector :: after)%list
       /\ Forall (fun s => collect s = []) before
       /\ lines <> []
       /\ lines = collect selector.

(** ** Sample inputs *)

Definition failing_env (now : Z) : Part000.AIEnv :=
  Part000.mkAIEnv now now now (AIStatusNotOk "500 Internal Server Error").

Definition toast : Recipe := mkRecipe "French Toast" "" None None (Some []) (Some []).

(** A page whose fetch is refused, a classifier reply that parses, and
    stand-ins for the two methods of the orchestrators. *)
Definition no_page (html : string) : Completion ExtractedData :=
  Throw "no page".

Definition salad : Recipe :=
  mkRecipe "Greek Salad" "https://example.com/greek-salad" None None (Some []) (Some []).

Definition salad_analysis : Analysis :=
  mkAnalysis None (Some "Side Dish") (Some "Greek") None None None None.

Definition salad_reply : string :=
  "{" ++ quoted "meal" ++ ": " ++ quoted "Side Dish" ++ ", "
      ++ quoted "cuisine" ++ ": " ++ quoted "Greek" ++ "}".

Definition refused_extract (url : string) : Completion (option ExtractedData) :=
  Part001.extractRecipeFromURL no_page (FetchRejected "ECONNREFUSED") url.

Definition salad_classifier (recipe : Recipe) (extractedData : option ExtractedData)
  : Completion (option Analysis) :=
  Return (Some salad_analysis).

(** An extractor that throws on one URL, and the fallback as classifier. *)
Definition brittle_extract (task : nat) (url : string)
  : Completion (option ExtractedData) :=
  if String.eqb url "https://down.example.com" then Throw "socket hang up"
  else Return None.

Definition fallback_classifier (task : nat) (recipe : Recipe)
  (extractedData : option ExtractedData) : Completion (option Analysis) :=
  Return (Some (Part000.createSmartFallbackAnalysis recipe extractedData)).

Definition soup : Recipe :=
  mkRecipe "Tomato Soup" "https://up.example.com/soup" None None (Some []) (Some []).

Definition stew : Recipe :=
  mkRecipe "Beef Stew" "https://down.example.com" None None (Some []) (Some []).

Definition dessert_reply : string :=
  "{" ++ quoted "meal" ++ ": " ++ quoted "Dessert" ++ ", "
      ++ quoted "confidence" ++ ": 0.9}".

Definition closed_env (content : string) : Part000.AIEnv :=
  Part000.mkAIEnv 0 0 0 (AIContent (Some content)).

(** Update requests, and a world in which Notion accepts every write. *)
Definition update_request (recipeId : string) (updates : list (string * json)) : Request :=
  mkRequest "POST" None
    (Some (JObj [("action", JStr "updateRecipe"); ("recipeId", JStr recipeId);
                 ("updates", JObj updates)])).

Definition notion_accepts (w : NotionWrite) : Completion unit := Return tt.

Definition no_number_text (m e : Z) : string := "0".

Definition nonzero (m e : Z) : bool := negb (m =? 0)%Z.

Definition handle000 (req : Request) : HttpResponse * list NotionWrite :=
  Part000.handler no_number_text nonzero (Some "secret") None (Return [])
    (fun _ => Return []) notion_accepts false req.

Definition handle001 (req : Request) : HttpResponse * list NotionWrite :=
  Part001.handler no_number_text nonzero (Return []) (fun _ => Return [])
    (fun _ => Return []) (fun _ => Return []) (Return (Some (0, 0)%nat))
    notion_accepts req.

(** A site that serves every page, an HTML reader that finds nothing, and
    the extractors of [part_001] as the class defines them. *)
Definition served (url : string) : FetchOutcome :=
  FetchResponded true (Return "<html></html>").

Definition blank_page (html : string) : Page := fun selector => [].

Definition served_extract : string -> Completion (option ExtractedData) :=
  extractLoaded blank_page
    (fun page => Return (Part001.extractTitle page))
    (fun page => Return (Part001.extractIngredients page))
    (fun page => Return (Part001.extractInstructions page))
    (fun page => Return None)
    served.

Definition no_int (x : option string) : option Z := None.

(** The state of a process of [part_000] after one extraction and one
    answered classification. *)
Definition served_env : Part000.ScrapeEnv :=
  Part000.mkScrapeEnv 0 0 (fun attempt => served "https://example.com/toast") false.

Definition busy_state : Part000.State :=
  snd (Part000.analyzeRecipeWithAI reference_JSON_parse (Some "sk-test")
         (closed_env dessert_reply) toast None
         (snd (Part000.extractRecipeFromURL
                 (fun html => Return (Part000.recipeData no_int (blank_page html)))
                 served_env "https://example.com/toast" Part000.initial_state))).

(** A page with a heading, two ingredient lines and one picture. *)
Definition plain (text : string) : Element := mkElement text (fun attribute => None).

Definition picture (src : string) : Element :=
  mkElement "" (fun attribute => if String.eqb attribute "src" then Some src else None).

Definition cake_page : Page := fun selector =>
  if String.eqb selector "h1" then [plain "  Recipe: Chocolate cake | My Kitchen "]
  else if String.eqb selector ".ingredient"
       then [plain " 200 g flour "; plain "3 eggs"; plain "3 eggs"; plain "x"]
  else if String.eqb selector ".recipe-image img"
       then [picture "https://example.com/cake.jpg"; picture "/static/logo.png";
             picture "https://example.com/cake.jpg"]
  else [].

(* ===================================================================== *)
(** * Part II: properties *)
(* ===================================================================== *)

Example parse_object :
  reference_JSON_parse
    ("{" ++ quoted "meal" ++ ": " ++ quoted "Dessert" ++ ", "
         ++ quoted "tags" ++ ": [" ++ quoted "Sweet" ++ ", " ++ quoted "Baked" ++ "], "
         ++ quoted "confidence" ++ ": 0.85, " ++ quoted "x" ++ ": null}")
  = Some (JObj [("meal", JStr "Dessert"); ("tags", JArr [JStr "Sweet"; JStr "Baked"]);
               ("confidence", JNum 85 (-2)); ("x", JNull)]).
Proof. vm_compute. reflexivity. Qed.

Example spicy_chicken_curry :
  Part000.createSmartFallbackAnalysis
    (mkRecipe "Spicy Chicken Curry" "" None None (Some []) (Some [])) None
  = mkAnalysis None (Some "Main Dish") (Some "Indian") (Some ["Curry"; "Spicy"]) None
      (Some (7 # 10)%Q) (Some "Smart rule-based analysis with ingredient extraction").
Proof. vm_compute. reflexivity. Qed.

Example spicy_chicken_curry_changes :
  dom (Part000.formatSuggestedChanges
         (mkRecipe "Spicy Chicken Curry" "" None None (Some []) (Some []))
         (Part000.createSmartFallbackAnalysis
            (mkRecipe "Spicy Chicken Curry" "" None None (Some []) (Some [])) None)
         None)
  = ({["meal"; "cuisine"; "tags"]} : gset string).
Proof. vm_compute. reflexivity. Qed.

Example standardize_site_suffix :
  Part001.standardizeTitle "easy chicken and rice recipe | My Kitchen" = "Easy Chicken and Rice".
Proof. vm_compute. reflexivity. Qed.

Example strip_json_fence :
  Part001.stripFences ("```json" ++ String Part001.LF "{}" ++ String Part001.LF "```")
  = String "{" (String "}" (String Part001.LF "")).
Proof. vm_compute. reflexivity. Qed.

Example includes_substring : includes "spicy chicken curry" "curry" = true.
Proof. reflexivity. Qed.

(** ** Membership tests *)

Lemma arr_includes_true (arr : list string) (x : string) :
  arr_includes arr x = true <-> x ∈ arr.
Proof. unfold arr_includes. apply bool_decide_eq_true. Qed.

Lemma arr_includes_false (arr : list string) (x : string) :
  arr_includes arr x = false <-> x ∉ arr.
Proof. unfold arr_includes. apply bool_decide_eq_false. Qed.

Lemma truthy_Some (s : string) : truthy (Some s) = true <-> s <> "".
Proof.
  unfold truthy. destruct (String.eqb_spec s ""); simpl; split; congruence.
Qed.

Lemma filter_members (options l : list string) :
  Forall (fun x => x ∈ options) (List.filter (fun x => arr_includes options x) l).
Proof.
  induction l as [|x l IH]; simpl; [constructor|].
  destruct (arr_includes options x) eqn:E; [|exact IH].
  constructor; [by apply arr_includes_true | exact IH].
Qed.

(** ** C1: existing values are never overwritten *)

Ltac other_keys :=
  repeat match goal with
         | |- context [if ?c then _ else _] => destruct c
         end;
  repeat (rewrite lookup_insert_ne by done);
  apply lookup_empty.

Lemma format000_skips_nonempty (recipe : Recipe) (analysis : Analysis)
  (extractedData : option ExtractedData) (f : CategoricalField) :
  field_nonempty recipe f = true ->
  Part000.formatSuggestedChanges recipe analysis extractedData !! change_key f = None.
Proof.
  intros H. unfold Part000.formatSuggestedChanges.
  destruct f; simpl in H; rewrite H; cbn [negb andb change_key]; other_keys.
Qed.

Lemma format001_skips_nonempty (recipe : Recipe) (analysis : Analysis)
  (extractedData : option ExtractedData) (f : CategoricalField) :
  field_nonempty recipe f = true ->
  Part001.formatSuggestedChanges recipe analysis extractedData !! change_key f = None.
Proof.
  intros H. unfold Part001.formatSuggestedChanges.
  destruct f; simpl in H; rewrite H; rewrite ?andb_false_r;
    cbn [negb andb change_key]; other_keys.
Qed.

(** C1.  For every recipe, every classification result (whichever classifier
    built it) and every categorical field (meal, cuisine, tags, key
    ingredients): if the field of the recipe already holds a value, the
    suggested change set built for the recipe has no entry for that field,
    in both variants of [formatSuggestedChanges]. *)
Theorem never_overwrite (recipe : Recipe) (analysis : Analysis)
  (extractedData : option ExtractedData) (f : CategoricalField) :
  field_nonempty recipe f = true ->
  Part000.formatSuggestedChanges recipe analysis extractedData !! change_key f = None
  /\ Part001.formatSuggestedChanges recipe analysis extractedData !! change_key f = None.
Proof.
  intros H. split.
  - by apply format000_skips_nonempty.
  - by apply format001_skips_nonempty.
Qed.

Lemma never_overwrite_witness :
  Part000.formatSuggestedChanges
    (mkRecipe "Chili" "" None None (Some ["Spicy"]) None)
    (mkAnalysis None (Some "Main Dish") None (Some ["Stew"; "Savory"]) None None None)
    None !! "tags" = None
  /\ Part001.formatSuggestedChanges
       (mkRecipe "Chili" "" None None (Some ["Spicy"]) None)
       (mkAnalysis None (Some "Main Dish") None (Some ["Stew"; "Savory"]) None None None)
       None !! "tags" = None.
Proof.
  exact (never_overwrite
           (mkRecipe "Chili" "" None None (Some ["Spicy"]) None)
           (mkAnalysis None (Some "Main Dish") None (Some ["Stew"; "Savory"]) None None None)
           None FTags eq_refl).
Defined.

(** ** C2: vocabulary closure *)

Ltac member := apply (bool_decide_unpack _); vm_compute; exact I.

Lemma inferMeal_member (name : string) : Part000.inferMeal name ∈ MEAL_OPTIONS.
Proof.
  unfold Part000.inferMeal.
  repeat match goal with
         | |- context [if ?c then _ else _] => destruct c
         end; member.
Qed.

Lemma inferCuisine_member (name c : string) :
  Part000.inferCuisine name = Some c -> c ∈ CUISINE_OPTIONS.
Proof.
  unfold Part000.inferCuisine.
  repeat match goal with
         | |- context [if ?c then _ else _] => destruct c
         end; intros [= <-]; member.
Qed.

Lemma push_if_Forall (P : string -> Prop) (c : bool) (tag : string) (tags : list string) :
  P tag -> Forall P tags -> Forall P (Part000.push_if c tag tags).
Proof.
  intros Ht Hl. unfold Part000.push_if. destruct c; [|exact Hl].
  apply Forall_app. split; [exact Hl | by constructor].
Qed.

Lemma styleTags_in_styleVocabulary (name ingredientText : string) :
  Forall (fun t => t ∈ styleVocabulary) (Part000.styleTags name ingredientText).
Proof.
  unfold Part000.styleTags.
  repeat (apply push_if_Forall; [member|]).
  constructor.
Qed.

Lemma styleTags_Forall (P : string -> Prop) (name ingredientText : string) :
  Forall P styleVocabulary ->
  Forall P (Part000.styleTags name ingredientText).
Proof.
  intros H. eapply Forall_impl; [apply styleTags_in_styleVocabulary|].
  intros t Ht. by apply (proj1 (Forall_forall _ _) H).
Qed.

Lemma dietaryTags_Forall (P : string -> Prop) (name ingredientText : string) :
  P "Vegan" -> P "Vegetarian" ->
  Forall P (Part000.dietaryTags name ingredientText).
Proof.
  intros Hv Hg. unfold Part000.dietaryTags.
  repeat match goal with
         | |- context [if ?c then _ else _] => destruct c
         end; repeat constructor; assumption.
Qed.

Lemma inferTags_member (name : string) (ingredients l : list string) :
  Part000.inferTagsFromNameAndIngredients name ingredients = Some l ->
  Forall (fun t => t ∈ TAG_OPTIONS) l.
Proof.
  unfold Part000.inferTagsFromNameAndIngredients.
  destruct (0 <? _)%nat; [|discriminate]. intros H. apply (inj Some) in H as <-.
  unfold slice0. apply Forall_take, Forall_app. split.
  - apply styleTags_Forall. repeat constructor; member.
  - apply dietaryTags_Forall; member.
Qed.

Lemma match_entry_member (ingredient : string) (keys : list string)
  (entry : string * list string) :
  Forall (fun i => i ∈ INGREDIENT_OPTIONS) keys ->
  Forall (fun i => i ∈ INGREDIENT_OPTIONS) (Part000.match_entry ingredient keys entry).
Proof.
  intros H. destruct entry as [key patterns]. unfold Part000.match_entry.
  destruct (existsb _ patterns); [|exact H].
  destruct (find _ INGREDIENT_OPTIONS) as [mapped|] eqn:E; [|exact H].
  destruct (_ && _); [|exact H].
  apply Forall_app. split; [exact H|]. constructor; [|constructor].
  apply find_some in E. apply list_elem_of_In. tauto.
Qed.

Lemma fold_entries_member (ingredient : string) (mapping : list (string * list string))
  (keys : list string) :
  Forall (fun i => i ∈ INGREDIENT_OPTIONS) keys ->
  Forall (fun i => i ∈ INGREDIENT_OPTIONS)
         (fold_left (Part000.match_entry ingredient) mapping keys).
Proof.
  revert keys. induction mapping as [|e mapping IH]; intros keys H; simpl; [exact H|].
  apply IH. by apply match_entry_member.
Qed.

Lemma scan_ingredients_member (scraped keys : list string) :
  Forall (fun i => i ∈ INGREDIENT_OPTIONS) keys ->
  Forall (fun i => i ∈ INGREDIENT_OPTIONS) (Part000.scan_ingredients scraped keys).
Proof.
  revert keys. induction scraped as [|x scraped IH]; intros keys H; [exact H|].
  cbn [Part000.scan_ingredients].
  pose proof (fold_entries_member (toLowerCase x) Part000.ingredientMapping keys H) as Hf.
  destruct (5 <=? _)%nat; [exact Hf | by apply IH].
Qed.

Lemma extractKeyIngredients_member (scraped l : list string) :
  Part000.extractKeyIngredientsFromList scraped = Some l ->
  Forall (fun i => i ∈ INGREDIENT_OPTIONS) l.
Proof.
  unfold Part000.extractKeyIngredientsFromList.
  destruct (0 <? _)%nat; [|discriminate]. intros H. apply (inj Some) in H as <-.
  apply scan_ingredients_member. constructor.
Qed.

Lemma fallback_vocabulary_closed (recipe : Recipe) (extractedData : option ExtractedData) :
  vocabulary_closed (Part000.createSmartFallbackAnalysis recipe extractedData).
Proof.
  unfold vocabulary_closed, Part000.createSmartFallbackAnalysis. cbn [meal cuisine tags key_ingredients].
  repeat split.
  - intros m. destruct (negb _); [|discriminate]. intros [= <-]. apply inferMeal_member.
  - intros c. destruct (negb _); [|discriminate]. apply inferCuisine_member.
  - intros l. destruct (negb _); [|discriminate]. apply inferTags_member.
  - intros l. destruct (_ && _); [|discriminate]. apply extractKeyIngredients_member.
Qed.

Lemma validate_closed_nonempty (analysis : Analysis) (recipe : Recipe) :
  vocabulary_closed_nonempty (Part001.validateAnalysis analysis recipe).
Proof.
  unfold vocabulary_closed_nonempty, Part001.validateAnalysis.
  cbn [meal cuisine tags key_ingredients].
  repeat split.
  - intros m. destruct (truthy (current_meal recipe)); [discriminate|].
    destruct (meal analysis) as [m0|]; [|discriminate]. cbn [from_option id].
    destruct (truthy (Some m0)) eqn:T; cbn [andb].
    + destruct (arr_includes MEAL_OPTIONS m0) eqn:E; cbn [negb].
      * intros [= <-] _. by apply arr_includes_true.
      * intros [= <-] _. member.
    + intros [= <-] Hne. apply truthy_Some in Hne. congruence.
  - intros c. destruct (truthy (current_cuisine recipe)); [discriminate|].
    destruct (cuisine analysis) as [c0|]; [|discriminate]. cbn [from_option id].
    destruct (truthy (Some c0)) eqn:T; cbn [andb].
    + destruct (arr_includes CUISINE_OPTIONS c0) eqn:E; cbn [negb].
      * intros [= <-] _. by apply arr_includes_true.
      * intros [= <-] _. member.
    + intros [= <-] Hne. apply truthy_Some in Hne. congruence.
  - intros l. destruct (has_items (current_tags recipe)); [discriminate|].
    destruct (tags analysis) as [l0|]; [|discriminate]. cbn [is_array from_option id].
    intros [= <-]. apply filter_members.
  - intros l. destruct (has_items (current_ingredients recipe)); [discriminate|].
    destruct (key_ingredients analysis) as [l0|]; [|discriminate]. cbn [is_array from_option id].
    intros [= <-]. apply filter_members.
Qed.


(** *** [validateAnalysis] on parsed values *)

Lemma obj_get_app (fields : list (string * json)) (k key : string) (v : json) :
  obj_get (fields ++ [(k, v)]) key
  = if String.eqb k key then Some v else obj_get fields key.
Proof.
  induction fields as [|[k0 v0] fields IH]; cbn [app obj_get].
  - by destruct (String.eqb k key).
  - rewrite IH. by destruct (String.eqb k key).
Qed.

Lemma obj_get_replace (fields : list (string * json)) (k key : string) (v : json) :
  obj_get (map (fun member => if String.eqb (fst member) k
                              then (fst member, v) else member) fields) key
  = if String.eqb k key
    then match obj_get fields k with Some _ => Some v | None => None end
    else obj_get fields key.
Proof.
  induction fields as [|[k0 v0] fields IH]; cbn [map obj_get fst].
  - by destruct (String.eqb k key).
  - destruct (String.eqb k0 k) eqn:E0; cbn [obj_get]; rewrite IH.
    + apply String.eqb_eq in E0 as ->.
      destruct (String.eqb k key) eqn:E; [|reflexivity].
      apply String.eqb_eq in E. subst. rewrite ?String.eqb_refl.
      by destruct (obj_get fields _).
    + destruct (String.eqb k key) eqn:E; [|reflexivity].
      apply String.eqb_eq in E. subst. rewrite ?E0.
      by destruct (obj_get fields _).
Qed.

Lemma obj_get_set (fields : list (string * json)) (k key : string) (v : json) :
  obj_get (obj_set fields k v) key
  = if String.eqb k key then Some v else obj_get fields key.
Proof.
  unfold obj_set. destruct (obj_get fields k) eqn:E.
  - by rewrite obj_get_replace, E.
  - apply obj_get_app.
Qed.

Lemma nullify_get (preserve : bool) (fields : list (string * json)) (k key : string) :
  obj_get (Part001.nullify preserve k fields) key
  = if String.eqb k key then kept preserve (obj_get fields key) else obj_get fields key.
Proof.
  unfold Part001.nullify, kept. destruct preserve; [apply obj_get_set|].
  by destruct (String.eqb k key).
Qed.

Lemma validate_choice_get (options : list string) (fallback : string)
  (fields : list (string * json)) (k key : string) :
  obj_get (Part001.validate_choice options fallback k fields) key
  = if String.eqb k key then chosen options fallback (obj_get fields key)
    else obj_get fields key.
Proof.
  unfold Part001.validate_choice, chosen.
  destruct (String.eqb k key) eqn:E.
  - apply String.eqb_eq in E as ->.
    destruct (obj_get fields key) as [v|] eqn:Ev; [|by rewrite Ev].
    destruct (json_truthy v && negb (json_includes options v)); [|exact Ev].
    by rewrite obj_get_set, String.eqb_refl.
  - destruct (obj_get fields k) as [v|]; [|reflexivity].
    destruct (json_truthy v && negb (json_includes options v)); [|reflexivity].
    by rewrite obj_get_set, E.
Qed.

Lemma validate_set_get (options : list string) (k : string)
  (fields : list (string * json)) :
  match filtered options k (obj_get fields k) with
  | Return found =>
      exists fields',
        Part001.validate_set options k fields = Return fields'
        /\ forall key, obj_get fields' key
                       = if String.eqb k key then found else obj_get fields key
  | Throw e => Part001.validate_set options k fields = Throw e
  end.
Proof.
  unfold filtered, Part001.validate_set.
  assert (Hsame : forall key,
             obj_get fields key
             = if String.eqb k key then obj_get fields k else obj_get fields key).
  { intros key. destruct (String.eqb k key) eqn:E; [|reflexivity].
    by apply String.eqb_eq in E as ->. }
  destruct (obj_get fields k) as [v|] eqn:Ev; [|by exists fields].
  destruct (json_truthy v); [|by exists fields].
  destruct v; try reflexivity.
  eexists. split; [reflexivity|]. intros key. apply obj_get_set.
Qed.

(** The members of the object [validateAnalysis] hands back, key by key. *)
Lemma validate_parsed_object (fields : list (string * json)) (recipe : Recipe) :
  match filtered TAG_OPTIONS "tags"
          (kept (has_items (current_tags recipe)) (obj_get fields "tags")),
        filtered INGREDIENT_OPTIONS "key_ingredients"
          (kept (has_items (current_ingredients recipe))
                (obj_get fields "key_ingredients")) with
  | Return t, Return k =>
      exists fields',
        Part001.validateAnalysis_parsed (JObj fields) recipe
        = Return (mkAssigned (JObj fields') [])
        /\ forall key,
             obj_get fields' key
             = if String.eqb "meal" key
               then chosen MEAL_OPTIONS "Main Dish"
                      (kept (truthy (current_meal recipe)) (obj_get fields "meal"))
               else if String.eqb "cuisine" key
               then chosen CUISINE_OPTIONS "American"
                      (kept (truthy (current_cuisine recipe)) (obj_get fields "cuisine"))
               else if String.eqb "tags" key then t
               else if String.eqb "key_ingredients" key then k
               else obj_get fields key
  | _, _ => exists e, Part001.validateAnalysis_parsed (JObj fields) recipe = Throw e
  end.
Proof.
  unfold Part001.validateAnalysis_parsed.
  set (f1 := Part001.nullify _ "meal" fields).
  set (f2 := Part001.nullify _ "cuisine" f1).
  set (f3 := Part001.nullify _ "tags" f2).
  set (f4 := Part001.nullify _ "key_ingredients" f3).
  set (f5 := Part001.validate_choice _ _ "meal" f4).
  set (f6 := Part001.validate_choice _ _ "cuisine" f5).
  assert (H6 : forall key,
             obj_get f6 key
             = if String.eqb "meal" key
               then chosen MEAL_OPTIONS "Main Dish"
                      (kept (truthy (current_meal recipe)) (obj_get fields "meal"))
               else if String.eqb "cuisine" key
               then chosen CUISINE_OPTIONS "American"
                      (kept (truthy (current_cuisine recipe)) (obj_get fields "cuisine"))
               else if String.eqb "tags" key
               then kept (has_items (current_tags recipe)) (obj_get fields "tags")
               else if String.eqb "key_ingredients" key
               then kept (has_items (current_ingredients recipe))
                         (obj_get fields "key_ingredients")
               else obj_get fields key).
  { intros key. unfold f6, f5, f4, f3, f2, f1.
    rewrite !validate_choice_get, !nullify_get.
    destruct (String.eqb "meal" key) eqn:E1.
    { apply String.eqb_eq in E1 as <-. reflexivity. }
    destruct (String.eqb "cuisine" key) eqn:E2.
    { apply String.eqb_eq in E2 as <-. reflexivity. }
    destruct (String.eqb "tags" key) eqn:E3.
    { apply String.eqb_eq in E3 as <-. reflexivity. }
    destruct (String.eqb "key_ingredients" key) eqn:E4; [|reflexivity].
    apply String.eqb_eq in E4 as <-. reflexivity. }
  clearbody f6. clear f1 f2 f3 f4 f5.
  pose proof (validate_set_get TAG_OPTIONS "tags" f6) as Ht.
  assert (Ht6 : obj_get f6 "tags"
                = kept (has_items (current_tags recipe)) (obj_get fields "tags"))
    by (rewrite H6; reflexivity).
  rewrite Ht6 in Ht. clear Ht6.
  destruct (filtered TAG_OPTIONS "tags" _) as [t|e].
  2:{ rewrite Ht. by exists e. }
  destruct Ht as (f7 & -> & H7).
  pose proof (validate_set_get INGREDIENT_OPTIONS "key_ingredients" f7) as Hk.
  assert (Hk7 : obj_get f7 "key_ingredients"
                = kept (has_items (current_ingredients recipe))
                       (obj_get fields "key_ingredients"))
    by (rewrite H7, H6; reflexivity).
  rewrite Hk7 in Hk. clear Hk7.
  destruct (filtered INGREDIENT_OPTIONS "key_ingredients" _) as [k|e].
  2:{ rewrite Hk. by exists e. }
  destruct Hk as (f8 & -> & H8).
  exists f8. split; [reflexivity|]. intros key. rewrite H8, H7, H6.
  destruct (String.eqb "key_ingredients" key) eqn:E4.
  { apply String.eqb_eq in E4 as <-. reflexivity. }
  destruct (String.eqb "tags" key) eqn:E3; [|reflexivity].
  apply String.eqb_eq in E3 as <-. reflexivity.
Qed.

Lemma validate_parsed_members (fields : list (string * json)) (recipe : Recipe)
  (validated : Assigned) :
  Part001.validateAnalysis_parsed (JObj fields) recipe = Return validated ->
  exists fields' t k,
    validated = mkAssigned (JObj fields') []
    /\ filtered TAG_OPTIONS "tags"
         (kept (has_items (current_tags recipe)) (obj_get fields "tags")) = Return t
    /\ filtered INGREDIENT_OPTIONS "key_ingredients"
         (kept (has_items (current_ingredients recipe))
               (obj_get fields "key_ingredients")) = Return k
    /\ obj_get fields' "meal"
       = chosen MEAL_OPTIONS "Main Dish"
           (kept (truthy (current_meal recipe)) (obj_get fields "meal"))
    /\ obj_get fields' "cuisine"
       = chosen CUISINE_OPTIONS "American"
           (kept (truthy (current_cuisine recipe)) (obj_get fields "cuisine"))
    /\ obj_get fields' "tags" = t
    /\ obj_get fields' "key_ingredients" = k
    /\ obj_get fields' "standardized_title" = obj_get fields "standardized_title"
    /\ obj_get fields' "confidence" = obj_get fields "confidence"
    /\ obj_get fields' "reasoning" = obj_get fields "reasoning".
Proof.
  intros H. pose proof (validate_parsed_object fields recipe) as Hobj.
  destruct (filtered TAG_OPTIONS "tags" _) as [t|e].
  2:{ destruct Hobj as [e' He]. congruence. }
  destruct (filtered INGREDIENT_OPTIONS "key_ingredients" _) as [k|e].
  2:{ destruct Hobj as [e' He]. congruence. }
  destruct Hobj as (fields' & Hv & Hget). rewrite Hv in H. injection H as <-.
  exists fields', t, k. repeat split; try reflexivity; by rewrite Hget.
Qed.

Lemma as_strings_filter (options : list string) (items : list json) (l : list string) :
  as_strings items = Some l ->
  as_strings (List.filter (json_includes options) items)
  = Some (List.filter (fun x => arr_includes options x) l).
Proof.
  revert l. induction items as [|item items IH]; intros l; cbn [as_strings].
  - by intros [= <-].
  - destruct item; try discriminate.
    destruct (as_strings items) as [l'|]; [|discriminate]. intros [= <-].
    cbn [List.filter json_includes]. specialize (IH l' eq_refl).
    destruct (arr_includes options s); cbn [as_strings]; by rewrite IH.
Qed.

Lemma chosen_typed (options : list string) (fallback : string) (preserve : bool)
  (found : option json) (m : option string) :
  as_string found = Some m ->
  as_string (chosen options fallback (kept preserve found))
  = Some (let m := if preserve then None else m in
          if truthy m && negb (arr_includes options (default "" m))
          then Some fallback else m).
Proof.
  unfold chosen, kept. destruct preserve; [reflexivity|].
  destruct found as [[]|]; try discriminate; intros [= <-]; try reflexivity.
  cbn [json_truthy json_includes truthy default from_option id].
  by destruct (negb (String.eqb s "") && negb (arr_includes options s)).
Qed.

Lemma filtered_typed (options : list string) (key : string) (preserve : bool)
  (found : option json) (l : option (list string)) :
  as_string_array found = Some l ->
  exists found',
    filtered options key (kept preserve found) = Return found'
    /\ as_string_array found'
       = Some (let l := if preserve then None else l in
               if is_array l
               then Some (List.filter (fun x => arr_includes options x) (default [] l))
               else l).
Proof.
  unfold filtered, kept. destruct preserve; [by eexists|].
  destruct found as [[]|]; try discriminate; try (intros [= <-]; by eexists).
  cbn [as_string_array]. destruct (as_strings items) as [l'|] eqn:E; [|discriminate].
  intros [= <-]. eexists. split; [reflexivity|].
  cbn [json_truthy as_string_array is_array default from_option id].
  by rewrite (as_strings_filter options items l' E).
Qed.

(** On a value inside the classification result shape [validateAnalysis]
    returns, and what it returns reads as the result of the function on
    classification results. *)
Lemma validate_parsed_typed (j : json) (recipe : Recipe) (a : Analysis) :
  asAnalysis j = Some a ->
  exists validated,
    Part001.validateAnalysis_parsed j recipe = Return validated
    /\ analysis_object validated = Shaped (Part001.validateAnalysis a recipe).
Proof.
  destruct j as [| | | | |fields]; try discriminate. unfold asAnalysis.
  destruct (as_string (obj_get fields "standardized_title")) as [t|] eqn:Et; [|discriminate].
  destruct (as_string (obj_get fields "meal")) as [m|] eqn:Em; [|discriminate].
  destruct (as_string (obj_get fields "cuisine")) as [c|] eqn:Ec; [|discriminate].
  destruct (as_string_array (obj_get fields "tags")) as [tg|] eqn:Etg; [|discriminate].
  destruct (as_string_array (obj_get fields "key_ingredients")) as [k|] eqn:Ek;
    [|discriminate].
  destruct (as_number (obj_get fields "confidence")) as [cf|] eqn:Ecf; [|discriminate].
  destruct (as_string (obj_get fields "reasoning")) as [r|] eqn:Er; [|discriminate].
  intros [= <-].
  destruct (filtered_typed TAG_OPTIONS "tags" (has_items (current_tags recipe)) _ _ Etg)
    as (t' & Ht' & Htags).
  destruct (filtered_typed INGREDIENT_OPTIONS "key_ingredients"
              (has_items (current_ingredients recipe)) _ _ Ek) as (k' & Hk' & Hkeys).
  pose proof (validate_parsed_object fields recipe) as Hobj.
  rewrite Ht', Hk' in Hobj. destruct Hobj as (fields' & Hv & Hget).
  eexists. split; [exact Hv|].
  unfold analysis_object, read_analysis, asAnalysis. cbn [value].
  rewrite (Hget "standardized_title"), (Hget "meal"), (Hget "cuisine"), (Hget "tags"),
    (Hget "key_ingredients"), (Hget "confidence"), (Hget "reasoning").
  change (String.eqb "meal" "meal") with true.
  cbv beta iota.
  change (String.eqb "meal" "standardized_title") with false.
  change (String.eqb "cuisine" "standardized_title") with false.
  change (String.eqb "tags" "standardized_title") with false.
  change (String.eqb "key_ingredients" "standardized_title") with false.
  change (String.eqb "meal" "cuisine") with false.
  change (String.eqb "cuisine" "cuisine") with true.
  change (String.eqb "meal" "tags") with false.
  change (String.eqb "cuisine" "tags") with false.
  change (String.eqb "tags" "tags") with true.
  change (String.eqb "meal" "key_ingredients") with false.
  change (String.eqb "cuisine" "key_ingredients") with false.
  change (String.eqb "tags" "key_ingredients") with false.
  change (String.eqb "key_ingredients" "key_ingredients") with true.
  change (String.eqb "meal" "confidence") with false.
  change (String.eqb "cuisine" "confidence") with false.
  change (String.eqb "tags" "confidence") with false.
  change (String.eqb "key_ingredients" "confidence") with false.
  change (String.eqb "meal" "reasoning") with false.
  change (String.eqb "cuisine" "reasoning") with false.
  change (String.eqb "tags" "reasoning") with false.
  change (String.eqb "key_ingredients" "reasoning") with false.
  cbv beta iota.
  rewrite Et, (chosen_typed _ _ _ _ _ Em), (chosen_typed _ _ _ _ _ Ec), Htags, Hkeys, Ecf, Er.
  reflexivity.
Qed.







(** What the classifier of [part_001] returns, when it returns an object:
    the parsed value as [validateAnalysis] left it. *)
Lemma analyze001_validated (JSON_parse : string -> option json) (reply : AIReply)
  (recipe : Recipe) (extractedData : option ExtractedData) (result : AnalysisObject) :
  Part001.analyzeRecipeWithAI JSON_parse reply recipe extractedData
  = Return (Some result) ->
  exists j validated,
    Part001.validateAnalysis_parsed j recipe = Return validated
    /\ result = analysis_object validated.
Proof.
  unfold Part001.analyzeRecipeWithAI.
  destruct reply as [m|status|m|[content|]]; try discriminate.
  destruct (JSON_parse _) as [j|]; [|discriminate].
  destruct (Part001.validateAnalysis_parsed j recipe) as [validated|e] eqn:E;
    [|discriminate].
  intros [= <-]. by exists j, validated.
Qed.


(** The classifier of [part_000] has no such step: an answer is returned as
    it was parsed. *)
Example answer_returned_as_parsed :
  ai_result_of
    (Part000.analyzeRecipeWithAI reference_JSON_parse (Some "sk-test")
       (closed_env ("{" ++ quoted "meal" ++ ": " ++ quoted "Brunch" ++ "}"))
       toast None Part000.initial_state)
  = Some (Part000.Answered,
          Shaped (mkAnalysis None (Some "Brunch") None None None None None)).
Proof. vm_compute. reflexivity. Qed.








(** ** C3 and C9: the circuit breaker *)

Section Breaker.

Import Part000.

Variable JSON_parse : string -> option json.
Variable OPENAI_API_KEY : option string.

Abbreviation analyze := (analyzeRecipeWithAI JSON_parse OPENAI_API_KEY).

(** What a call does to the breaker and the caches, by the way it went. *)
Lemma analyze_state (env : AIEnv) (recipe : Recipe) (extractedData : option ExtractedData)
  (st : State) :
  exists route analysis st',
    analyze env recipe extractedData st = (Return (route, analysis), st')
    /\ scrape_cache st' = scrape_cache st
    /\ match route with
       | Answered =>
           circuitBreaker st' = recordSuccess (circuitBreaker st)
       | Failed =>
           circuitBreaker st' = recordFailure (circuitBreaker st) (ai_now_done env)
           /\ ai_cache st' = ai_cache st
       | Unavailable | FromCache | Unparsable => st' = st
       end.
Proof.
  unfold analyzeRecipeWithAI.
  destruct (negb (truthy OPENAI_API_KEY) || isOpen (circuitBreaker st) (ai_now_check env));
    [by eexists Unavailable, _, _|].
  destruct (fresh _ _); [by eexists FromCache, _, _|].
  destruct (ai_reply env) as [m|status|m|content];
    try by (eexists Failed, _, _).
  destruct (negb (truthy (option_map trim content))); [by eexists Failed, _, _|].
  destruct (JSON_parse _) as [j|]; [|by eexists Unparsable, _, _].
  destruct (negb (is_object j)); [by eexists Failed, _, _ | by eexists Answered, _, _].
Qed.

Lemma failed_call (env : AIEnv) (recipe : Recipe) (extractedData : option ExtractedData)
  (st : State) :
  ai_route (analyze env recipe extractedData st) = Some Failed ->
  circuitBreaker (snd (analyze env recipe extractedData st))
  = recordFailure (circuitBreaker st) (ai_now_done env)
  /\ truthy OPENAI_API_KEY = true.
Proof.
  intros H. split.
  - destruct (analyze_state env recipe extractedData st) as (route & a & st' & E & _ & Hr).
    rewrite E in H |- *. cbn in H. injection H as ->. cbn. tauto.
  - revert H. unfold analyzeRecipeWithAI.
    destruct (truthy OPENAI_API_KEY); [done|]. cbn. discriminate.
Qed.

(** With the failure count at the threshold, the breaker is open or not by the
    time since the last failure alone. *)
Lemma isOpen_at_threshold (cb : CircuitBreaker) (t now : Z) :
  (threshold <= failures cb)%nat ->
  lastFailTime cb = Some t ->
  isOpen cb now = (now - t <? resetTime)%Z.
Proof.
  intros Hf Ht. unfold isOpen. rewrite Ht.
  destruct (Nat.leb_spec threshold (failures cb)); [reflexivity | lia].
Qed.

Lemma open_breaker_skips (env : AIEnv) (recipe : Recipe) (extractedData : option ExtractedData)
  (st : State) :
  isOpen (circuitBreaker st) (ai_now_check env) = true ->
  analyze env recipe extractedData st
  = (Return (Unavailable, Shaped (createSmartFallbackAnalysis recipe extractedData)), st).
Proof.
  intros H. unfold analyzeRecipeWithAI. rewrite H. by rewrite orb_true_r.
Qed.

Lemma closed_breaker_attempts (env : AIEnv) (recipe : Recipe)
  (extractedData : option ExtractedData) (st : State) :
  truthy OPENAI_API_KEY = true ->
  isOpen (circuitBreaker st) (ai_now_check env) = false ->
  ai_path_attempted (analyze env recipe extractedData st)
  /\ (fresh (ai_cache st !! ("ai:" ++ name recipe ++ ":" ++ link recipe))
            (ai_now_lookup env) = None ->
      exists route,
        ai_route (analyze env recipe extractedData st) = Some route
        /\ request_sent route = true).
Proof.
  intros Hk Hg. unfold ai_path_attempted, analyzeRecipeWithAI. rewrite Hk, Hg. cbn [negb orb].
  split.
  - destruct (fresh _ _); [by eexists FromCache|].
    destruct (ai_reply env) as [m|status|m|content]; try by (eexists Failed).
    destruct (negb (truthy (option_map trim content))); [by eexists Failed|].
    destruct (JSON_parse _) as [j|]; [|by eexists Unparsable].
    destruct (negb (is_object j)); [by eexists Failed | by eexists Answered].
  - intros ->.
    destruct (ai_reply env) as [m|status|m|content]; try by (eexists Failed).
    destruct (negb (truthy (option_map trim content))); [by eexists Failed|].
    destruct (JSON_parse _) as [j|]; [|by eexists Unparsable].
    destruct (negb (is_object j)); [by eexists Failed | by eexists Answered].
Qed.

(** C3.  After three consecutive calls of the classifier that each sent the
    request and recorded a failure (three is the threshold), the next call,
    made while less than the reset window (five minutes) has passed since the
    last failure, sends nothing and returns the result of the fallback
    classifier, leaving the state as it was.  A next call made once the
    window has elapsed takes the AI path again: the breaker does not turn it
    away, and unless a fresh cached analysis answers it the request is
    sent. *)
Theorem circuit_breaker_transition
  (e1 e2 e3 e4 : AIEnv) (r1 r2 r3 r4 : Recipe) (d1 d2 d3 d4 : option ExtractedData)
  (s0 : State) :
  let run1 := analyze e1 r1 d1 s0 in
  let run2 := analyze e2 r2 d2 (snd run1) in
  let run3 := analyze e3 r3 d3 (snd run2) in
  let run4 := analyze e4 r4 d4 (snd run3) in
  ai_route run1 = Some Failed ->
  ai_route run2 = Some Failed ->
  ai_route run3 = Some Failed ->
  ((ai_now_check e4 - ai_now_done e3 < resetTime)%Z ->
   run4 = (Return (Unavailable, Shaped (createSmartFallbackAnalysis r4 d4)), snd run3))
  /\ ((resetTime <= ai_now_check e4 - ai_now_done e3)%Z ->
      ai_path_attempted run4
      /\ (fresh (ai_cache (snd run3) !! ("ai:" ++ name r4 ++ ":" ++ link r4))
                (ai_now_lookup e4) = None ->
          exists route, ai_route run4 = Some route /\ request_sent route = true)).
Proof.
  intros run1 run2 run3 run4 H1 H2 H3.
  apply failed_call in H1 as [B1 Hk], H2 as [B2 _], H3 as [B3 _].
  fold run1 in B1. fold run2 in B2. fold run3 in B3.
  assert (Hcheck : isOpen (circuitBreaker (snd run3)) (ai_now_check e4)
                  = (ai_now_check e4 - ai_now_done e3 <? resetTime)%Z).
  { apply isOpen_at_threshold; rewrite B3; [|reflexivity].
    rewrite B2, B1. cbn [failures recordFailure]. unfold threshold. lia. }
  split.
  - intros Hin. apply open_breaker_skips. rewrite Hcheck. by apply Z.ltb_lt.
  - intros Hout. apply closed_breaker_attempts; [exact Hk|].
    rewrite Hcheck. by apply Z.ltb_ge.
Qed.


End Breaker.

Lemma circuit_breaker_transition_witness :
  Part000.analyzeRecipeWithAI reference_JSON_parse (Some "sk-test")
    (failing_env 4000) toast None
    (snd (Part000.analyzeRecipeWithAI reference_JSON_parse (Some "sk-test")
            (failing_env 3000) toast None
            (snd (Part000.analyzeRecipeWithAI reference_JSON_parse (Some "sk-test")
                    (failing_env 2000) toast None
                    (snd (Part000.analyzeRecipeWithAI reference_JSON_parse (Some "sk-test")
                            (failing_env 1000) toast None Part000.initial_state))))))
  = (Return (Part000.Unavailable, Shaped (Part000.createSmartFallbackAnalysis toast None)),
     Part000.mkState ∅ ∅ (Part000.mkBreaker 3 (Some 3000%Z))).
Proof.
  refine (proj1 (circuit_breaker_transition reference_JSON_parse (Some "sk-test")
                   (failing_env 1000) (failing_env 2000) (failing_env 3000)
                   (failing_env 4000) toast toast toast toast None None None None
                   Part000.initial_state eq_refl eq_refl eq_refl) _).
  reflexivity.
Defined.


(** ** C4: page extraction fails soft *)

Lemma retry_always_throwing {A} (fn : nat -> Completion A) (maxRetries attempt remaining : nat) :
  (forall n, exists e, fn n = Throw e) ->
  (attempt + remaining = S maxRetries)%nat ->
  (0 < remaining)%nat ->
  exists e, Part000.retry_from fn maxRetries attempt remaining = Throw e.
Proof.
  intros Hfn. revert attempt. induction remaining as [|k IH]; intros attempt Hsum Hpos; [lia|].
  cbn [Part000.retry_from]. destruct (Hfn attempt) as [e ->].
  destruct (Nat.eqb_spec attempt maxRetries) as [->|Hne]; [by exists e|].
  apply IH; lia.
Qed.

Lemma fetchAttempt_throws (f : FetchOutcome) : exists e, Part000.fetchAttempt f = Throw e.
Proof. destruct f; by eexists. Qed.

(** [part_000]: whatever the network does, a page that is not in the cache
    comes back as [null], and the state is untouched. *)
Lemma extract000_returns_null (scrapePage : string -> Completion ExtractedData)
  (env : Part000.ScrapeEnv) (url : string) (st : Part000.State) :
  Part000.fresh (Part000.scrape_cache st !! ("scrape:" ++ url))
                (Part000.scrape_now_lookup env) = None ->
  Part000.extractRecipeFromURL scrapePage env url st = (Return None, st).
Proof.
  intros Hc. unfold Part000.extractRecipeFromURL. rewrite Hc.
  destruct (negb (truthy (Some url))); [reflexivity|].
  unfold Part000.withTimeout, Part000.withRetry.
  destruct (Part000.scrape_timed_out env); [reflexivity|].
  destruct (retry_always_throwing (fun n => Part000.fetchAttempt (Part000.fetches env n))
              Part000.MAX_RETRIES 1 Part000.MAX_RETRIES) as [e ->];
    [intros n; apply fetchAttempt_throws | reflexivity | unfold Part000.MAX_RETRIES; lia |].
  reflexivity.
Qed.

(** [part_001]: a rejected fetch, a status that is not 2xx, an unreadable
    body and a throwing page parser all give [null]; nothing is thrown. *)
Lemma extract001_fails_soft (scrapePage : string -> Completion ExtractedData)
  (fetched : FetchOutcome) (url : string) :
  (exists r, Part001.extractRecipeFromURL scrapePage fetched url = Return r)
  /\ ((exists m, fetched = FetchRejected m)
      \/ (exists body, fetched = FetchResponded false body)
      \/ (exists m, fetched = FetchResponded true (Throw m))
      \/ (exists html m, fetched = FetchResponded true (Return html)
                         /\ scrapePage html = Throw m) ->
      Part001.extractRecipeFromURL scrapePage fetched url = Return None).
Proof.
  unfold Part001.extractRecipeFromURL. split.
  - destruct (negb (truthy (Some url))); [by eexists|].
    destruct fetched as [m|[] [html|m]]; try by eexists.
    destruct (scrapePage html); by eexists.
  - destruct (negb (truthy (Some url))); [reflexivity|].
    intros [[m ->]|[[body ->]|[[m ->]|(html & m & -> & E)]]]; try reflexivity.
    by rewrite E.
Qed.

(** The standard orchestrator of [part_001] goes on without page data. *)
Lemma review_continues_without_page
  (extract : string -> Completion (option ExtractedData))
  (classify : Recipe -> option ExtractedData -> Completion (option Analysis))
  (page_loads : Recipe -> bool) (recipe : Recipe) (analysis : Analysis) :
  extract (link recipe) = Return None ->
  classify recipe None = Return (Some analysis) ->
  Part001.reviewRecipe extract classify page_loads recipe
  = Return (Some (mkReviewItem recipe NotionOnly analysis
                    (Part001.formatSuggestedChanges recipe analysis None))).
Proof.
  intros He Hc. unfold Part001.reviewRecipe.
  destruct (Part001.needsAnyData page_loads recipe); rewrite ?He, Hc; reflexivity.
Qed.

(** The two refresh orchestrators of [part_001] do not: with no page data
    and an analysis at hand, the round throws. *)
Lemma refresh_rounds_throw_without_page
  (extract : string -> Completion (option ExtractedData))
  (classify : Recipe -> option ExtractedData -> Completion (option Analysis))
  (recipe : Recipe) (analysis : Analysis) :
  extract (link recipe) = Return None ->
  classify recipe None = Return (Some analysis) ->
  Part001.rescrapeRecipe extract classify recipe
  = Throw "Cannot read properties of null (reading 'title')"
  /\ Part001.reclassifyRecipe extract classify recipe
     = Throw "Cannot read properties of null (reading 'title')".
Proof.
  intros He Hc. unfold Part001.rescrapeRecipe, Part001.reclassifyRecipe.
  by rewrite He, Hc.
Qed.

(** C4.  The extraction itself fails soft: with the fetch of the page
    refused, [extractRecipeFromURL] returns [null], and the standard
    orchestrator builds the review item without page data.  The refresh
    orchestrators of [part_001] do not go on: they hand the [null] to
    [filterExtractedData], whose first property read throws, and the whole
    call ends with that exception. *)
Theorem rescrape_breaks_on_failed_extraction :
  refused_extract (link salad) = Return None
  /\ Part001.analyzeRecipeWithAI reference_JSON_parse (AIContent (Some salad_reply))
       salad None
     = Return (Some (Shaped salad_analysis))
  /\ Part001.createReviewData refused_extract salad_classifier (fun _ => false) [salad]
     = Return [mkReviewItem salad NotionOnly salad_analysis
                 (Part001.formatSuggestedChanges salad salad_analysis None)]
  /\ Part001.createReviewDataWithWebsiteRefresh refused_extract salad_classifier [salad]
     = Throw "Cannot read properties of null (reading 'title')"
  /\ Part001.createReviewDataWithAIRefresh refused_extract salad_classifier [salad]
     = Throw "Cannot read properties of null (reading 'title')".
Proof. repeat split; vm_compute; reflexivity. Qed.

(** ** C5: code fences and unparsable content *)

(** Unfolding of string concatenation on a known head. *)
Ltac app_step :=
  repeat match goal with
         | |- context [String ?a ?s ++ ?t] =>
             change (String a s ++ t) with (String a (s ++ t))
         | |- context [EmptyString ++ ?t] => change (EmptyString ++ t) with t
         end.

Lemma trimEnd_cons (a : ascii) (s : string) :
  trimEnd s = s -> s <> EmptyString -> trimEnd (String a s) = String a s.
Proof. intros H Hne. cbn [trimEnd]. rewrite H. by destruct s. Qed.

Lemma trimEnd_app_keep (s t : string) :
  trimEnd t = t -> t <> EmptyString -> trimEnd (s ++ t) = s ++ t.
Proof.
  intros H Hne. induction s as [|a s IH]; app_step; [exact H|].
  apply trimEnd_cons; [exact IH|]. destruct s; app_step; [exact Hne | discriminate].
Qed.

Lemma trim_fenced (inner : string) : trim (Part001.fenced inner) = Part001.fenced inner.
Proof.
  unfold trim.
  assert (Hs : trimStart (Part001.fenced inner) = Part001.fenced inner) by reflexivity.
  rewrite Hs. unfold Part001.fenced.
  apply trimEnd_app_keep; [|discriminate].
  apply trimEnd_cons.
  - apply trimEnd_app_keep; [reflexivity | discriminate].
  - destruct inner; app_step; discriminate.
Qed.

Lemma fence_needs_backticks (s : string) :
  startsWith s "```" = false -> match_here Part001.re_fence s = None.
Proof.
  unfold Part001.re_fence, lit, chr. cbn [list_ascii_of_string map app startsWith match_here].
  destruct s as [|a [|b [|c s]]]; cbn [startsWith match_here];
    repeat match goal with
           | |- context [Ascii.eqb ?x ?y] => destruct (Ascii.eqb x y)
           end; cbn [andb]; intros H; try reflexivity; discriminate H.
Qed.

Lemma startsWith_before_LF (inner tail : string) :
  startsWith (inner ++ String Part001.LF tail) "```" = startsWith inner "```".
Proof.
  destruct inner as [|a [|b [|c s]]]; app_step; cbn [startsWith];
    change (Ascii.eqb "`" Part001.LF) with false; cbn [andb];
    rewrite ?andb_false_r; reflexivity.
Qed.

Lemma closing_fence_removed (inner : string) :
  includes inner "```" = false ->
  remove_first Part001.re_fence (inner ++ String Part001.LF "```")
  = Some (inner ++ String Part001.LF EmptyString).
Proof.
  induction inner as [|a inner IH]; intros H.
  - reflexivity.
  - cbn [includes] in H. apply orb_false_iff in H as [Hhere Hlater].
    app_step. cbn [remove_first].
    rewrite fence_needs_backticks.
    + rewrite (IH Hlater). reflexivity.
    + change (String a (inner ++ String Part001.LF "```"))
        with (String a inner ++ String Part001.LF "```").
      by rewrite startsWith_before_LF.
Qed.

Lemma stripFences_fenced (inner : string) :
  includes inner "```" = false ->
  Part001.stripFences (Part001.fenced inner) = inner ++ String Part001.LF EmptyString.
Proof.
  intros H. unfold Part001.stripFences.
  assert (Hi : includes (Part001.fenced inner) "```" = true) by reflexivity.
  rewrite Hi.
  assert (Hj : replace_empty Part001.re_fence_json (Part001.fenced inner)
               = inner ++ String Part001.LF "```") by reflexivity.
  rewrite Hj. unfold replace_empty. by rewrite closing_fence_removed.
Qed.

Lemma analyze001_returns (JSON_parse : string -> option json) (reply : AIReply)
  (recipe : Recipe) (extractedData : option ExtractedData) :
  exists r, Part001.analyzeRecipeWithAI JSON_parse reply recipe extractedData = Return r.
Proof.
  unfold Part001.analyzeRecipeWithAI.
  destruct reply as [m|status|m|[content|]]; try by eexists.
  destruct (JSON_parse _) as [j|]; [|by eexists].
  destruct (Part001.validateAnalysis_parsed j recipe); by eexists.
Qed.

(** [validateAnalysis] throws on [null], and on an object whose tags or key
    ingredients, where the recipe has none, are truthy without being an
    array. *)
Lemma validate_parsed_null (recipe : Recipe) :
  exists e, Part001.validateAnalysis_parsed JNull recipe = Throw e.
Proof. cbn. destruct (Part001.preserved recipe); by eexists. Qed.

Lemma filtered_throws (options : list string) (key : string) (v : json) :
  json_truthy v = true -> (forall items, v <> JArr items) ->
  exists e, filtered options key (kept false (Some v)) = Throw e.
Proof.
  intros Ht Hv. unfold filtered, kept. rewrite Ht.
  destruct v; try by eexists. by destruct (Hv items).
Qed.

Lemma validate_parsed_not_array (fields : list (string * json)) (recipe : Recipe)
  (v : json) :
  json_truthy v = true -> (forall items, v <> JArr items) ->
  (has_items (current_tags recipe) = false /\ obj_get fields "tags" = Some v)
  \/ (has_items (current_ingredients recipe) = false
      /\ obj_get fields "key_ingredients" = Some v) ->
  exists e, Part001.validateAnalysis_parsed (JObj fields) recipe = Throw e.
Proof.
  intros Ht Hv H. pose proof (validate_parsed_object fields recipe) as Hobj.
  destruct H as [[Hb Hget] | [Hb Hget]]; rewrite Hb, Hget in Hobj.
  - destruct (filtered_throws TAG_OPTIONS "tags" v Ht Hv) as [e He].
    by rewrite He in Hobj.
  - destruct (filtered_throws INGREDIENT_OPTIONS "key_ingredients" v Ht Hv) as [e He].
    rewrite He in Hobj. by destruct (filtered TAG_OPTIONS "tags" _).
Qed.

Lemma analyze000_unparsable (JSON_parse : string -> option json)
  (OPENAI_API_KEY : option string) (env : Part000.AIEnv) (content : string)
  (recipe : Recipe) (extractedData : option ExtractedData) (st : Part000.State) :
  truthy OPENAI_API_KEY = true ->
  Part000.isOpen (Part000.circuitBreaker st) (Part000.ai_now_check env) = false ->
  Part000.fresh (Part000.ai_cache st !! ("ai:" ++ name recipe ++ ":" ++ link recipe))
                (Part000.ai_now_lookup env) = None ->
  Part000.ai_reply env = AIContent (Some content) ->
  trim content <> "" ->
  JSON_parse (trim content) = None ->
  Part000.analyzeRecipeWithAI JSON_parse OPENAI_API_KEY env recipe extractedData st
  = (Return (Part000.Unparsable,
             Shaped (Part000.createSmartFallbackAnalysis recipe extractedData)), st).
Proof.
  intros Hk Hg Hc Hr Hne Hp. unfold Part000.analyzeRecipeWithAI.
  rewrite Hk, Hg, Hc, Hr. cbn [negb orb option_map].
  apply truthy_Some in Hne. rewrite Hne. cbn [negb from_option id]. by rewrite Hp.
Qed.

(** A fence without the [json] tag loses its opening line only: the
    closing fence stays and the text does not parse. *)
Example plain_fence_left_unparsed :
  Part001.stripFences ("```" ++ String Part001.LF (dessert_reply ++ String Part001.LF "```"))
  = dessert_reply ++ String Part001.LF "```"
  /\ Part001.analyzeRecipeWithAI reference_JSON_parse
       (AIContent (Some ("```" ++ String Part001.LF
                               (dessert_reply ++ String Part001.LF "```"))))
       toast None
     = Return None.
Proof. split; vm_compute; reflexivity. Qed.

(** C5, as stated, fails in both variants.  [part_000], the variant with
    the fallback classifier, parses the content as it arrives: a fenced
    object is a syntax error there and the fallback answers, although the
    text inside the fence parses.  [part_001], the variant that strips the
    fences, has no fallback: content that does not parse gives [null]. *)
Lemma fences_and_fallback_do_not_meet :
  Part000.analyzeRecipeWithAI reference_JSON_parse (Some "sk-test")
    (closed_env (Part001.fenced dessert_reply)) toast None Part000.initial_state
  = (Return (Part000.Unparsable,
             Shaped (Part000.createSmartFallbackAnalysis toast None)),
     Part000.initial_state)
  /\ option_map asAnalysis
       (reference_JSON_parse (Part001.stripFences (Part001.fenced dessert_reply)))
     = Some (Some (mkAnalysis None (Some "Dessert") None None None (Some (decimal 9 (-1)))
                              None))
  /\ meal (Part000.createSmartFallbackAnalysis toast None) = Some "Main Dish"
  /\ Part001.analyzeRecipeWithAI reference_JSON_parse
       (AIContent (Some "Sorry, I cannot classify this recipe.")) toast None
     = Return None.
Proof. repeat split; vm_compute; reflexivity. Qed.

(** C5, amended.  In [part_001], for every response content made of a
    [json] fence, a line feed, a text without a triple backtick, a line feed
    and the closing fence, the text handed to [JSON.parse] is that inner text
    (with its line feed), and the classifier returns what [validateAnalysis]
    makes of the value it parses to, for a value in the classification
    result shape the validated classification result.  The classifier
    returns [null] when the text does not parse, and also when
    [validateAnalysis] throws on the parsed value, as it does on [null] and
    on an object whose tags or key ingredients, the recipe having none, are
    truthy without being an array; in no case does the classifier throw.  In
    [part_000] the content is parsed as it arrives, trimmed only; when it
    does not parse, the result is the fallback classifier's, the state
    (cache and breaker) stays as it was, and nothing is thrown. *)
Theorem fenced_content_handling (JSON_parse : string -> option json)
  (OPENAI_API_KEY : option string) :
  (forall inner recipe extractedData,
     includes inner "```" = false ->
     Part001.stripFences (trim (Part001.fenced inner))
     = inner ++ String Part001.LF EmptyString
     /\ Part001.analyzeRecipeWithAI JSON_parse (AIContent (Some (Part001.fenced inner)))
          recipe extractedData
        = match JSON_parse (inner ++ String Part001.LF EmptyString) with
          | Some j =>
              match Part001.validateAnalysis_parsed j recipe with
              | Return validated => Return (Some (analysis_object validated))
              | Throw _ => Return None
              end
          | None => Return None
          end)
  /\ (forall j recipe a,
        asAnalysis j = Some a ->
        exists validated,
          Part001.validateAnalysis_parsed j recipe = Return validated
          /\ analysis_object validated = Shaped (Part001.validateAnalysis a recipe))
  /\ (forall recipe, exists e, Part001.validateAnalysis_parsed JNull recipe = Throw e)
  /\ (forall fields recipe v,
        json_truthy v = true -> (forall items, v <> JArr items) ->
        (has_items (current_tags recipe) = false /\ obj_get fields "tags" = Some v)
        \/ (has_items (current_ingredients recipe) = false
            /\ obj_get fields "key_ingredients" = Some v) ->
        exists e, Part001.validateAnalysis_parsed (JObj fields) recipe = Throw e)
  /\ (forall reply recipe extractedData,
        exists r,
          Part001.analyzeRecipeWithAI JSON_parse reply recipe extractedData = Return r)
  /\ (forall env content recipe extractedData st,
        truthy OPENAI_API_KEY = true ->
        Part000.isOpen (Part000.circuitBreaker st) (Part000.ai_now_check env) = false ->
        Part000.fresh (Part000.ai_cache st !! ("ai:" ++ name recipe ++ ":" ++ link recipe))
                      (Part000.ai_now_lookup env) = None ->
        Part000.ai_reply env = AIContent (Some content) ->
        trim content <> "" ->
        JSON_parse (trim content) = None ->
        Part000.analyzeRecipeWithAI JSON_parse OPENAI_API_KEY env recipe extractedData st
        = (Return (Part000.Unparsable,
                   Shaped (Part000.createSmartFallbackAnalysis recipe extractedData)),
           st)).
Proof.
  split; [|split; [|split; [|split; [|split]]]].
  - intros inner recipe extractedData H.
    rewrite trim_fenced, (stripFences_fenced inner H). split; [reflexivity|].
    unfold Part001.analyzeRecipeWithAI.
    rewrite trim_fenced, (stripFences_fenced inner H).
    destruct (JSON_parse _) as [j|]; [|reflexivity].
    by destruct (Part001.validateAnalysis_parsed j recipe).
  - apply validate_parsed_typed.
  - apply validate_parsed_null.
  - apply validate_parsed_not_array.
  - apply analyze001_returns.
  - apply analyze000_unparsable.
Qed.

(** Fenced values outside the classification result shape: [null] and a
    string for the tags make [validateAnalysis] throw, a number for the meal
    is replaced by the default. *)
Example fenced_values_outside_the_shape :
  Part001.analyzeRecipeWithAI reference_JSON_parse
    (AIContent (Some (Part001.fenced "null"))) toast None
  = Return None
  /\ Part001.analyzeRecipeWithAI reference_JSON_parse
       (AIContent (Some (Part001.fenced ("{" ++ quoted "tags" ++ ": " ++ quoted "Spicy" ++ "}"))))
       toast None
     = Return None
  /\ Part001.analyzeRecipeWithAI reference_JSON_parse
       (AIContent (Some (Part001.fenced ("{" ++ quoted "meal" ++ ": 5}")))) toast None
     = Return (Some (Shaped (mkAnalysis None (Some "Main Dish") None None None None None)))
  /\ Part001.analyzeRecipeWithAI reference_JSON_parse
       (AIContent (Some (Part001.fenced "[1]")))
       (mkRecipe "Crepes" "" (Some "Breakfast") None None None) None
     = Return (Some (ArrayWith [JNum 1 0] [("meal", JNull)])).
Proof. repeat split; vm_compute; reflexivity. Qed.

Lemma fenced_content_handling_witness :
  Part001.analyzeRecipeWithAI reference_JSON_parse
    (AIContent (Some (Part001.fenced dessert_reply))) toast None
  = Return (Some (Shaped (mkAnalysis None (Some "Dessert") None None None
                                     (Some (decimal 9 (-1))) None))).
Proof.
  exact (proj2 (proj1 (fenced_content_handling reference_JSON_parse None)
                  dessert_reply toast None eq_refl)).
Defined.

(** ** C6: the fallback classifier is always available *)

(** C6, as stated, fails on a recipe that already has a meal type: the
    inference is guarded by [!recipe.current_meal] and the meal stays
    [null]. *)
Lemma fallback_meal_null_for_recipe_with_meal :
  meal (Part000.createSmartFallbackAnalysis
          (mkRecipe "Chocolate Cake" "" (Some "Dessert") None (Some []) (Some []))
          None)
  = None.
Proof. reflexivity. Qed.

(** C6, amended.  For every recipe, the fallback classifier called without
    extracted data is a total function of the recipe (it cannot throw) and
    returns a classification result whose categorical values belong to the
    vocabulary and whose confidence, 0.7, lies in [0,1].  Its meal type is
    non-null — a member of the meal vocabulary — exactly for the recipes
    whose meal type is still empty; for a recipe that already has one the
    meal of the result is [null]. *)
Theorem fallback_available (recipe : Recipe) :
  (truthy (current_meal recipe) = false ->
   exists m, meal (Part000.createSmartFallbackAnalysis recipe None) = Some m
             /\ m ∈ MEAL_OPTIONS)
  /\ (truthy (current_meal recipe) = true ->
      meal (Part000.createSmartFallbackAnalysis recipe None) = None)
  /\ vocabulary_closed (Part000.createSmartFallbackAnalysis recipe None)
  /\ exists c, confidence (Part000.createSmartFallbackAnalysis recipe None) = Some c
               /\ (0 <= c)%Q /\ (c <= 1)%Q.
Proof.
  repeat split.
  - intros H. exists (Part000.inferMeal (toLowerCase (name recipe))).
    unfold Part000.createSmartFallbackAnalysis. cbn [meal]. rewrite H.
    split; [reflexivity | apply inferMeal_member].
  - intros H. unfold Part000.createSmartFallbackAnalysis. cbn [meal]. by rewrite H.
  - apply fallback_vocabulary_closed.
  - apply fallback_vocabulary_closed.
  - apply fallback_vocabulary_closed.
  - apply fallback_vocabulary_closed.
  - exists (7 # 10)%Q. repeat split; discriminate.
Qed.

Lemma fallback_available_witness :
  exists m,
    meal (Part000.createSmartFallbackAnalysis
            (mkRecipe "Berry Smoothie" "" None None (Some []) (Some [])) None)
    = Some m
    /\ m ∈ MEAL_OPTIONS.
Proof.
  exact (proj1 (fallback_available
                  (mkRecipe "Berry Smoothie" "" None None (Some []) (Some [])))
               eq_refl).
Defined.

(** ** C7: a failing recipe does not abort the batch *)

Section Isolation.

Import Part000.

Variable extract : nat -> string -> Completion (option ExtractedData).
Variable classify : nat -> Recipe -> option ExtractedData -> Completion (option Analysis).

Lemma processRecipe_throws (task : nat) (recipe : Recipe) (e : string) :
  extractedData_of extract task recipe = Throw e
  \/ (exists extractedData,
        extractedData_of extract task recipe = Return extractedData
        /\ classify task recipe extractedData = Throw e) ->
  processRecipe extract classify task recipe = None.
Proof.
  unfold processRecipe, processBody. intros [-> | (d & -> & ->)]; reflexivity.
Qed.

Lemma processRecipe_returns (task : nat) (recipe : Recipe)
  (extractedData : option ExtractedData) (analysis : Analysis) :
  extractedData_of extract task recipe = Return extractedData ->
  classify task recipe extractedData = Return (Some analysis) ->
  processRecipe extract classify task recipe
  = Some (mkReviewItem recipe
            match extractedData with Some d => PageData d | None => NotionOnly end
            analysis (formatSuggestedChanges recipe analysis extractedData)).
Proof. unfold processRecipe, processBody. by intros -> ->. Qed.

Lemma processRecipe_recipe (task : nat) (recipe : Recipe) (item : ReviewItem) :
  processRecipe extract classify task recipe = Some item -> item_recipe item = recipe.
Proof.
  unfold processRecipe, processBody.
  destruct (extractedData_of extract task recipe) as [d|]; [|discriminate].
  destruct (classify task recipe d) as [[a|]|]; try discriminate.
  by intros [= <-].
Qed.

Lemma kept_recipes (task : nat -> Recipe -> option ReviewItem) (batch : list Recipe) :
  (forall i r item, task i r = Some item -> item_recipe item = r) ->
  map item_recipe (omap (fun item => item) (imap task batch)) `sublist_of` batch.
Proof.
  revert task. induction batch as [|r batch IH]; intros task Htask; [done|].
  cbn [imap]. specialize (IH (task ∘ S) (fun i => Htask (S i))).
  destruct (task 0%nat r) as [item|] eqn:E.
  - change (omap (fun item => item) (Some item :: imap (task ∘ S) batch))
      with (item :: omap (fun item => item) (imap (task ∘ S) batch)).
    cbn [map]. rewrite (Htask _ _ _ E). by apply sublist_skip.
  - change (omap (fun item => item) (None :: imap (task ∘ S) batch))
      with (omap (fun item : option ReviewItem => item) (imap (task ∘ S) batch)).
    by apply sublist_cons.
Qed.

Lemma kept_item (task : nat -> Recipe -> option ReviewItem) (batch : list Recipe)
  (i : nat) (r : Recipe) (item : ReviewItem) :
  batch !! i = Some r -> task i r = Some item ->
  item ∈ omap (fun item => item) (imap task batch).
Proof.
  intros Hi Hitem. apply list_elem_of_omap. exists (Some item). split; [|done].
  rewrite <- Hitem. by apply elem_of_lookup_imap_2.
Qed.

(** C7.  Let the batch — the first [MAX_RECIPES_PER_BATCH] recipes handed
    to [createReviewData] — be [before ++ failed :: after], and let the
    extraction or the classification of the task of [failed] throw.  Then
    the call still returns normally; every other recipe of the batch whose
    extraction returns and whose classification gives an analysis has its
    review item in the result, built from that analysis and that page data;
    and the recipes of the result are recipes of [before ++ after], in their
    order and each position at most once: the failed task contributes
    nothing. *)
Theorem batch_isolation (recipes before after : list Recipe) (failed : Recipe)
  (e : string) :
  slice0 MAX_RECIPES_PER_BATCH recipes = (before ++ failed :: after)%list ->
  extractedData_of extract (length before) failed = Throw e
  \/ (exists extractedData,
        extractedData_of extract (length before) failed = Return extractedData
        /\ classify (length before) failed extractedData = Throw e) ->
  exists items,
    createReviewData extract classify recipes = Return items
    /\ (forall task recipe extractedData analysis,
          (before ++ failed :: after)%list !! task = Some recipe ->
          task <> length before ->
          extractedData_of extract task recipe = Return extractedData ->
          classify task recipe extractedData = Return (Some analysis) ->
          mkReviewItem recipe
            match extractedData with Some d => PageData d | None => NotionOnly end
            analysis (formatSuggestedChanges recipe analysis extractedData)
          ∈ items)
    /\ map item_recipe items `sublist_of` (before ++ after)%list.
Proof.
  intros Hbatch Hthrow. eexists. split; [reflexivity|]. rewrite Hbatch. split.
  - intros task recipe d a Hlook _ Hd Ha.
    apply (kept_item _ _ task recipe); [exact Hlook|].
    by apply processRecipe_returns.
  - unfold results. rewrite imap_app. cbn [imap].
    rewrite Nat.add_0_r, (processRecipe_throws _ _ _ Hthrow).
    rewrite omap_app.
    change (omap (fun item => item) (None :: ?l))
      with (omap (fun item : option ReviewItem => item) l).
    rewrite map_app. apply sublist_app.
    + apply kept_recipes. intros i r item. apply processRecipe_recipe.
    + apply kept_recipes. intros i r item. apply processRecipe_recipe.
Qed.

End Isolation.

Lemma batch_isolation_witness :
  exists items,
    Part000.createReviewData brittle_extract fallback_classifier [soup; stew; toast]
    = Return items
    /\ (forall task recipe extractedData analysis,
          [soup; stew; toast] !! task = Some recipe ->
          task <> 1%nat ->
          Part000.extractedData_of brittle_extract task recipe = Return extractedData ->
          fallback_classifier task recipe extractedData = Return (Some analysis) ->
          mkReviewItem recipe
            match extractedData with Some d => PageData d | None => NotionOnly end
            analysis (Part000.formatSuggestedChanges recipe analysis extractedData)
          ∈ items)
    /\ map item_recipe items `sublist_of` [soup; toast].
Proof.
  apply (batch_isolation brittle_extract fallback_classifier [soup; stew; toast]
           [soup] [toast] stew "socket hang up"); [reflexivity|].
  left. reflexivity.
Defined.

Example batch_of_three_keeps_two :
  option_map (map (fun item => name (item_recipe item)))
    (match Part000.createReviewData brittle_extract fallback_classifier
             [soup; stew; toast] with
     | Return items => Some items
     | Throw _ => None
     end)
  = Some ["Tomato Soup"; "French Toast"].
Proof. vm_compute. reflexivity. Qed.

(** ** C8: title standardization and idempotence *)

(** Case mapping, character by character. *)

Ltac each_char c := destruct c as [[] [] [] [] [] [] [] []]; reflexivity.

Lemma lower_lower (c : ascii) : lower_char (lower_char c) = lower_char c.
Proof. each_char c. Qed.

Lemma lower_upper (c : ascii) : lower_char (upper_char c) = lower_char c.
Proof. each_char c. Qed.

Lemma upper_upper (c : ascii) : upper_char (upper_char c) = upper_char c.
Proof. each_char c. Qed.

Lemma lower_keeps_space (c : ascii) : Ascii.eqb (lower_char c) " " = Ascii.eqb c " ".
Proof. each_char c. Qed.

Lemma upper_keeps_space (c : ascii) : Ascii.eqb (upper_char c) " " = Ascii.eqb c " ".
Proof. each_char c. Qed.

Lemma toLowerCase_idem (s : string) : toLowerCase (toLowerCase s) = toLowerCase s.
Proof. induction s as [|c s IH]; cbn [toLowerCase]; [|rewrite lower_lower, IH]; reflexivity. Qed.

Lemma toLowerCase_word (w : string) : is_word w -> is_word (toLowerCase w).
Proof.
  induction w as [|c w IH]; cbn [toLowerCase is_word]; [done|].
  intros [Hc Hw]. rewrite lower_keeps_space. auto.
Qed.

(** [split] and [join] on words. *)

Lemma split_space_word (w : string) : is_word w -> split_space w = [w].
Proof.
  induction w as [|c w IH]; cbn [split_space is_word]; [done|].
  intros [-> Hw]. by rewrite (IH Hw).
Qed.

Lemma split_space_word_then (w rest : string) :
  is_word w -> split_space (w ++ String " " rest) = w :: split_space rest.
Proof.
  induction w as [|c w IH]; app_step; cbn [split_space is_word]; [done|].
  intros [-> Hw]. by rewrite (IH Hw).
Qed.

Lemma split_space_words (s : string) :
  split_space s <> [] /\ Forall is_word (split_space s).
Proof.
  induction s as [|c s [Hne Hall]]; cbn [split_space].
  - split; [discriminate | by repeat constructor].
  - destruct (Ascii.eqb c " ") eqn:E.
    + split; [discriminate | by constructor].
    + destruct (split_space s) as [|w ws]; [done|].
      split; [discriminate|].
      inversion Hall; subst. by constructor.
Qed.

Lemma join_cons (w w2 : string) (ws : list string) :
  join " " (w :: w2 :: ws) = w ++ String " " (join " " (w2 :: ws)).
Proof. reflexivity. Qed.

Lemma split_join (ws : list string) :
  ws <> [] -> Forall is_word ws -> split_space (join " " ws) = ws.
Proof.
  induction ws as [|w ws IH]; [done|]. intros _ Hall.
  inversion Hall as [|? ? Hw Hws]; subst.
  destruct ws as [|w2 ws].
  - by apply split_space_word.
  - rewrite join_cons, (split_space_word_then _ _ Hw). f_equal. by apply IH.
Qed.

(** The callback of [map] and the last [replace]. *)

Lemma capitalizeWord_lower (w : string) :
  toLowerCase (Part001.capitalizeWord w) = toLowerCase w.
Proof.
  unfold Part001.capitalizeWord.
  destruct (arr_includes _ _); [apply toLowerCase_idem|].
  destruct w as [|c w]; [reflexivity|].
  cbn [charAt0 slice1 toUpperCase]. app_step. cbn [toLowerCase].
  by rewrite lower_upper, toLowerCase_idem.
Qed.

Lemma capitalizeWord_idem (w : string) :
  Part001.capitalizeWord (Part001.capitalizeWord w) = Part001.capitalizeWord w.
Proof.
  unfold Part001.capitalizeWord at 1. rewrite capitalizeWord_lower.
  unfold Part001.capitalizeWord.
  destruct (arr_includes _ _); [reflexivity|].
  destruct w as [|c w]; [reflexivity|].
  cbn [charAt0 slice1 toUpperCase]. app_step. cbn [charAt0 slice1 toUpperCase]. app_step.
  by rewrite upper_upper, toLowerCase_idem.
Qed.

Lemma capitalizeWord_word (w : string) : is_word w -> is_word (Part001.capitalizeWord w).
Proof.
  intros Hw. unfold Part001.capitalizeWord.
  destruct (arr_includes _ _); [by apply toLowerCase_word|].
  destruct w as [|c w]; [done|]. destruct Hw as [Hc Hw].
  cbn [charAt0 slice1 toUpperCase]. app_step. cbn [is_word].
  rewrite upper_keeps_space. split; [exact Hc | by apply toLowerCase_word].
Qed.

Lemma upperFirst_lower (s : string) :
  toLowerCase (Part001.upperFirst s) = toLowerCase s.
Proof.
  destruct s as [|c s]; [reflexivity|]. cbn [Part001.upperFirst].
  destruct (dot c); [|reflexivity]. cbn [toLowerCase]. by rewrite lower_upper.
Qed.

Lemma upperFirst_word (w : string) : is_word w -> is_word (Part001.upperFirst w).
Proof.
  destruct w as [|c w]; [done|]. intros [Hc Hw]. cbn [Part001.upperFirst].
  destruct (dot c); cbn [is_word]; rewrite ?upper_keeps_space; auto.
Qed.

Lemma dot_upper (c : ascii) : dot (upper_char c) = dot c.
Proof. each_char c. Qed.

Lemma upperFirst_idem (s : string) :
  Part001.upperFirst (Part001.upperFirst s) = Part001.upperFirst s.
Proof.
  destruct s as [|c s]; [reflexivity|]. cbn [Part001.upperFirst].
  destruct (dot c) eqn:E; cbn [Part001.upperFirst].
  - by rewrite dot_upper, E, upper_upper.
  - by rewrite E.
Qed.

Lemma upperFirst_join (w : string) (ws : list string) :
  Part001.upperFirst (join " " (w :: ws)) = join " " (Part001.upperFirst w :: ws).
Proof.
  destruct ws as [|w2 ws]; [reflexivity|]. rewrite !join_cons.
  destruct w as [|c w]; app_step; cbn [Part001.upperFirst]; [reflexivity|].
  destruct (dot c); app_step; reflexivity.
Qed.

Lemma recapitalize_first (w : string) :
  Part001.upperFirst (Part001.capitalizeWord (Part001.upperFirst (Part001.capitalizeWord w)))
  = Part001.upperFirst (Part001.capitalizeWord w).
Proof.
  unfold Part001.capitalizeWord at 1.
  rewrite upperFirst_lower, capitalizeWord_lower.
  unfold Part001.capitalizeWord.
  destruct (arr_includes _ _).
  - reflexivity.
  - destruct w as [|c w]; [reflexivity|].
    cbn [charAt0 slice1 toUpperCase]. app_step. cbn [Part001.upperFirst].
    destruct (dot (upper_char c)); cbn [charAt0 slice1 toUpperCase]; app_step;
      cbn [Part001.upperFirst]; rewrite ?dot_upper, ?upper_upper, ?toLowerCase_idem;
      destruct (dot c) eqn:E; rewrite ?dot_upper, ?E, ?upper_upper; reflexivity.
Qed.

Lemma titleCase_idem (s : string) :
  Part001.titleCase (Part001.titleCase s) = Part001.titleCase s.
Proof.
  unfold Part001.titleCase.
  destruct (split_space_words s) as [Hne Hall].
  destruct (split_space s) as [|w ws]; [done|]. cbn [map].
  rewrite !upperFirst_join.
  inversion Hall as [|? ? Hw Hws]; subst.
  rewrite split_join.
  - cbn [map]. rewrite upperFirst_join, recapitalize_first. do 2 f_equal.
    rewrite map_map. apply map_ext. intros x. apply capitalizeWord_idem.
  - discriminate.
  - constructor.
    + by apply upperFirst_word, capitalizeWord_word.
    + apply Forall_map. eapply Forall_impl; [exact Hws|]. apply capitalizeWord_word.
Qed.

(** C8, as stated, fails: the trailing "Recipe" is looked for before the
    "- Site Name" suffix is cut, so a first pass can leave a title that the
    second pass shortens again. *)
(** What the standardization does to the characters of a title. *)

Lemma chars_toLowerCase (s : string) :
  chars (toLowerCase s) = map lower_char (chars s).
Proof.
  induction s as [|c s IH]; [reflexivity|].
  cbn [toLowerCase chars list_ascii_of_string map]. f_equal. exact IH.
Qed.

Lemma chars_length (s : string) : length (chars s) = String.length s.
Proof. induction s as [|c s IH]; cbn; [reflexivity | by rewrite <- IH]. Qed.

Lemma many_suffix (p : ascii -> bool) (k : string -> option string) :
  (forall s r, k s = Some r -> chars r `suffix_of` chars s) ->
  forall s r, many p k s = Some r -> chars r `suffix_of` chars s.
Proof.
  intros Hk. induction s as [|c s IH]; intros r; cbn [many]; [apply Hk|].
  destruct (p c); [|apply Hk].
  destruct (many p k s) as [rest|] eqn:E; [|apply Hk].
  intros H. apply (inj Some) in H as <-.
  change (chars (String c s)) with (c :: chars s). by apply suffix_cons_r, IH.
Qed.

Lemma match_here_suffix (re : list atom) (s r : string) :
  match_here re s = Some r -> chars r `suffix_of` chars s.
Proof.
  revert s r. induction re as [|a re IH]; intros s r.
  - cbn [match_here]. intros H. by apply (inj Some) in H as <-.
  - destruct a as [p|p|p|p|]; cbn [match_here].
    + destruct s as [|c s]; [discriminate|]. destruct (p c); [|discriminate].
      intros H. change (chars (String c s)) with (c :: chars s).
      by apply suffix_cons_r, IH.
    + apply many_suffix, IH.
    + destruct s as [|c s]; [discriminate|]. destruct (p c); [|discriminate].
      intros H. change (chars (String c s)) with (c :: chars s).
      apply suffix_cons_r. revert H. apply many_suffix, IH.
    + destruct s as [|c s]; [apply IH|]. destruct (p c); [|apply IH].
      destruct (match_here re s) as [rest|] eqn:E; [|apply IH].
      intros H. apply (inj Some) in H as <-.
      change (chars (String c s)) with (c :: chars s). by apply suffix_cons_r, IH.
    + destruct s as [|c s]; [apply IH | discriminate].
Qed.

Lemma suffix_sublist {A} (l1 l2 : list A) : l1 `suffix_of` l2 -> l1 `sublist_of` l2.
Proof. intros [k ->]. by apply sublist_inserts_l. Qed.

Lemma prefix_sublist {A} (l1 l2 : list A) : l1 `prefix_of` l2 -> l1 `sublist_of` l2.
Proof. intros [k ->]. by apply sublist_inserts_r. Qed.

Lemma remove_first_sublist (re : list atom) (s s' : string) :
  remove_first re s = Some s' -> chars s' `sublist_of` chars s.
Proof.
  revert s'. induction s as [|c s IH]; intros s'; cbn [remove_first].
  - destruct (match_here re "") as [rest|] eqn:E; [|discriminate].
    intros H. apply (inj Some) in H as <-. by apply suffix_sublist, (match_here_suffix re).
  - destruct (match_here re (String c s)) as [rest|] eqn:E.
    + intros H. apply (inj Some) in H as <-. by apply suffix_sublist, (match_here_suffix re).
    + destruct (remove_first re s) as [t|]; [|discriminate].
      cbn [option_map]. intros H. apply (inj Some) in H as <-.
      change (chars (String c t)) with (c :: chars t).
      change (chars (String c s)) with (c :: chars s).
      by apply sublist_skip, IH.
Qed.

Lemma replace_empty_sublist (re : list atom) (s : string) :
  chars (replace_empty re s) `sublist_of` chars s.
Proof.
  unfold replace_empty. destruct (remove_first re s) as [s'|] eqn:E; [|reflexivity].
  by apply (remove_first_sublist re).
Qed.

Lemma replace_empty_anchored_sublist (re : list atom) (s : string) :
  chars (replace_empty_anchored re s) `sublist_of` chars s.
Proof.
  unfold replace_empty_anchored. destruct (match_here re s) as [s'|] eqn:E; [|reflexivity].
  by apply suffix_sublist, (match_here_suffix re).
Qed.

Lemma trimStart_suffix (s : string) : chars (trimStart s) `suffix_of` chars s.
Proof.
  induction s as [|c s IH]; cbn [trimStart]; [done|].
  destruct (is_space c); [|done].
  change (chars (String c s)) with (c :: chars s). by apply suffix_cons_r.
Qed.

Lemma trimEnd_prefix (s : string) : chars (trimEnd s) `prefix_of` chars s.
Proof.
  induction s as [|c s IH]; cbn [trimEnd]; [done|].
  change (chars (String c s)) with (c :: chars s).
  destruct (trimEnd s) as [|d t].
  - destruct (is_space c); [apply prefix_nil|].
    change (chars (String c "")) with [c]. apply prefix_cons, prefix_nil.
  - change (chars (String c (String d t))) with (c :: chars (String d t)).
    by apply prefix_cons.
Qed.

Lemma trim_sublist (s : string) : chars (trim s) `sublist_of` chars s.
Proof.
  unfold trim. etrans; [apply prefix_sublist, trimEnd_prefix|].
  apply suffix_sublist, trimStart_suffix.
Qed.

Lemma stripBoilerplate_sublist (title : string) :
  chars (Part001.stripBoilerplate title) `sublist_of` chars title.
Proof.
  unfold Part001.stripBoilerplate.
  etrans; [apply trim_sublist|].
  etrans; [apply replace_empty_sublist|].
  etrans; [apply replace_empty_anchored_sublist|].
  etrans; [apply replace_empty_sublist|].
  apply replace_empty_sublist.
Qed.

Lemma toLowerCase_app (a b : string) :
  toLowerCase (a ++ b) = toLowerCase a ++ toLowerCase b.
Proof.
  induction a as [|c a IH]; app_step; [reflexivity|].
  cbn [toLowerCase]. app_step. by rewrite IH.
Qed.

Lemma join_split (s : string) : join " " (split_space s) = s.
Proof.
  induction s as [|c s IH]; [reflexivity|]. cbn [split_space].
  destruct (split_space_words s) as [Hne _].
  destruct (Ascii.eqb_spec c " ") as [->|_].
  - destruct (split_space s) as [|w ws]; [done|].
    rewrite join_cons, IH. reflexivity.
  - destruct (split_space s) as [|w ws]; [done|].
    destruct ws as [|w2 ws].
    + change (join " " [String c w]) with (String c w).
      change (join " " [w]) with w in IH. by rewrite IH.
    + rewrite join_cons. rewrite join_cons in IH. app_step. by rewrite IH.
Qed.

Lemma join_capitalized_lower (ws : list string) :
  toLowerCase (join " " (map Part001.capitalizeWord ws)) = toLowerCase (join " " ws).
Proof.
  induction ws as [|w ws IH]; [reflexivity|].
  destruct ws as [|w2 ws].
  - cbn [map]. change (join " " [?x]) with x. apply capitalizeWord_lower.
  - cbn [map] in *. rewrite !join_cons, !toLowerCase_app, capitalizeWord_lower.
    f_equal. cbn [toLowerCase]. f_equal. exact IH.
Qed.

Lemma titleCase_lower (title : string) :
  toLowerCase (Part001.titleCase title) = toLowerCase title.
Proof.
  unfold Part001.titleCase.
  by rewrite upperFirst_lower, join_capitalized_lower, join_split.
Qed.

Lemma toLowerCase_length (s : string) : String.length (toLowerCase s) = String.length s.
Proof. induction s as [|c s IH]; cbn; [reflexivity | by rewrite IH]. Qed.

(** ASCII text stays ASCII. *)
Lemma ascii_text_chars (s : string) :
  ascii_text s <-> Forall (fun c => (N_of_ascii c < 128)%N) (chars s).
Proof.
  unfold ascii_text. induction s as [|c s IH]; cbn [is_ascii_text chars list_ascii_of_string].
  - split; [constructor | reflexivity].
  - rewrite andb_true_iff, IH, N.ltb_lt. split.
    + intros [Hc Hs]. by constructor.
    + intros H. inversion H; subst. by split.
Qed.

Lemma lower_char_ascii (c : ascii) :
  (N_of_ascii (lower_char c) <? 128)%N = (N_of_ascii c <? 128)%N.
Proof. each_char c. Qed.

Lemma ascii_text_lower (s : string) : ascii_text (toLowerCase s) <-> ascii_text s.
Proof.
  unfold ascii_text. induction s as [|c s IH]; cbn [toLowerCase is_ascii_text]; [done|].
  rewrite !andb_true_iff, lower_char_ascii, IH. tauto.
Qed.

Lemma ascii_text_sublist (s t : string) :
  chars s `sublist_of` chars t -> ascii_text t -> ascii_text s.
Proof.
  rewrite !ascii_text_chars. intros Hs Ht. apply Forall_forall. intros c Hc.
  apply (proj1 (Forall_forall _ _) Ht). by apply (elem_of_sublist _ _ _ Hc Hs).
Qed.

Lemma titleCase_ascii (title : string) :
  ascii_text title -> ascii_text (Part001.titleCase title).
Proof. intros H. apply ascii_text_lower. rewrite titleCase_lower. by apply ascii_text_lower. Qed.

Lemma standardizeTitle_ascii (title : string) :
  ascii_text title -> ascii_text (Part001.standardizeTitle title).
Proof.
  intros H. apply titleCase_ascii.
  apply (ascii_text_sublist _ title); [apply stripBoilerplate_sublist | exact H].
Qed.

Lemma standardize_twice_differs :
  Part001.standardizeTitle "Chicken Recipe - Site Name" = "Chicken Recipe"
  /\ Part001.standardizeTitle "Chicken Recipe" = "Chicken".
Proof. split; vm_compute; reflexivity. Qed.

(** C8, amended.  On every title of ASCII text the standardized title is
    ASCII text again, the capitalization stage of the standardization is
    idempotent, and the standardization as a whole is idempotent whenever
    the standardized form has nothing left to strip (the chain of
    replacements and the trim leave it as it is). *)
Theorem standardize_idempotent_once_stripped (title : string) :
  ascii_text title ->
  ascii_text (Part001.standardizeTitle title)
  /\ Part001.titleCase (Part001.titleCase title) = Part001.titleCase title
  /\ (Part001.stripBoilerplate (Part001.standardizeTitle title)
      = Part001.standardizeTitle title ->
      Part001.standardizeTitle (Part001.standardizeTitle title)
      = Part001.standardizeTitle title).
Proof.
  intros Hascii. split; [by apply standardizeTitle_ascii|].
  split; [apply titleCase_idem|].
  intros H. unfold Part001.standardizeTitle at 1. rewrite H.
  unfold Part001.standardizeTitle. apply titleCase_idem.
Qed.

Lemma standardize_idempotent_once_stripped_witness :
  Part001.standardizeTitle
    (Part001.standardizeTitle "easy chicken and rice recipe | My Kitchen")
  = Part001.standardizeTitle "easy chicken and rice recipe | My Kitchen".
Proof.
  apply (proj2 (proj2 (standardize_idempotent_once_stripped
                         "easy chicken and rice recipe | My Kitchen" eq_refl))).
  vm_compute. reflexivity.
Defined.

(** ** C10: the dietary tags exclude each other *)

Lemma styleTags_not_dietary (name ingredientText : string) :
  Forall (fun t => t <> "Vegan" /\ t <> "Vegetarian")
         (Part000.styleTags name ingredientText).
Proof. apply styleTags_Forall. repeat constructor; discriminate. Qed.




(** Only the ingredient text is searched for "egg" and "cheese": a name
    alone does not count. *)
Example name_only_cheese :
  Part000.inferTagsFromNameAndIngredients "cheese omelette" [] = Some ["Vegan"]
  /\ Part000.inferTagsFromNameAndIngredients "omelette" ["3 eggs"; "grated cheese"]
     = Some ["Creamy"; "Vegetarian"].
Proof. split; vm_compute; reflexivity. Qed.

(* ===================================================================== *)
(** * Part III: further properties of the two variants *)
(* ===================================================================== *)

(** ** [withRetry] *)

Lemma retry_from_first_success {A} (fn : nat -> Completion A)
  (maxRetries attempt remaining k : nat) (a : A) :
  (attempt + remaining = S maxRetries)%nat ->
  (attempt <= k <= maxRetries)%nat ->
  (forall j, (attempt <= j < k)%nat -> exists e, fn j = Throw e) ->
  fn k = Return a ->
  Part000.retry_from fn maxRetries attempt remaining = Return (Some a).
Proof.
  revert attempt. induction remaining as [|r IH]; intros attempt Hsum Hk Hbefore Hat; [lia|].
  cbn [Part000.retry_from].
  destruct (decide (attempt = k)) as [->|Hne]; [by rewrite Hat|].
  destruct (Hbefore attempt) as [e ->]; [lia|].
  destruct (Nat.eqb_spec attempt maxRetries) as [->|_]; [lia|].
  apply IH; [lia | lia | | exact Hat]. intros j Hj. apply Hbefore. lia.
Qed.

Lemma retry_from_all_fail {A} (fn : nat -> Completion A)
  (maxRetries attempt remaining : nat) (e : string) :
  (attempt + remaining = S maxRetries)%nat ->
  (0 < remaining)%nat ->
  (forall j, (attempt <= j < maxRetries)%nat -> exists e', fn j = Throw e') ->
  fn maxRetries = Throw e ->
  Part000.retry_from fn maxRetries attempt remaining = Throw e.
Proof.
  revert attempt. induction remaining as [|r IH]; intros attempt Hsum Hpos Hbefore Hlast; [lia|].
  cbn [Part000.retry_from].
  destruct (Nat.eqb_spec attempt maxRetries) as [->|Hne].
  - by rewrite Hlast.
  - destruct (Hbefore attempt) as [e' ->]; [lia|].
    apply IH; [lia | lia | | exact Hlast]. intros j Hj. apply Hbefore. lia.
Qed.

(** X1.  [withRetry(fn, maxRetries)] returns the value of the first call of
    [fn] that succeeds, provided it is among the first [maxRetries] calls;
    when all of these throw, it throws the error of the last one; and with
    [maxRetries] 0 it calls nothing and returns [undefined]. *)
Theorem withRetry_outcome {A} (fn : nat -> Completion A) (maxRetries : nat) :
  (forall k a,
      (1 <= k <= maxRetries)%nat ->
      (forall j, (1 <= j < k)%nat -> exists e, fn j = Throw e) ->
      fn k = Return a ->
      Part000.withRetry fn maxRetries = Return (Some a))
  /\ (forall e,
        (1 <= maxRetries)%nat ->
        (forall j, (1 <= j < maxRetries)%nat -> exists e', fn j = Throw e') ->
        fn maxRetries = Throw e ->
        Part000.withRetry fn maxRetries = Throw e)
  /\ (maxRetries = 0%nat -> Part000.withRetry fn maxRetries = Return None).
Proof.
  unfold Part000.withRetry. split; [|split].
  - intros k a Hk Hbefore Hat.
    apply (retry_from_first_success fn maxRetries 1 maxRetries k a); auto; lia.
  - intros e Hpos Hbefore Hlast.
    apply retry_from_all_fail; auto; lia.
  - by intros ->.
Qed.

Lemma withRetry_outcome_witness :
  Part000.withRetry
    (fun n => if (n =? 2)%nat then Return "page" else Throw "ETIMEDOUT") 2
  = Return (Some "page").
Proof.
  refine (proj1 (withRetry_outcome _ 2) 2%nat "page" _ _ eq_refl).
  - lia.
  - intros j Hj. exists "ETIMEDOUT". assert (j = 1%nat) as -> by lia. reflexivity.
Defined.

(** ** The classifier of [part_000] over the process state *)

Section MoreOnClassifier.

Import Part000.

Variable JSON_parse : string -> option json.
Variable OPENAI_API_KEY : option string.

Abbreviation analyze' := (analyzeRecipeWithAI JSON_parse OPENAI_API_KEY).




(** X4.  Without an API key no call sends a request or touches the state:
    every call of a run is answered by the fallback classifier. *)
Theorem no_key_no_request
  (calls : list (AIEnv * Recipe * option ExtractedData)) (st : State) :
  truthy OPENAI_API_KEY = false ->
  run_calls JSON_parse OPENAI_API_KEY calls st
  = (repeat Unavailable (length calls), st)
  /\ Forall (fun call =>
               ai_result_of (analyze' call.1.1 call.1.2 call.2 st)
               = Some (Unavailable,
                       Shaped (createSmartFallbackAnalysis call.1.2 call.2)))
            calls.
Proof.
  intros Hk.
  assert (Hone : forall env recipe d,
             analyze' env recipe d st
             = (Return (Unavailable, Shaped (createSmartFallbackAnalysis recipe d)), st)).
  { intros env recipe d. unfold analyzeRecipeWithAI. by rewrite Hk. }
  split.
  - induction calls as [|[[env recipe] d] calls IH]; [done|].
    cbn [run_calls length repeat]. rewrite Hone, IH. reflexivity.
  - apply Forall_forall. intros [[env recipe] d] _. cbn [fst snd]. by rewrite Hone.
Qed.

End MoreOnClassifier.


Lemma no_key_no_request_witness :
  run_calls reference_JSON_parse None
    [(closed_env dessert_reply, toast, None); (failing_env 10, soup, None)]
    Part000.initial_state
  = ([Part000.Unavailable; Part000.Unavailable], Part000.initial_state).
Proof.
  exact (proj1 (no_key_no_request reference_JSON_parse None
                  [(closed_env dessert_reply, toast, None); (failing_env 10, soup, None)]
                  Part000.initial_state eq_refl)).
Defined.

(** ** The fallback classifier: the inferred sets *)

Lemma push_if_sublist (c : bool) (tag : string) (tags v0 v : list string) :
  v = (v0 ++ [tag])%list ->
  tags `sublist_of` v0 ->
  Part000.push_if c tag tags `sublist_of` v.
Proof.
  intros -> H. unfold Part000.push_if. destruct c.
  - by apply sublist_app.
  - by apply sublist_inserts_r.
Qed.

Lemma styleTags_sublist (name ingredientText : string) :
  Part000.styleTags name ingredientText `sublist_of` styleVocabulary.
Proof.
  unfold Part000.styleTags. cbv zeta.
  repeat match goal with
         | |- Part000.push_if _ _ _ `sublist_of` ?v =>
             let v0 := eval cbv in (removelast v) in
             apply (push_if_sublist _ _ _ v0 v); [reflexivity|]
         end.
  reflexivity.
Qed.

Lemma rule_tags_sublist (name ingredientText : string) :
  (Part000.styleTags name ingredientText
     ++ Part000.dietaryTags name ingredientText)%list
  `sublist_of` (styleVocabulary ++ ["Vegan"; "Vegetarian"])%list.
Proof.
  apply sublist_app; [apply styleTags_sublist|].
  unfold Part000.dietaryTags.
  destruct (_ && _); [apply sublist_skip, sublist_nil_l|].
  destruct (negb _); [apply sublist_cons; reflexivity | apply sublist_nil_l].
Qed.

(** X5.  Whenever the fallback infers tags, they are between one and four
    tags without repetition, taken in the fixed order of the rules (cooking
    method, dish type, flavour, dietary last); it infers none exactly when no
    rule applies. *)
Theorem inferred_tags_shape (name : string) (ingredients : list string) :
  (forall l,
      Part000.inferTagsFromNameAndIngredients name ingredients = Some l ->
      l <> [] /\ (length l <= 4)%nat /\ NoDup l
      /\ l `sublist_of` (styleVocabulary ++ ["Vegan"; "Vegetarian"])%list)
  /\ (Part000.inferTagsFromNameAndIngredients name ingredients = None
      <-> Part000.styleTags name (Part000.ingredientTextOf ingredients) = []
          /\ Part000.dietaryTags name (Part000.ingredientTextOf ingredients) = []).
Proof.
  unfold Part000.inferTagsFromNameAndIngredients.
  pose proof (rule_tags_sublist name (Part000.ingredientTextOf ingredients)) as Hsub.
  destruct (_ ++ _)%list as [|t ts] eqn:E.
  - split; [discriminate|]. split; [intros _ | done].
    by apply app_eq_nil in E.
  - cbn [length Nat.ltb Nat.leb]. split.
    + intros l H. apply (inj Some) in H as <-. unfold slice0.
      assert (Hl : take 4 (t :: ts) `sublist_of` (styleVocabulary ++ ["Vegan"; "Vegetarian"])%list)
        by (etrans; [apply sublist_take | exact Hsub]).
      split; [done|]. split; [rewrite length_take; lia|].
      split; [|exact Hl].
      eapply sublist_NoDup; [|exact Hl].
      apply (bool_decide_unpack _). vm_compute. exact I.
    + split; [discriminate|]. intros [Hs Hd]. rewrite Hs, Hd in E. discriminate.
Qed.

Lemma inferred_tags_shape_witness :
  ["Salad"; "Creamy"; "Vegetarian"] <> []
  /\ (length ["Salad"; "Creamy"; "Vegetarian"] <= 4)%nat
  /\ NoDup ["Salad"; "Creamy"; "Vegetarian"]
  /\ ["Salad"; "Creamy"; "Vegetarian"]
     `sublist_of` (styleVocabulary ++ ["Vegan"; "Vegetarian"])%list.
Proof.
  exact (proj1 (inferred_tags_shape "greek salad" ["Feta cheese"; "Cucumber"])
               ["Salad"; "Creamy"; "Vegetarian"] eq_refl).
Defined.

(** X6.  The cut to four tags takes the dietary tag first: when four or more
    cooking-method, dish-type and flavour rules apply, the inferred tags hold
    neither "Vegan" nor "Vegetarian", whatever the ingredients. *)
Theorem four_style_tags_drop_dietary (name : string) (ingredients l : list string) :
  (4 <= length (Part000.styleTags name (Part000.ingredientTextOf ingredients)))%nat ->
  Part000.inferTagsFromNameAndIngredients name ingredients = Some l ->
  l = take 4 (Part000.styleTags name (Part000.ingredientTextOf ingredients))
  /\ ("Vegan" ∉ l) /\ ("Vegetarian" ∉ l).
Proof.
  intros Hlen. unfold Part000.inferTagsFromNameAndIngredients.
  destruct (0 <? _)%nat; [|discriminate]. intros H. apply (inj Some) in H as <-.
  unfold slice0. rewrite take_app_le by exact Hlen.
  split; [reflexivity|].
  pose proof (styleTags_not_dietary name (Part000.ingredientTextOf ingredients)) as Hs.
  split; intros Hin; apply subseteq_take in Hin;
    apply (proj1 (Forall_forall _ _) Hs) in Hin; tauto.
Qed.

Lemma four_style_tags_drop_dietary_witness :
  Part000.inferTagsFromNameAndIngredients "grilled roasted beet salad soup" ["beets"]
  = Some ["Grilled"; "Roasted"; "Salad"; "Soup"]
  /\ ["Grilled"; "Roasted"; "Salad"; "Soup"]
     = take 4 (Part000.styleTags "grilled roasted beet salad soup"
                 (Part000.ingredientTextOf ["beets"]))
  /\ Part000.dietaryTags "grilled roasted beet salad soup"
       (Part000.ingredientTextOf ["beets"]) = ["Vegan"].
Proof.
  split; [vm_compute; reflexivity|]. split; [|vm_compute; reflexivity].
  refine (proj1 (four_style_tags_drop_dietary "grilled roasted beet salad soup" ["beets"]
                   ["Grilled"; "Roasted"; "Salad"; "Soup"] _ eq_refl)).
  vm_compute. lia.
Defined.

(** *** Key ingredients *)

Lemma match_entry_NoDup (ingredient : string) (keys : list string)
  (entry : string * list string) :
  NoDup keys -> NoDup (Part000.match_entry ingredient keys entry).
Proof.
  intros H. destruct entry as [key patterns]. unfold Part000.match_entry.
  destruct (existsb _ patterns); [|exact H].
  destruct (find _ INGREDIENT_OPTIONS) as [mapped|]; [|exact H].
  destruct (truthy _); cbn [andb]; [|exact H].
  destruct (arr_includes keys mapped) eqn:E; cbn [negb]; [exact H|].
  apply arr_includes_false in E.
  apply NoDup_app. split; [exact H|]. split; [|apply NoDup_singleton].
  intros x Hx Hin. apply list_elem_of_singleton in Hin. by subst x.
Qed.

Lemma match_entry_prefix (ingredient : string) (keys : list string)
  (entry : string * list string) :
  keys `prefix_of` Part000.match_entry ingredient keys entry.
Proof.
  destruct entry as [key patterns]. unfold Part000.match_entry.
  destruct (existsb _ patterns); [|done].
  destruct (find _ INGREDIENT_OPTIONS) as [mapped|]; [|done].
  destruct (_ && _); [|done]. by apply prefix_app_r.
Qed.

Lemma fold_entries_NoDup (ingredient : string) (mapping : list (string * list string))
  (keys : list string) :
  NoDup keys -> NoDup (fold_left (Part000.match_entry ingredient) mapping keys).
Proof.
  revert keys. induction mapping as [|e mapping IH]; intros keys H; simpl; [exact H|].
  apply IH. by apply match_entry_NoDup.
Qed.

Lemma fold_entries_prefix (ingredient : string) (mapping : list (string * list string))
  (keys : list string) :
  keys `prefix_of` fold_left (Part000.match_entry ingredient) mapping keys.
Proof.
  revert keys. induction mapping as [|e mapping IH]; intros keys; simpl; [done|].
  etrans; [apply match_entry_prefix | apply IH].
Qed.

Lemma scan_ingredients_NoDup (scraped keys : list string) :
  NoDup keys -> NoDup (Part000.scan_ingredients scraped keys).
Proof.
  revert keys. induction scraped as [|x scraped IH]; intros keys H; [exact H|].
  cbn [Part000.scan_ingredients].
  pose proof (fold_entries_NoDup (toLowerCase x) Part000.ingredientMapping keys H) as Hf.
  destruct (5 <=? _)%nat; [exact Hf | by apply IH].
Qed.

Lemma scan_ingredients_cons (x : string) (scraped keys : list string) :
  Part000.scan_ingredients (x :: scraped) keys
  = if (5 <=? length (fold_left (Part000.match_entry (toLowerCase x))
                                Part000.ingredientMapping keys))%nat
    then fold_left (Part000.match_entry (toLowerCase x)) Part000.ingredientMapping keys
    else Part000.scan_ingredients scraped
           (fold_left (Part000.match_entry (toLowerCase x)) Part000.ingredientMapping keys).
Proof. reflexivity. Qed.

(** Once five key ingredients are there, what follows is not read. *)
Lemma scan_ingredients_leaves (scraped more keys : list string) :
  (length keys < 5)%nat ->
  (5 <= length (Part000.scan_ingredients scraped keys))%nat ->
  Part000.scan_ingredients (scraped ++ more) keys = Part000.scan_ingredients scraped keys.
Proof.
  revert keys. induction scraped as [|x scraped IH]; intros keys Hk Hfive.
  - cbn [Part000.scan_ingredients] in Hfive. lia.
  - change ((x :: scraped) ++ more)%list with (x :: (scraped ++ more)%list).
    rewrite !scan_ingredients_cons in *.
    destruct (Nat.leb_spec 5 (length (fold_left (Part000.match_entry (toLowerCase x))
                                         Part000.ingredientMapping keys))) as [_|Hlt];
      [reflexivity|].
    by apply IH.
Qed.

Lemma scan_ingredients_lower (scraped keys : list string) :
  Part000.scan_ingredients (map toLowerCase scraped) keys
  = Part000.scan_ingredients scraped keys.
Proof.
  revert keys. induction scraped as [|x scraped IH]; intros keys; [reflexivity|].
  cbn [map Part000.scan_ingredients]. rewrite toLowerCase_idem.
  destruct (5 <=? _)%nat; [reflexivity | apply IH].
Qed.

(** X7.  The key ingredients the fallback reads off the scraped ingredient
    lines are never an empty list (it answers [null] instead), hold no
    ingredient twice, and hold members of the ingredient vocabulary only, so
    at most as many as the vocabulary has.  Only the first ten lines are
    read, and letter case plays no part. *)
Theorem key_ingredients_shape (scraped : list string) :
  (forall l,
      Part000.extractKeyIngredientsFromList scraped = Some l ->
      l <> [] /\ NoDup l /\ l ⊆ INGREDIENT_OPTIONS
      /\ (length l <= length INGREDIENT_OPTIONS)%nat)
  /\ Part000.extractKeyIngredientsFromList (take 10 scraped)
     = Part000.extractKeyIngredientsFromList scraped
  /\ Part000.extractKeyIngredientsFromList (map toLowerCase scraped)
     = Part000.extractKeyIngredientsFromList scraped.
Proof.
  split; [|split].
  - intros l H.
    pose proof (extractKeyIngredients_member scraped l H) as Hmem.
    unfold Part000.extractKeyIngredientsFromList in H.
    destruct (Nat.ltb_spec 0 (length (Part000.scan_ingredients (slice0 10 scraped) [])))
      as [Hpos|_]; [|discriminate].
    apply (inj Some) in H as <-.
    assert (Hnd : NoDup (Part000.scan_ingredients (slice0 10 scraped) []))
      by apply scan_ingredients_NoDup, NoDup_nil_2.
    assert (Hsub : Part000.scan_ingredients (slice0 10 scraped) [] ⊆ INGREDIENT_OPTIONS)
      by (intros x Hx; exact (proj1 (Forall_forall _ _) Hmem x Hx)).
    split; [intros E; rewrite E in Hpos; cbn in Hpos; lia|].
    split; [exact Hnd|]. split; [exact Hsub|].
    apply submseteq_length, NoDup_submseteq; assumption.
  - unfold Part000.extractKeyIngredientsFromList, slice0.
    by rewrite take_take, Nat.min_id.
  - unfold Part000.extractKeyIngredientsFromList, slice0.
    by rewrite <- fmap_take, scan_ingredients_lower.
Qed.

Lemma key_ingredients_shape_witness :
  ["Chicken"; "Garlic"] <> [] /\ NoDup ["Chicken"; "Garlic"]
  /\ ["Chicken"; "Garlic"] ⊆ INGREDIENT_OPTIONS
  /\ (length ["Chicken"; "Garlic"] <= length INGREDIENT_OPTIONS)%nat.
Proof.
  exact (proj1 (key_ingredients_shape
                  ["2 Chicken breasts"; "3 cloves garlic"; "1 tbsp garlic powder"])
               ["Chicken"; "Garlic"] eq_refl).
Defined.

(** X8.  The scan stops at five: once the lines read so far have given five
    or more key ingredients, nothing that follows them changes the answer. *)
Theorem key_ingredients_stop_at_five (scraped more l : list string) :
  Part000.extractKeyIngredientsFromList scraped = Some l ->
  (5 <= length l)%nat ->
  Part000.extractKeyIngredientsFromList (scraped ++ more) = Some l.
Proof.
  unfold Part000.extractKeyIngredientsFromList, slice0.
  destruct (0 <? _)%nat eqn:E; [|discriminate]. intros H Hfive.
  apply (inj Some) in H. rewrite take_app.
  rewrite scan_ingredients_leaves; [by rewrite E, H | cbn; lia | by rewrite H].
Qed.

Lemma key_ingredients_stop_at_five_witness :
  Part000.extractKeyIngredientsFromList
    (["chicken, garlic and onion"; "lemon and basil"] ++ ["rice"; "milk"])
  = Some ["Chicken"; "Onions"; "Garlic"; "Lemon"; "Basil"].
Proof.
  refine (key_ingredients_stop_at_five
            ["chicken, garlic and onion"; "lemon and basil"] ["rice"; "milk"]
            ["Chicken"; "Onions"; "Garlic"; "Lemon"; "Basil"] eq_refl _).
  vm_compute. lia.
Defined.

(** ** Classification results and the change sets built from them *)

Lemma fallback_keeps_fields (recipe : Recipe) (extractedData : option ExtractedData)
  (f : CategoricalField) :
  field_nonempty recipe f = true ->
  suggestion (Part000.createSmartFallbackAnalysis recipe extractedData) f = None.
Proof.
  intros H. unfold Part000.createSmartFallbackAnalysis.
  destruct f; cbn [field_nonempty] in H; cbn [suggestion meal cuisine tags key_ingredients];
    by rewrite H.
Qed.

Lemma validate_keeps_fields (analysis : Analysis) (recipe : Recipe) (f : CategoricalField) :
  field_nonempty recipe f = true ->
  suggestion (Part001.validateAnalysis analysis recipe) f = None.
Proof.
  intros H. unfold Part001.validateAnalysis.
  destruct f; cbn [field_nonempty] in H; cbn [suggestion meal cuisine tags key_ingredients];
    by rewrite H.
Qed.

Lemma validated_keeps_fields (j : json) (recipe : Recipe) (validated : Assigned)
  (a : Analysis) (f : CategoricalField) :
  Part001.validateAnalysis_parsed j recipe = Return validated ->
  analysis_object validated = Shaped a ->
  field_nonempty recipe f = true ->
  suggestion a f = None.
Proof.
  intros Hv Ha Hf. destruct j as [|b|m e|s|items|fields].
  - destruct (validate_parsed_null recipe) as [e He]. congruence.
  - cbn in Hv. destruct (Part001.preserved recipe); [|discriminate].
    injection Hv as <-. discriminate.
  - cbn in Hv. destruct (Part001.preserved recipe); [|discriminate].
    injection Hv as <-. discriminate.
  - cbn in Hv. destruct (Part001.preserved recipe); [|discriminate].
    injection Hv as <-. discriminate.
  - injection Hv as <-. discriminate.
  - apply validate_parsed_members in Hv
      as (fields' & t & k & -> & Ht & Hk & Hm & Hc & Htags & Hkeys & _).
    unfold analysis_object, read_analysis, asAnalysis in Ha. cbn [value] in Ha.
    rewrite Hm, Hc, Htags, Hkeys in Ha.
    destruct f; cbn [field_nonempty] in Hf; rewrite Hf in *.
    + change (chosen MEAL_OPTIONS "Main Dish" (kept true _)) with (Some JNull) in Ha.
      cbn [as_string] in Ha.
      repeat (case_match; try discriminate). by simplify_eq.
    + change (chosen CUISINE_OPTIONS "American" (kept true _)) with (Some JNull) in Ha.
      cbn [as_string] in Ha.
      repeat (case_match; try discriminate). by simplify_eq.
    + injection Ht as <-. cbn [as_string_array] in Ha.
      repeat (case_match; try discriminate). by simplify_eq.
    + injection Hk as <-. cbn [as_string_array] in Ha.
      repeat (case_match; try discriminate). by simplify_eq.
Qed.

(** X9.  No classifier proposes a value for a field the recipe has filled:
    for such a field the result of the fallback classifier, the result of
    [validateAnalysis], and with it every classification result the
    classifier of [part_001] returns, hold [null]. *)
Theorem classifiers_leave_filled_fields (recipe : Recipe) (f : CategoricalField) :
  field_nonempty recipe f = true ->
  (forall extractedData,
      suggestion (Part000.createSmartFallbackAnalysis recipe extractedData) f = None)
  /\ (forall analysis, suggestion (Part001.validateAnalysis analysis recipe) f = None)
  /\ (forall JSON_parse reply extractedData a,
         Part001.analyzeRecipeWithAI JSON_parse reply recipe extractedData
         = Return (Some (Shaped a)) ->
         suggestion a f = None).
Proof.
  intros H. split; [|split].
  - intros d. by apply fallback_keeps_fields.
  - intros a. by apply validate_keeps_fields.
  - intros JSON_parse reply d a Ha.
    apply analyze001_validated in Ha as (j & validated & Hv & Ha).
    by apply (validated_keeps_fields j recipe validated).
Qed.

Lemma classifiers_leave_filled_fields_witness :
  suggestion
    (Part001.validateAnalysis
       (mkAnalysis None (Some "Dessert") (Some "French") (Some ["Sweet"]) None None None)
       (mkRecipe "Crepes" "" (Some "Breakfast") None None None)) FMeal
  = None.
Proof.
  exact (proj1 (proj2 (classifiers_leave_filled_fields
                         (mkRecipe "Crepes" "" (Some "Breakfast") None None None)
                         FMeal eq_refl))
               (mkAnalysis None (Some "Dessert") (Some "French") (Some ["Sweet"])
                           None None None)).
Defined.

(** What an entry of a change set says about the analysis it was built
    from, for the two variants of [formatSuggestedChanges]. *)
Ltac entry_cases :=
  repeat match goal with
         | |- context [if ?c then _ else _] => destruct c eqn:?
         end;
  repeat (rewrite lookup_insert_ne by done);
  rewrite ?lookup_insert_eq, ?lookup_empty;
  intros H; try discriminate H; apply (inj Some) in H as <-.

Lemma format000_entry (recipe : Recipe) (analysis : Analysis)
  (extractedData : option ExtractedData) (f : CategoricalField) (c : Change) :
  Part000.formatSuggestedChanges recipe analysis extractedData !! change_key f = Some c ->
  suggestion analysis f = Some (suggested c)
  /\ match f with
     | FMeal => truthy (meal analysis) = true
     | FCuisine => truthy (cuisine analysis) = true
     | FTags => has_items (tags analysis) = true
     | FKeyIngredients => has_items (key_ingredients analysis) = true
     end.
Proof.
  unfold Part000.formatSuggestedChanges.
  destruct f; cbn [change_key suggestion].
  - destruct (negb (truthy (current_meal recipe)) && truthy (meal analysis)) eqn:E;
      entry_cases; cbn [suggested];
      apply andb_true_iff in E as [_ E]; (split; [|exact E]);
      (destruct (meal analysis); [reflexivity | discriminate]).
  - destruct (negb (truthy (current_cuisine recipe)) && truthy (cuisine analysis)) eqn:E;
      entry_cases; cbn [suggested];
      apply andb_true_iff in E as [_ E]; (split; [|exact E]);
      (destruct (cuisine analysis); [reflexivity | discriminate]).
  - destruct (negb (has_items (current_tags recipe)) && has_items (tags analysis)) eqn:E;
      entry_cases; cbn [suggested];
      apply andb_true_iff in E as [_ E]; (split; [|exact E]);
      (destruct (tags analysis); [reflexivity | discriminate]).
  - destruct (negb (has_items (current_ingredients recipe))
              && has_items (key_ingredients analysis)) eqn:E;
      entry_cases; cbn [suggested];
      apply andb_true_iff in E as [_ E]; (split; [|exact E]);
      (destruct (key_ingredients analysis); [reflexivity | discriminate]).
Qed.

Lemma format001_entry (recipe : Recipe) (analysis : Analysis)
  (extractedData : option ExtractedData) (f : CategoricalField) (c : Change) :
  Part001.formatSuggestedChanges recipe analysis extractedData !! change_key f = Some c ->
  suggestion analysis f = Some (suggested c)
  /\ match f with
     | FMeal => truthy (meal analysis) = true
     | FCuisine => truthy (cuisine analysis) = true
     | FTags | FKeyIngredients => True
     end.
Proof.
  unfold Part001.formatSuggestedChanges.
  destruct f; cbn [change_key suggestion].
  - destruct (truthy (meal analysis) && negb (truthy (current_meal recipe))) eqn:E;
      entry_cases; cbn [suggested];
      apply andb_true_iff in E as [E _]; (split; [|exact E]);
      (destruct (meal analysis); [reflexivity | discriminate]).
  - destruct (truthy (cuisine analysis) && negb (truthy (current_cuisine recipe))) eqn:E;
      entry_cases; cbn [suggested];
      apply andb_true_iff in E as [E _]; (split; [|exact E]);
      (destruct (cuisine analysis); [reflexivity | discriminate]).
  - destruct (is_array (tags analysis) && negb (has_items (current_tags recipe))) eqn:E;
      entry_cases; cbn [suggested];
      apply andb_true_iff in E as [E _]; (split; [|exact I]);
      (destruct (tags analysis); [reflexivity | discriminate]).
  - destruct (is_array (key_ingredients analysis)
              && negb (has_items (current_ingredients recipe))) eqn:E;
      entry_cases; cbn [suggested];
      apply andb_true_iff in E as [E _]; (split; [|exact I]);
      (destruct (key_ingredients analysis); [reflexivity | discriminate]).
Qed.

(** X10.  What a review offers for a categorical field is a vocabulary
    value.  In the change set [part_001] builds from a validated
    classification result, and in the one [part_000] builds from the result
    of the fallback classifier, the suggested value of every entry for meal,
    cuisine, tags or key ingredients lies within the vocabulary axis of the
    field; an empty or unknown meal or cuisine never gets as far as an
    entry.  The fallback classifier never leads to a title entry. *)
Theorem suggested_values_in_vocabulary (recipe : Recipe)
  (extractedData : option ExtractedData) (f : CategoricalField) (c : Change) :
  (forall analysis,
      Part001.formatSuggestedChanges recipe (Part001.validateAnalysis analysis recipe)
        extractedData !! change_key f = Some c ->
      value_within (options_of f) (suggested c))
  /\ (forall scraped,
         Part000.formatSuggestedChanges recipe
           (Part000.createSmartFallbackAnalysis recipe scraped) extractedData
         !! change_key f = Some c ->
         value_within (options_of f) (suggested c))
  /\ (forall scraped,
         Part000.formatSuggestedChanges recipe
           (Part000.createSmartFallbackAnalysis recipe scraped) extractedData
         !! "title" = None).
Proof.
  split; [|split].
  - intros analysis H. apply format001_entry in H as [Hs Ht].
    destruct (validate_closed_nonempty analysis recipe) as (Hm & Hc & Htg & Hk).
    destruct f; cbn [suggestion options_of] in *.
    + destruct (meal _) as [m|] eqn:E; [|discriminate].
      apply (inj Some) in Hs as <-. apply truthy_Some in Ht. by apply Hm.
    + destruct (cuisine _) as [m|] eqn:E; [|discriminate].
      apply (inj Some) in Hs as <-. apply truthy_Some in Ht. by apply Hc.
    + destruct (tags _) as [l|] eqn:E; [|discriminate].
      apply (inj Some) in Hs as <-. by apply Htg.
    + destruct (key_ingredients _) as [l|] eqn:E; [|discriminate].
      apply (inj Some) in Hs as <-. by apply Hk.
  - intros scraped H. apply format000_entry in H as [Hs _].
    destruct (fallback_vocabulary_closed recipe scraped) as (Hm & Hc & Htg & Hk).
    destruct f; cbn [suggestion options_of] in *.
    + destruct (meal _) as [m|] eqn:E; [|discriminate].
      apply (inj Some) in Hs as <-. by apply Hm.
    + destruct (cuisine _) as [m|] eqn:E; [|discriminate].
      apply (inj Some) in Hs as <-. by apply Hc.
    + destruct (tags _) as [l|] eqn:E; [|discriminate].
      apply (inj Some) in Hs as <-. by apply Htg.
    + destruct (key_ingredients _) as [l|] eqn:E; [|discriminate].
      apply (inj Some) in Hs as <-. by apply Hk.
  - intros scraped. unfold Part000.formatSuggestedChanges.
    cbn [standardized_title Part000.createSmartFallbackAnalysis truthy andb].
    other_keys.
Qed.

Lemma suggested_values_in_vocabulary_witness :
  value_within (options_of FMeal) (suggested (mkChange (VString "Empty") (VString "Main Dish"))).
Proof.
  exact (proj1 (suggested_values_in_vocabulary
                  (mkRecipe "Pancakes" "" None None (Some []) (Some [])) None FMeal
                  (mkChange (VString "Empty") (VString "Main Dish")))
               (mkAnalysis None (Some "Brunch") None None None None None) eq_refl).
Defined.

(** X11.  [validateAnalysis] is idempotent: validating a validated result
    for the same recipe changes nothing. *)
Theorem validateAnalysis_idempotent (analysis : Analysis) (recipe : Recipe) :
  Part001.validateAnalysis (Part001.validateAnalysis analysis recipe) recipe
  = Part001.validateAnalysis analysis recipe.
Proof.
  assert (Hfilter : forall options l,
             List.filter (fun x => arr_includes options x)
                         (List.filter (fun x => arr_includes options x) l)
             = List.filter (fun x => arr_includes options x) l).
  { intros options l. induction l as [|x l IH]; [reflexivity|]. cbn [List.filter].
    destruct (arr_includes options x) eqn:E; [|exact IH].
    cbn [List.filter]. by rewrite E, IH. }
  assert (Hmain : arr_includes MEAL_OPTIONS "Main Dish" = true) by (vm_compute; reflexivity).
  assert (Hamer : arr_includes CUISINE_OPTIONS "American" = true) by (vm_compute; reflexivity).
  unfold Part001.validateAnalysis. cbn [meal cuisine tags key_ingredients
    standardized_title confidence reasoning].
  f_equal.
  - destruct (truthy (current_meal recipe)); [reflexivity|].
    destruct (meal analysis) as [m|]; [|reflexivity]. cbn [from_option id].
    destruct (truthy (Some m)) eqn:T; cbn [andb from_option id].
    + destruct (arr_includes MEAL_OPTIONS m) eqn:E; cbn [negb from_option id].
      * by rewrite T, E.
      * cbn [truthy String.eqb andb negb]. by rewrite Hmain.
    + by rewrite T.
  - destruct (truthy (current_cuisine recipe)); [reflexivity|].
    destruct (cuisine analysis) as [m|]; [|reflexivity]. cbn [from_option id].
    destruct (truthy (Some m)) eqn:T; cbn [andb from_option id].
    + destruct (arr_includes CUISINE_OPTIONS m) eqn:E; cbn [negb from_option id].
      * by rewrite T, E.
      * cbn [truthy String.eqb andb negb]. by rewrite Hamer.
    + by rewrite T.
  - destruct (has_items (current_tags recipe)); [reflexivity|].
    destruct (tags analysis) as [l|]; [|reflexivity]. cbn [is_array from_option id].
    by rewrite Hfilter.
  - destruct (has_items (current_ingredients recipe)); [reflexivity|].
    destruct (key_ingredients analysis) as [l|]; [|reflexivity].
    cbn [is_array from_option id]. by rewrite Hfilter.
Qed.

(** ** Title standardization only removes characters and changes case *)

(** X12.  On a title of ASCII text, title standardization only removes
    characters and changes letter case.  The capitalization stage gives
    ASCII text again and keeps every character up to its case, so it keeps
    the length; the standardized title, read without regard to case, is the
    title with some characters left out, in the same order; and it is never
    longer than the title.  (Beyond ASCII the case mapping of the host can
    lengthen a string, so the restriction is needed.) *)
Theorem standardizeTitle_only_removes (title : string) :
  ascii_text title ->
  ascii_text (Part001.titleCase title)
  /\ toLowerCase (Part001.titleCase title) = toLowerCase title
  /\ String.length (Part001.titleCase title) = String.length title
  /\ chars (toLowerCase (Part001.standardizeTitle title))
     `sublist_of` chars (toLowerCase title)
  /\ (String.length (Part001.standardizeTitle title) <= String.length title)%nat.
Proof.
  assert (Hsub : chars (toLowerCase (Part001.standardizeTitle title))
                 `sublist_of` chars (toLowerCase title)).
  { unfold Part001.standardizeTitle. rewrite titleCase_lower, !chars_toLowerCase.
    apply (fmap_sublist lower_char), stripBoilerplate_sublist. }
  intros Hascii. split; [by apply titleCase_ascii|].
  split; [apply titleCase_lower|].
  split; [by rewrite <- toLowerCase_length, titleCase_lower, toLowerCase_length|].
  split; [exact Hsub|].
  apply sublist_length in Hsub.
  by rewrite !chars_length, !toLowerCase_length in Hsub.
Qed.

(** ** The orchestrators: size and order of a review *)

Section Batches.

Import Part000.

Variable extract : nat -> string -> Completion (option ExtractedData).
Variable classify : nat -> Recipe -> option ExtractedData -> Completion (option Analysis).

Lemma processRecipe_item (task : nat) (recipe : Recipe) (item : ReviewItem) :
  processRecipe extract classify task recipe = Some item ->
  item_recipe item = recipe
  /\ item_suggestedChanges item
     = formatSuggestedChanges recipe (item_analysis item)
         match item_extractedData item with
         | PageData d => Some d
         | NotionOnly => None
         end.
Proof.
  unfold processRecipe, processBody.
  destruct (extractedData_of extract task recipe) as [extractedData|e]; [|discriminate].
  destruct (classify task recipe extractedData) as [[analysis|]|e]; try discriminate.
  intros H. apply (inj Some) in H as <-. cbn.
  by destruct extractedData.
Qed.

Lemma results_recipes (task : nat -> Recipe -> option ReviewItem) (recipes : list Recipe) :
  (forall i r item,
     task i r = Some item ->
     item_recipe item = r
     /\ item_suggestedChanges item
        = formatSuggestedChanges r (item_analysis item)
            match item_extractedData item with
            | PageData d => Some d
            | NotionOnly => None
            end) ->
  map item_recipe (omap (fun item => item) (imap task recipes)) `sublist_of` recipes
  /\ Forall (fun item =>
               item_suggestedChanges item
               = formatSuggestedChanges (item_recipe item) (item_analysis item)
                   match item_extractedData item with
                   | PageData d => Some d
                   | NotionOnly => None
                   end)
            (omap (fun item => item) (imap task recipes)).
Proof.
  revert task. induction recipes as [|r recipes IH]; intros task Htask.
  - cbn. split; [done | constructor].
  - cbn [imap]. destruct (IH (task ∘ S) (fun i => Htask (S i))) as [IHs IHf].
    destruct (task 0%nat r) as [item|] eqn:E.
    + destruct (Htask _ _ _ E) as [Hr Hc].
      change (omap (fun item => item) (Some item :: imap (task ∘ S) recipes))
        with (item :: omap (fun item => item) (imap (task ∘ S) recipes)).
      cbn [map].
      split; [rewrite Hr; by apply sublist_skip | constructor; [by rewrite Hr | exact IHf]].
    + change (omap (fun item => item) (None :: imap (task ∘ S) recipes))
        with (omap (fun item : option ReviewItem => item) (imap (task ∘ S) recipes)).
      split; [by apply sublist_cons | exact IHf].
Qed.

(** X13.  [createReviewData] of [part_000] returns normally whatever the
    extractor and the classifier do, with at most [MAX_RECIPES_PER_BATCH]
    review items.  The recipes of the items are recipes of the batch, each
    at most once per position and in the order of the batch, and the change
    set of every item is the one [formatSuggestedChanges] builds from the
    analysis and the page data shown with it. *)
Theorem review_is_bounded (recipes : list Recipe) :
  exists items,
    createReviewData extract classify recipes = Return items
    /\ (length items <= MAX_RECIPES_PER_BATCH)%nat
    /\ map item_recipe items `sublist_of` take MAX_RECIPES_PER_BATCH recipes
    /\ Forall (fun item =>
                 item_suggestedChanges item
                 = formatSuggestedChanges (item_recipe item) (item_analysis item)
                     match item_extractedData item with
                     | PageData d => Some d
                     | NotionOnly => None
                     end)
              items.
Proof.
  eexists. split; [reflexivity|].
  destruct (results_recipes (processRecipe extract classify)
              (slice0 MAX_RECIPES_PER_BATCH recipes) processRecipe_item) as [Hs Hf].
  split; [|split; [exact Hs | exact Hf]].
  apply sublist_length in Hs. rewrite length_map in Hs.
  etrans; [exact Hs|]. unfold slice0. rewrite length_take. lia.
Qed.

End Batches.

Section Reviews.

Import Part001.

Variable extract : string -> Completion (option ExtractedData).
Variable classify : Recipe -> option ExtractedData -> Completion (option Analysis).
Variable page_loads : Recipe -> bool.

Lemma reviewLoop_items (P : Recipe -> ReviewItem -> Prop)
  (round : Recipe -> Completion (option ReviewItem)) :
  (forall r item, round r = Return (Some item) -> P r item) ->
  forall recipes acc items,
    reviewLoop round recipes acc = Return items ->
    exists kept new,
      items = (acc ++ new)%list /\ kept `sublist_of` recipes /\ Forall2 P kept new.
Proof.
  intros Hround. induction recipes as [|r recipes IH]; intros acc items; cbn [reviewLoop].
  - intros H. injection H as <-. exists [], [].
    rewrite app_nil_r. by repeat split.
  - destruct (round r) as [[item|]|e] eqn:E; [| |discriminate].
    + intros H. apply IH in H as (kept & new & -> & Hs & Hf).
      exists (r :: kept), (item :: new). rewrite <- app_assoc.
      split; [reflexivity|]. split; [by apply sublist_skip|].
      constructor; [by apply Hround | exact Hf].
    + intros H. apply IH in H as (kept & new & -> & Hs & Hf).
      exists kept, new. split; [reflexivity|]. split; [by apply sublist_cons | exact Hf].
Qed.

Lemma reviewLoop_returns (round : Recipe -> Completion (option ReviewItem))
  (recipes : list Recipe) :
  Forall (fun r => exists o, round r = Return o) recipes ->
  forall acc, exists items, reviewLoop round recipes acc = Return items.
Proof.
  induction 1 as [|r recipes [o Hr] _ IH]; intros acc; cbn [reviewLoop]; [by eexists|].
  rewrite Hr. destruct o; apply IH.
Qed.

Lemma reviewLoop_throws (round : Recipe -> Completion (option ReviewItem))
  (before after : list Recipe) (r : Recipe) (e : string) :
  Forall (fun r => exists o, round r = Return o) before ->
  round r = Throw e ->
  forall acc, reviewLoop round (before ++ r :: after) acc = Throw e.
Proof.
  intros Hb Hr. induction Hb as [|r0 before [o Hr0] _ IH]; intros acc;
    cbn [reviewLoop app].
  - by rewrite Hr.
  - rewrite Hr0. destruct o; apply IH.
Qed.

Lemma reviewRecipe_item (r : Recipe) (item : ReviewItem) :
  reviewRecipe extract classify page_loads r = Return (Some item) ->
  item_recipe item = r
  /\ (page_loads r = true -> item_extractedData item = NotionOnly)
  /\ forall d, item_extractedData item = PageData d ->
               ingredients d = None /\ instructions d = None /\ description d = None.
Proof.
  unfold reviewRecipe, needsAnyData. cbn [length Nat.ltb Nat.leb].
  destruct (page_loads r); cbn [negb].
  - destruct (classify r None) as [[a|]|e]; try discriminate.
    intros H. injection H as <-. cbn.
    split; [reflexivity|]. split; [reflexivity | discriminate].
  - destruct (extract (link r)) as [[d|]|e]; try discriminate; cbn [filterExtractedData].
    + match goal with
      | |- context [classify r (Some ?d')] => destruct (classify r (Some d')) as [[a|]|e]
      end; try discriminate.
      intros H. injection H as <-. cbn.
      split; [reflexivity|]. split; [discriminate|].
      intros d0 H. injection H as <-. by cbn.
    + destruct (classify r None) as [[a|]|e]; try discriminate.
      intros H. injection H as <-. cbn.
      split; [reflexivity|]. split; [reflexivity | discriminate].
Qed.

Lemma reviewRecipe_returns (r : Recipe) :
  (forall url, exists d, extract url = Return d) ->
  (forall r d, exists a, classify r d = Return a) ->
  exists o, reviewRecipe extract classify page_loads r = Return o.
Proof.
  intros He Hc. unfold reviewRecipe.
  destruct (needsAnyData page_loads r).
  - destruct (He (link r)) as [[d|] ->]; cbn [filterExtractedData].
    + match goal with
      | |- context [classify r (Some ?d')] => destruct (Hc r (Some d')) as [[a|] ->]
      end; by eexists.
    + destruct (Hc r None) as [[a|] ->]; by eexists.
  - destruct (Hc r None) as [[a|] ->]; by eexists.
Qed.

(** X14.  When neither the extractor nor the classifier throws,
    [createReviewData] of [part_001] returns normally, with at most
    [MAX_RECIPES_PER_BATCH] review items, on recipes of the batch in the
    order of the batch.  For a recipe whose page content loads no page is
    extracted: its item shows no page data; and the page data an item shows
    never holds scraped ingredients, instructions or a description. *)
Theorem review_of_loaded_pages (recipes : list Recipe) :
  (forall url, exists d, extract url = Return d) ->
  (forall r d, exists a, classify r d = Return a) ->
  exists items,
    createReviewData extract classify page_loads recipes = Return items
    /\ (length items <= MAX_RECIPES_PER_BATCH)%nat
    /\ map item_recipe items `sublist_of` take MAX_RECIPES_PER_BATCH recipes
    /\ Forall (fun item =>
                 (page_loads (item_recipe item) = true ->
                  item_extractedData item = NotionOnly)
                 /\ forall d, item_extractedData item = PageData d ->
                              ingredients d = None /\ instructions d = None
                              /\ description d = None)
              items.
Proof.
  intros He Hc. unfold createReviewData.
  destruct (reviewLoop_returns (reviewRecipe extract classify page_loads)
              (slice0 MAX_RECIPES_PER_BATCH recipes)) with (acc := @nil ReviewItem)
    as [items Hitems].
  { apply Forall_forall. intros r _. by apply reviewRecipe_returns. }
  exists items. split; [exact Hitems|].
  apply (reviewLoop_items
           (fun r item =>
              item_recipe item = r
              /\ (page_loads r = true -> item_extractedData item = NotionOnly)
              /\ forall d, item_extractedData item = PageData d ->
                           ingredients d = None /\ instructions d = None
                           /\ description d = None)) in Hitems
    as (kept & new & -> & Hs & Hf); [|apply reviewRecipe_item].
  cbn [app].
  assert (Hmap : map item_recipe new = kept).
  { clear Hs. induction Hf as [|r item kept new [Hr _] _ IH]; [reflexivity|].
    cbn [map]. by rewrite Hr, IH. }
  split; [|split].
  - rewrite <- (length_map item_recipe), Hmap.
    apply sublist_length in Hs. etrans; [exact Hs|].
    unfold slice0. rewrite length_take. lia.
  - by rewrite Hmap.
  - clear Hs Hmap. induction Hf as [|r item kept new (Hr & Hl & Hd) _ IH]; constructor.
    + subst r. by split.
    + exact IH.
Qed.

Lemma refresh_round_throws (r : Recipe) (analysis : Analysis) :
  extract (link r) = Return None ->
  classify r None = Return (Some analysis) ->
  rescrapeRecipe extract classify r
  = Throw "Cannot read properties of null (reading 'title')"
  /\ reclassifyRecipe extract classify r
     = Throw "Cannot read properties of null (reading 'title')".
Proof.
  intros He Hc. unfold rescrapeRecipe, reclassifyRecipe. by rewrite He, Hc.
Qed.

Lemma refresh_round_returns (r : Recipe) (d : ExtractedData) :
  extract (link r) = Return (Some d) ->
  (exists a, classify r (Some d) = Return a) ->
  (exists o, rescrapeRecipe extract classify r = Return o)
  /\ (exists o, reclassifyRecipe extract classify r = Return o).
Proof.
  intros He [a Hc]. unfold rescrapeRecipe, reclassifyRecipe. rewrite He, Hc.
  destruct a; cbn [filterExtractedData]; split; by eexists.
Qed.

(** X15.  The refresh orchestrators of [part_001] stand or fall with the
    page data.  If the extraction gives page data for every recipe of the
    batch and the classifier returns, both return normally.  If the batch
    holds a recipe whose extraction gives [null] while the classifier still
    returns an analysis for it, and the recipes before it have page data,
    both calls end in the type error of [filterExtractedData]: no review
    items come back, not even those of the recipes before. *)
Theorem refresh_needs_page_data (recipes : list Recipe) :
  (Forall (fun r => exists d, extract (link r) = Return (Some d)
                              /\ exists a, classify r (Some d) = Return a)
          (slice0 MAX_RECIPES_PER_BATCH recipes) ->
   (exists items, createReviewDataWithWebsiteRefresh extract classify recipes = Return items)
   /\ (exists items, createReviewDataWithAIRefresh extract classify recipes = Return items))
  /\ (forall before r after analysis,
         slice0 MAX_RECIPES_PER_BATCH recipes = (before ++ r :: after)%list ->
         Forall (fun r => exists d, extract (link r) = Return (Some d)
                                    /\ exists a, classify r (Some d) = Return a) before ->
         extract (link r) = Return None ->
         classify r None = Return (Some analysis) ->
         createReviewDataWithWebsiteRefresh extract classify recipes
         = Throw "Cannot read properties of null (reading 'title')"
         /\ createReviewDataWithAIRefresh extract classify recipes
            = Throw "Cannot read properties of null (reading 'title')").
Proof.
  unfold createReviewDataWithWebsiteRefresh, createReviewDataWithAIRefresh. split.
  - intros Hall. split; apply reviewLoop_returns;
      (eapply Forall_impl; [exact Hall|]); intros r (d & He & Hc);
      by apply (refresh_round_returns r d).
  - intros before r after analysis -> Hb He Hc.
    destruct (refresh_round_throws r analysis He Hc) as [H1 H2].
    split; apply reviewLoop_throws; try assumption;
      (eapply Forall_impl; [exact Hb|]); intros r0 (d & He0 & Hc0);
      by apply (refresh_round_returns r0 d).
Qed.

End Reviews.

Lemma review_of_loaded_pages_witness :
  exists items,
    Part001.createReviewData refused_extract salad_classifier (fun _ => true)
      [salad; soup] = Return items
    /\ (length items <= Part001.MAX_RECIPES_PER_BATCH)%nat
    /\ map item_recipe items `sublist_of` take Part001.MAX_RECIPES_PER_BATCH [salad; soup]
    /\ Forall (fun item =>
                 ((fun _ : Recipe => true) (item_recipe item) = true ->
                  item_extractedData item = NotionOnly)
                 /\ forall d, item_extractedData item = PageData d ->
                              ingredients d = None /\ instructions d = None
                              /\ description d = None)
              items.
Proof.
  apply (review_of_loaded_pages refused_extract salad_classifier (fun _ => true)
           [salad; soup]).
  - intros url. unfold refused_extract, Part001.extractRecipeFromURL.
    destruct (negb (truthy (Some url))); by eexists.
  - intros r d. by eexists.
Defined.

Lemma refresh_needs_page_data_witness :
  Part001.createReviewDataWithWebsiteRefresh refused_extract salad_classifier [salad; soup]
  = Throw "Cannot read properties of null (reading 'title')"
  /\ Part001.createReviewDataWithAIRefresh refused_extract salad_classifier [salad; soup]
     = Throw "Cannot read properties of null (reading 'title')".
Proof.
  apply (proj2 (refresh_needs_page_data refused_extract salad_classifier [salad; soup])
               [] salad [soup] salad_analysis); try reflexivity.
  constructor.
Defined.

(** ** Update requests *)

Lemma str_slice0_length (n : nat) (s : string) :
  (String.length (str_slice0 n s) <= n)%nat.
Proof.
  revert s. induction n as [|n IH]; intros [|c s]; cbn [str_slice0 String.length]; try lia.
  specialize (IH s). lia.
Qed.

Lemma str_slice0_short (n : nat) (s : string) :
  (String.length s <= n)%nat -> str_slice0 n s = s.
Proof.
  revert s. induction n as [|n IH]; intros [|c s]; cbn [str_slice0 String.length];
    try reflexivity; try lia.
  intros H. f_equal. apply IH. lia.
Qed.

Section UpdateData.

Variable number_toString : Z -> Z -> string.
Variable number_truthy : Z -> Z -> bool.

Abbreviation step :=
  (fun (validated : Completion (gmap string json)) '(key, value) =>
     match validated with
     | Throw e => Throw e
     | Return validated =>
         if arr_includes allowedFields key
         then match sanitizeInput number_toString value with
              | Return sanitized => Return (<[key := sanitized]> validated)
              | Throw e => Throw e
              end
         else Return validated
     end).

Lemma sanitizeItems_returns (items l : list json) :
  sanitizeItems number_toString items = Return l ->
  length l = length items
  /\ Forall (fun item => match item with
                         | JStr s => (String.length s <= 100)%nat
                         | _ => False
                         end) l.
Proof.
  revert l. induction items as [|item items IH]; intros l; cbn [sanitizeItems].
  - intros [= <-]. split; [reflexivity | constructor].
  - destruct (ToString number_toString item) as [text|e]; [|discriminate].
    destruct (sanitizeItems number_toString items) as [l'|e]; [|discriminate].
    intros [= <-]. destruct (IH l' eq_refl) as [Hlen Hall].
    split; [cbn; by rewrite Hlen|].
    constructor; [exact (str_slice0_length 100 _) | exact Hall].
Qed.

Lemma sanitizeItems_converts (items : list json) :
  (exists l, sanitizeItems number_toString items = Return l)
  <-> (forall item, item ∈ items -> exists text, ToString number_toString item = Return text).
Proof.
  induction items as [|item items IH]; cbn [sanitizeItems].
  - split; [intros _ item Hin; by apply elem_of_nil in Hin | by eexists].
  - split.
    + intros [l H] x Hx.
      destruct (ToString number_toString item) as [text|e] eqn:E; [|discriminate].
      destruct (sanitizeItems number_toString items) as [l'|e]; [|discriminate].
      apply elem_of_cons in Hx as [->|Hx]; [by exists text|].
      apply IH; [by eexists | exact Hx].
    + intros H. destruct (H item) as [text ->]; [left|].
      destruct (proj2 IH) as [l' ->]; [|by eexists].
      intros x Hx. apply H. by right.
Qed.

Lemma sanitizeInput_limits (input v : json) :
  sanitizeInput number_toString input = Return v -> within_limits v.
Proof.
  destruct input as [|b|m e|s|items|fields]; cbn [sanitizeInput].
  - intros [= <-]. exact I.
  - intros [= <-]. exact I.
  - intros [= <-]. exact I.
  - intros H. injection H as <-. exact (str_slice0_length 10000 _).
  - destruct (sanitizeItems number_toString (slice0 50 items)) as [l|e] eqn:E;
      [|discriminate].
    intros [= <-]. apply sanitizeItems_returns in E as [Hlen Hall].
    split; [|exact Hall]. rewrite Hlen. unfold slice0. rewrite length_take. lia.
  - intros [= <-]. exact I.
Qed.

Lemma fold_thrown (entries : list (string * json)) (e : string) :
  fold_left step entries (Throw e) = Throw e.
Proof. induction entries as [|[k x] entries IH]; [reflexivity | exact IH]. Qed.

Lemma validate_fold_lookup (entries : list (string * json)) (acc result : gmap string json) :
  fold_left step entries (Return acc) = Return result ->
  forall key,
    match (if arr_includes allowedFields key then obj_get entries key else None) with
    | Some x =>
        exists v, sanitizeInput number_toString x = Return v /\ result !! key = Some v
    | None => result !! key = acc !! key
    end.
Proof.
  revert acc. induction entries as [|[k x] entries IH]; intros acc; cbn [fold_left obj_get].
  - intros [= <-] key. by destruct (arr_includes allowedFields key).
  - destruct (arr_includes allowedFields k) eqn:Ek.
    + destruct (sanitizeInput number_toString x) as [v0|e] eqn:Ex;
        [|by rewrite fold_thrown].
      intros H key. specialize (IH _ H key).
      destruct (arr_includes allowedFields key) eqn:Ekey.
      * destruct (obj_get entries key) as [x'|]; [exact IH|].
        destruct (String.eqb_spec k key) as [->|Hne].
        -- exists v0. split; [exact Ex|]. by rewrite IH, lookup_insert_eq.
        -- by rewrite IH, lookup_insert_ne.
      * rewrite IH, lookup_insert_ne; [reflexivity|]. intros ->. congruence.
    + intros H key. specialize (IH _ H key).
      destruct (arr_includes allowedFields key) eqn:Ekey; [|exact IH].
      destruct (obj_get entries key) as [x'|]; [exact IH|].
      destruct (String.eqb_spec k key) as [->|Hne]; [congruence | exact IH].
Qed.

Lemma fold_returns (entries : list (string * json)) (acc : gmap string json) :
  (forall k x, (k, x) ∈ entries -> arr_includes allowedFields k = true ->
               exists v, sanitizeInput number_toString x = Return v) ->
  exists result, fold_left step entries (Return acc) = Return result.
Proof.
  revert acc. induction entries as [|[k x] entries IH]; intros acc H; cbn [fold_left].
  - by eexists.
  - destruct (arr_includes allowedFields k) eqn:Ek.
    + destruct (H k x) as [v ->]; [left | exact Ek|].
      apply IH. intros k' x' Hin. apply H. by right.
    + apply IH. intros k' x' Hin. apply H. by right.
Qed.

Lemma obj_get_None (fields : list (string * json)) (key : string) :
  key ∉ map fst fields -> obj_get fields key = None.
Proof.
  induction fields as [|[k v] fields IH]; cbn [map fst obj_get]; [done|].
  intros H. apply not_elem_of_cons in H as [Hne H]. rewrite (IH H).
  destruct (String.eqb_spec k key); [congruence | reflexivity].
Qed.

Lemma obj_get_keys (g : string -> option json) (keys : list string) (key : string) :
  obj_get (omap (fun key => pair key <$> g key) keys) key
  = if bool_decide (key ∈ keys) then g key else None.
Proof.
  induction keys as [|k keys IH]; [reflexivity|].
  assert (Hstep : obj_get (omap (fun key => pair key <$> g key) (k :: keys)) key
                  = match obj_get (omap (fun key => pair key <$> g key) keys) key with
                    | Some v' => Some v'
                    | None => if String.eqb k key then g k else None
                    end).
  { change (omap (fun key => pair key <$> g key) (k :: keys))
      with (match pair k <$> g k with
            | Some y => y :: omap (fun key => pair key <$> g key) keys
            | None => omap (fun key => pair key <$> g key) keys
            end).
    destruct (g k) as [v|]; cbn [fmap option_fmap option_map obj_get].
    - reflexivity.
    - destruct (obj_get _ key); [reflexivity|]. by destruct (String.eqb k key). }
  rewrite Hstep, IH. clear Hstep IH.
  destruct (String.eqb_spec k key) as [->|Hne].
  - rewrite (bool_decide_eq_true_2 (key ∈ key :: keys)); [|left].
    destruct (bool_decide (key ∈ keys)); [|reflexivity]. by destruct (g key).
  - destruct (bool_decide (key ∈ keys)) eqn:E.
    + apply bool_decide_eq_true_1 in E.
      rewrite (bool_decide_eq_true_2 (key ∈ k :: keys)); [|by right].
      by destruct (g key).
    + apply bool_decide_eq_false_1 in E.
      rewrite (bool_decide_eq_false_2 (key ∈ k :: keys)); [reflexivity|].
      intros [->|H]%elem_of_cons; [congruence | exact (E H)].
Qed.

Lemma obj_get_entries (fields : list (string * json)) (key : string) :
  obj_get (Object_entries fields) key = obj_get fields key.
Proof.
  unfold Object_entries. rewrite obj_get_keys.
  destruct (bool_decide _) eqn:E; [reflexivity|].
  apply bool_decide_eq_false_1 in E. symmetry. apply obj_get_None.
  intros H. apply E. by rewrite elem_of_reverse, elem_of_remove_dups, elem_of_reverse.
Qed.

Lemma entries_members (fields : list (string * json)) (k : string) (x : json) :
  (k, x) ∈ Object_entries fields -> obj_get fields k = Some x.
Proof.
  unfold Object_entries. intros H. apply list_elem_of_omap in H as (k' & _ & H).
  destruct (obj_get fields k') as [x'|] eqn:E; [|discriminate].
  cbn in H. by injection H as <- <-.
Qed.

Lemma validateUpdateData_lookup (fields : list (string * json))
  (validated : gmap string json) (key : string) :
  validateUpdateData number_toString (JObj fields) = Return validated ->
  validated !! key
  = (if arr_includes allowedFields key then obj_get fields key else None)
      ≫= (fun x => match sanitizeInput number_toString x with
                   | Return v => Some v
                   | Throw _ => None
                   end).
Proof.
  cbn [validateUpdateData]. intros H.
  pose proof (validate_fold_lookup _ _ _ H key) as Hkey. rewrite obj_get_entries in Hkey.
  destruct (if arr_includes allowedFields key then _ else _) as [x|]; cbn.
  - destruct Hkey as (v & -> & Hv). exact Hv.
  - by rewrite Hkey, lookup_empty.
Qed.

Lemma validateUpdateData_returns (fields : list (string * json)) :
  (exists validated, validateUpdateData number_toString (JObj fields) = Return validated)
  <-> (forall k x, arr_includes allowedFields k = true -> obj_get fields k = Some x ->
                   exists v, sanitizeInput number_toString x = Return v).
Proof.
  split.
  - intros [validated H] k x Hk Hx. cbn [validateUpdateData] in H.
    pose proof (validate_fold_lookup _ _ _ H k) as Hkey.
    rewrite obj_get_entries, Hk, Hx in Hkey. destruct Hkey as (v & Hv & _). by exists v.
  - intros H. cbn [validateUpdateData]. apply fold_returns.
    intros k x Hin Hk. apply (H k x Hk). by apply entries_members.
Qed.

Lemma validated_within_limits (updates : json) (validated : gmap string json)
  (key : string) :
  validateUpdateData number_toString updates = Return validated ->
  within_limits (default JNull (validated !! key)).
Proof.
  destruct updates as [| | | | |fields]; try discriminate;
    try (intros [= <-]; rewrite lookup_empty; exact I).
  intros H. rewrite (validateUpdateData_lookup fields validated key H).
  destruct (if arr_includes allowedFields key then _ else _) as [x|]; [|exact I]. cbn.
  destruct (sanitizeInput number_toString x) as [v|e] eqn:E; [|exact I].
  by apply (sanitizeInput_limits x).
Qed.

(** X16.  [validateUpdateData] keeps the allowed fields and nothing else.
    On [null] it throws; for any other value that is no object it returns
    the empty record.  For an object it returns exactly when
    [sanitizeInput] returns on the value of every allowed key the object
    has, and what it returns has, under each of those keys, the sanitized
    value, and no other key.  Every value it returns is within the limits
    of [sanitizeInput] — at most 10000 characters for a string, at most 50
    strings of at most 100 characters for an array.  A value that is neither
    a string nor an array — [null], a number, a boolean, an object — passes
    [sanitizeInput] as it is, and so does a string within the limit that has
    no white space around it; on an array [sanitizeInput] returns exactly
    when each of the first 50 items has a text. *)
Theorem validated_updates (updates : json) (key : string) :
  (updates = JNull ->
   validateUpdateData number_toString updates
   = Throw "Cannot convert undefined or null to object")
  /\ (updates <> JNull -> (forall fields, updates <> JObj fields) ->
      validateUpdateData number_toString updates = Return ∅)
  /\ (forall fields, updates = JObj fields ->
      ((exists validated, validateUpdateData number_toString updates = Return validated)
       <-> (forall k x, arr_includes allowedFields k = true -> obj_get fields k = Some x ->
                        exists v, sanitizeInput number_toString x = Return v))
      /\ forall validated,
           validateUpdateData number_toString updates = Return validated ->
           validated !! key
           = (if arr_includes allowedFields key then obj_get fields key else None)
               ≫= (fun x => match sanitizeInput number_toString x with
                            | Return v => Some v
                            | Throw _ => None
                            end))
  /\ (forall validated v,
        validateUpdateData number_toString updates = Return validated ->
        validated !! key = Some v ->
        key ∈ allowedFields /\ within_limits v)
  /\ (forall input,
        match input with JStr _ | JArr _ => False | _ => True end ->
        sanitizeInput number_toString input = Return input)
  /\ (forall s, trim s = s -> (String.length s <= 10000)%nat ->
                sanitizeInput number_toString (JStr s) = Return (JStr s))
  /\ (forall items,
        (exists v, sanitizeInput number_toString (JArr items) = Return v)
        <-> (forall item, item ∈ take 50 items ->
                          exists text, ToString number_toString item = Return text)).
Proof.
  split; [by intros ->|].
  split; [destruct updates as [| | | | |fields]; try done; intros _ H; by destruct (H fields)|].
  split.
  { intros fields ->. split; [apply validateUpdateData_returns|].
    intros validated. apply validateUpdateData_lookup. }
  split.
  { intros validated v H Hv.
    pose proof (validated_within_limits updates validated key H) as Hlim.
    rewrite Hv in Hlim. split; [|exact Hlim].
    destruct updates as [| | | | |fields]; try discriminate;
      try (injection H as <-; by rewrite lookup_empty in Hv).
    rewrite (validateUpdateData_lookup fields validated key H) in Hv.
    destruct (arr_includes allowedFields key) eqn:Ek; [|discriminate].
    by apply arr_includes_true. }
  split; [by intros [| | | | |]|].
  split; [intros s Ht Hl; cbn [sanitizeInput]; by rewrite Ht, str_slice0_short|].
  intros items. rewrite <- sanitizeItems_converts. cbn [sanitizeInput]. unfold slice0.
  split.
  - intros [v H]. destruct (sanitizeItems number_toString (take 50 items)) as [l|e];
      [by exists l | discriminate].
  - intros [l ->]. by eexists.
Qed.


End UpdateData.

Lemma validated_updates_witness :
  (forall validated,
     validateUpdateData (fun _ _ => "0")
       (JObj [("meal", JStr "  Dessert "); ("owner", JStr "me")]) = Return validated ->
     validated !! "meal" = Some (JStr "Dessert"))
  /\ validateUpdateData (fun _ _ => "0")
       (JObj [("meal", JStr "  Dessert "); ("owner", JStr "me")])
     = Return {["meal" := JStr "Dessert"]}.
Proof.
  split.
  - intros validated H.
    exact (proj2 (proj1 (proj2 (proj2 (validated_updates (fun _ _ => "0")
                    (JObj [("meal", JStr "  Dessert "); ("owner", JStr "me")]) "meal")))
                    _ eq_refl) validated H).
  - reflexivity.
Defined.

(** A value of the tags that has no text: the conversion throws, and so
    does the validation of the update. *)
Example update_without_text :
  ToString (fun _ _ => "0") (JObj [("toString", JNum 1 0)])
  = Throw "Cannot convert object to primitive value"
  /\ validateUpdateData (fun _ _ => "0")
       (JObj [("tags", JArr [JStr "Sweet"; JObj [("toString", JNum 1 0)]])])
     = Throw "Cannot convert object to primitive value"
  /\ validateUpdateData (fun _ _ => "0")
       (JObj [("tags", JArr [JObj [("toString", JNum 1 0)]]);
              ("tags", JArr [JStr " Sweet "; JNull; JArr [JNull; JBool true]])])
     = Return {["tags" := JArr [JStr "Sweet"; JStr "null"; JStr ",true"]]}.
Proof. repeat split. Qed.

(** ** The handlers *)

Section Handlers.

Variable number_toString : Z -> Z -> string.
Variable number_truthy : Z -> Z -> bool.
Variable NOTION_TOKEN : option string.
Variable NOTION_DATABASE_ID : option string.
Variable getIncompleteRecipes : Completion (list Recipe).
Variable createReviewData : list Recipe -> Completion (list ReviewItem).
Variable createReviewDataWithWebsiteRefresh : list Recipe -> Completion (list ReviewItem).
Variable createReviewDataWithAIRefresh : list Recipe -> Completion (list ReviewItem).
Variable run : Completion (option (nat * nat)).
Variable notion_pages_update : NotionWrite -> Completion unit.
Variable update_timed_out : bool.

Abbreviation handler000 :=
  (Part000.handler number_toString number_truthy NOTION_TOKEN NOTION_DATABASE_ID
     getIncompleteRecipes createReviewData notion_pages_update update_timed_out).

Abbreviation handler001 :=
  (Part001.handler number_toString number_truthy getIncompleteRecipes createReviewData
     createReviewDataWithWebsiteRefresh createReviewDataWithAIRefresh run
     notion_pages_update).







(** X18.  What becomes of a POST that is not a proper update.  A
    well-formed update whose recipe id is not a string of ten characters or
    more is answered with status 500 and the error "Invalid recipe ID" by
    both handlers, and nothing is written.  A POST that is no well-formed
    update is answered with status 400 by [part_000], which does nothing
    else; [part_001] takes it as the order to run the whole enrichment and
    answers with what [run()] gave, unless the body is missing or [null],
    which ends in status 500. *)
Theorem improper_updates (req : Request) :
  req_method req = "POST" ->
  (is_update number_truthy req = true ->
   (forall id, body_field (req_body req) "recipeId" = Some (JStr id) ->
               (String.length id < 10)%nat) ->
   (truthy NOTION_TOKEN = true ->
    handler000 req = (mkHttpResponse 500 (ErrorBody "Invalid recipe ID"), []))
   /\ handler001 req = (mkHttpResponse 500 (ErrorBody "Invalid recipe ID"), []))
  /\ (is_update number_truthy req = false ->
      (truthy NOTION_TOKEN = true ->
       handler000 req
       = (mkHttpResponse 400
            (ErrorBody "Invalid request format - missing action, recipeId, or updates"),
          []))
      /\ match req_body req with
         | None | Some JNull =>
             res_status (fst (handler001 req)) = 500%nat /\ snd (handler001 req) = []
         | Some _ =>
             handler001 req
             = match run with
               | Return result => (mkHttpResponse 200 (RunBody result), [])
               | Throw e => (mkHttpResponse 500 (ErrorBody e), [])
               end
         end).
Proof.
  intros Hm.
  assert (Hdb : truthy (Some (Part000.DATABASE_ID NOTION_DATABASE_ID)) = true).
  { unfold Part000.DATABASE_ID, Part000.str_or.
    destruct NOTION_DATABASE_ID as [s|]; [|reflexivity].
    destruct (String.eqb_spec s ""); [reflexivity|]. by apply truthy_Some. }
  assert (Hid : forall x,
             (forall id, x = Some (JStr id) -> (String.length id < 10)%nat) ->
             validateRecipeId x = Throw "Invalid recipe ID").
  { intros [[| | |id| |]|] H; try reflexivity. cbn [validateRecipeId].
    specialize (H id eq_refl). apply Nat.ltb_lt in H. by rewrite H, orb_true_r. }
  split.
  - intros Hu Hshort. split.
    + intros Htoken. unfold Part000.handler. rewrite Hm, Htoken, Hdb.
      cbn [String.eqb Ascii.eqb Bool.eqb negb orb].
      fold (is_update number_truthy req). by rewrite Hu, (Hid _ Hshort).
    + unfold Part001.handler. rewrite Hm. cbn [String.eqb Ascii.eqb Bool.eqb].
      destruct (req_body req) as [body|] eqn:Hb.
      * assert (body <> JNull) as Hnn.
        { intros ->. unfold is_update in Hu. rewrite Hb in Hu. discriminate. }
        unfold is_update in Hu. rewrite Hb in Hu.
        destruct body; try done; by rewrite Hu, (Hid _ Hshort).
      * unfold is_update in Hu. rewrite Hb in Hu. discriminate.
  - intros Hu. split.
    + intros Htoken. unfold Part000.handler. rewrite Hm, Htoken, Hdb.
      cbn [String.eqb Ascii.eqb Bool.eqb negb orb].
      fold (is_update number_truthy req). by rewrite Hu.
    + unfold Part001.handler. rewrite Hm. cbn [String.eqb Ascii.eqb Bool.eqb].
      unfold is_update in Hu.
      destruct (req_body req) as [body|]; [|by split].
      destruct body; try (by split); rewrite Hu; by destruct run.
Qed.

End Handlers.

Lemma improper_updates_witness :
  handle000 (update_request "short" [("meal", JStr "Dessert")])
  = (mkHttpResponse 500 (ErrorBody "Invalid recipe ID"), [])
  /\ handle001 (update_request "short" [("meal", JStr "Dessert")])
     = (mkHttpResponse 500 (ErrorBody "Invalid recipe ID"), []).
Proof.
  pose proof (proj1 (improper_updates no_number_text nonzero (Some "secret") None
                       (Return []) (fun _ => Return []) (fun _ => Return [])
                       (fun _ => Return []) (Return (Some (0, 0)%nat)) notion_accepts false
                       (update_request "short" [("meal", JStr "Dessert")]) eq_refl)
                    eq_refl) as H.
  refine ((fun H' => conj (proj1 H' eq_refl) (proj2 H')) (H _)).
  intros id E. injection E as <-. cbn. lia.
Defined.

(** A proper update is written: the cover first, the properties after it,
    white space trimmed and the unknown field left out. *)
Example update_is_written :
  handle000 (update_request "0123456789abcdef"
               [("meal", JStr " Dessert "); ("owner", JStr "me");
                ("tags", JArr [JStr "Sweet"; JStr " Baked"]);
                ("selectedImage", JStr "https://example.com/cake.jpg")])
  = (mkHttpResponse 200 (MessageBody "Recipe updated successfully"),
     [CoverUpdate "0123456789abcdef" (JStr "https://example.com/cake.jpg");
      PropertiesUpdate "0123456789abcdef"
        (<["Tags" := MultiSelect [JStr "Sweet"; JStr "Baked"]]>
           (<["Meal" := Select (JStr "Dessert")]> ∅))]).
Proof. vm_compute. reflexivity. Qed.

(** ** Neither variant ever has page data *)

Section NoPageData001.

Import Part001.

Variable cheerio_load : string -> Page.
Variable this_extractTitle : Page -> Completion (option string).
Variable this_extractIngredients : Page -> Completion (list string).
Variable this_extractInstructions : Page -> Completion (list string).
Variable this_extractMainImage : Page -> Completion (option (list Image)).
(** [fetch(url)]. *)
Variable fetched : string -> FetchOutcome.

Abbreviation extract001 :=
  (extractLoaded cheerio_load this_extractTitle this_extractIngredients
     this_extractInstructions this_extractMainImage fetched).

Lemma recipeData_throws (page : Page) :
  exists e, recipeData this_extractTitle this_extractIngredients
              this_extractInstructions this_extractMainImage page = Throw e.
Proof.
  unfold recipeData.
  destruct (this_extractTitle page); [|by eexists].
  destruct (this_extractIngredients page); [|by eexists].
  destruct (this_extractInstructions page); [|by eexists].
  destruct (this_extractMainImage page); by eexists.
Qed.

Lemma extract001_null (url : string) : extract001 url = Return None.
Proof.
  unfold extractLoaded, extractRecipeFromURL.
  destruct (negb (truthy (Some url))); [reflexivity|].
  destruct (fetched url) as [m|[] [html|m]]; try reflexivity.
  by destruct (recipeData_throws (cheerio_load html)) as [e ->].
Qed.

Lemma refresh001_empty
  (classify : Recipe -> option ExtractedData -> Completion (option Analysis))
  (recipes : list Recipe) (items : list ReviewItem) :
  createReviewDataWithWebsiteRefresh extract001 classify recipes = Return items
  \/ createReviewDataWithAIRefresh extract001 classify recipes = Return items ->
  items = [].
Proof.
  unfold createReviewDataWithWebsiteRefresh, createReviewDataWithAIRefresh.
  intros [H|H];
    (apply (reviewLoop_items (fun _ _ => False)) in H as (kept & new & -> & _ & Hf);
     [by destruct Hf|]);
    intros r item; unfold rescrapeRecipe, reclassifyRecipe; rewrite extract001_null;
    by destruct (classify r None) as [[a|]|e].
Qed.

(** X19.  In [part_001] the extraction of a page never yields data.
    [extractRecipeFromURL] builds its result by calling the extractors in
    turn, and the fifth of them, [extractDescription], is not defined in the
    class: whatever the page and whatever the other extractors do, the call
    ends in the [catch] and returns [null].  So every item of
    [createReviewData] is shown without page data and without an image
    entry, and the two refresh orchestrators never deliver a review item:
    each returns the empty list or throws. *)
Theorem page_data_never_arrives
  (classify : Recipe -> option ExtractedData -> Completion (option Analysis))
  (page_loads : Recipe -> bool) (recipes : list Recipe) :
  (forall url, extract001 url = Return None)
  /\ (forall items,
         createReviewData extract001 classify page_loads recipes = Return items ->
         Forall (fun item => item_extractedData item = NotionOnly
                             /\ item_suggestedChanges item !! "image" = None) items)
  /\ (forall items,
         createReviewDataWithWebsiteRefresh extract001 classify recipes = Return items ->
         items = [])
  /\ (forall items,
         createReviewDataWithAIRefresh extract001 classify recipes = Return items ->
         items = []).
Proof.
  split; [exact extract001_null|]. split; [|split].
  - intros items H. unfold createReviewData in H.
    apply (reviewLoop_items
             (fun _ item => item_extractedData item = NotionOnly
                            /\ item_suggestedChanges item !! "image" = None)) in H
      as (kept & new & -> & _ & Hf).
    + cbn [app]. clear -Hf. induction Hf; by constructor.
    + intros r item. unfold reviewRecipe. rewrite extract001_null.
      destruct (needsAnyData page_loads r);
        (destruct (classify r None) as [[a|]|e]; [|discriminate..]);
        intros H'; injection H' as <-; cbn [item_extractedData item_suggestedChanges];
        (split; [reflexivity|]); unfold formatSuggestedChanges; cbn [truthy];
        other_keys.
  - intros items H. apply (refresh001_empty classify recipes). by left.
  - intros items H. apply (refresh001_empty classify recipes). by right.
Qed.

Variable number_toString : Z -> Z -> string.
Variable number_truthy : Z -> Z -> bool.
Variable getIncompleteRecipes : Completion (list Recipe).
Variable classify : Recipe -> option ExtractedData -> Completion (option Analysis).
Variable page_loads : Recipe -> bool.
Variable enricher_run : Completion (option (nat * nat)).
Variable notion_pages_update : NotionWrite -> Completion unit.

Abbreviation the_handler :=
  (handler number_toString number_truthy getIncompleteRecipes
     (createReviewData extract001 classify page_loads)
     (createReviewDataWithWebsiteRefresh extract001 classify)
     (createReviewDataWithAIRefresh extract001 classify)
     enricher_run notion_pages_update).

(** X20.  A GET of [part_001] that asks for a refresh, of the website data
    or of the AI analysis, never answers with a review item: the response
    is the empty review with status 200, or an error with status 500; and
    nothing is written to Notion. *)
Theorem refresh_requests_deliver_nothing (req : Request) :
  req_method req = "GET" ->
  req_query_refresh req = Some "website" \/ req_query_refresh req = Some "ai" ->
  (the_handler req = (mkHttpResponse 200 (ReviewBody [] 0 0 None), [])
   \/ exists e, the_handler req = (mkHttpResponse 500 (ErrorBody e), [])).
Proof.
  intros Hm Hq. unfold handler. rewrite Hm.
  cbn [String.eqb Ascii.eqb Bool.eqb].
  destruct getIncompleteRecipes as [recipes|e]; [|right; by exists e].
  destruct Hq as [-> | ->]; cbn [Part000.str_or String.eqb Ascii.eqb Bool.eqb].
  - destruct (createReviewDataWithWebsiteRefresh extract001 classify recipes)
      as [items|e] eqn:E; [|right; by exists e].
    rewrite (refresh001_empty classify recipes items (or_introl E)). by left.
  - destruct (createReviewDataWithAIRefresh extract001 classify recipes)
      as [items|e] eqn:E; [|right; by exists e].
    rewrite (refresh001_empty classify recipes items (or_intror E)). by left.
Qed.

End NoPageData001.

Section NoPageData000.

Import Part000.

(** The reading of a fetched page, whatever it is. *)
Variable scrapePage : string -> Completion ExtractedData.
Variable JSON_parse : string -> option json.
Variable OPENAI_API_KEY : option string.

Abbreviation extract000 := (extractRecipeFromURL scrapePage).

Lemma analyze_keeps_scrape_cache (env : AIEnv) (recipe : Recipe)
  (extractedData : option ExtractedData) (st : State) :
  scrape_cache (snd (analyzeRecipeWithAI JSON_parse OPENAI_API_KEY env recipe
                       extractedData st))
  = scrape_cache st.
Proof.
  unfold analyzeRecipeWithAI.
  destruct (negb (truthy OPENAI_API_KEY) || _); [reflexivity|].
  destruct (fresh _ _); [reflexivity|].
  destruct (ai_reply env) as [m|status|m|content]; try reflexivity.
  destruct (negb (truthy (option_map trim content))); [reflexivity|].
  destruct (JSON_parse _) as [j|]; [|reflexivity].
  by destruct (negb (is_object j)).
Qed.

(** X21.  In [part_000] no page is ever scraped.  The callback of the fetch
    reads [response] before it is initialised, so an extraction can only
    succeed from the cache, and only a successful extraction fills the
    cache: in every state a process can reach from its start, through any
    calls of the extractor and the classifier, the scrape cache is empty and
    [extractRecipeFromURL] returns [null] for every URL, whatever the
    network answers, leaving the state as it is.  The fallback classifier,
    then seeing no scraped ingredients, proposes no key ingredients. *)
Theorem no_page_is_ever_scraped (st : State) :
  reachable scrapePage JSON_parse OPENAI_API_KEY st ->
  scrape_cache st = ∅
  /\ (forall env url, extract000 env url st = (Return None, st))
  /\ (forall recipe, key_ingredients (createSmartFallbackAnalysis recipe None) = None).
Proof.
  intros H.
  assert (Hempty : scrape_cache st = ∅).
  { induction H as [|st env url _ IH|st env recipe d _ IH].
    - reflexivity.
    - rewrite extract000_returns_null; [exact IH|]. by rewrite IH, lookup_empty.
    - by rewrite analyze_keeps_scrape_cache. }
  split; [exact Hempty|]. split.
  - intros env url. apply extract000_returns_null. by rewrite Hempty, lookup_empty.
  - intros recipe. unfold createSmartFallbackAnalysis. cbn [key_ingredients length Nat.ltb Nat.leb].
    by rewrite andb_false_r.
Qed.

End NoPageData000.

Lemma page_data_never_arrives_witness :
  Forall (fun item => item_extractedData item = NotionOnly
                      /\ item_suggestedChanges item !! "image" = None)
         [mkReviewItem salad NotionOnly salad_analysis
            (Part001.formatSuggestedChanges salad salad_analysis None)].
Proof.
  exact (proj1 (proj2 (page_data_never_arrives blank_page
                         (fun page => Return (Part001.extractTitle page))
                         (fun page => Return (Part001.extractIngredients page))
                         (fun page => Return (Part001.extractInstructions page))
                         (fun page => Return None)
                         served salad_classifier (fun _ => false) [salad]))
               _ eq_refl).
Defined.

Lemma no_page_is_ever_scraped_witness :
  Part000.scrape_cache busy_state = ∅
  /\ Part000.extractRecipeFromURL
       (fun html => Return (Part000.recipeData no_int (blank_page html)))
       served_env "https://example.com/soup" busy_state
     = (Return None, busy_state).
Proof.
  assert (H : Part000.reachable
                (fun html => Return (Part000.recipeData no_int (blank_page html)))
                reference_JSON_parse (Some "sk-test") busy_state).
  { apply Part000.reach_analyze, Part000.reach_extract, Part000.reach_start. }
  destruct (no_page_is_ever_scraped
              (fun html => Return (Part000.recipeData no_int (blank_page html)))
              reference_JSON_parse (Some "sk-test") busy_state H) as (H1 & H2 & _).
  split; [exact H1 | apply H2].
Defined.

(** ** [run] and [applyChangesToNotion] of [part_001] *)

Section RunReports.

Import Part001.

Variable getIncompleteRecipes : Completion (list Recipe).
Variable extract : string -> Completion (option ExtractedData).
Variable classify : Recipe -> option ExtractedData -> Completion (option Analysis).
Variable page_loads : Recipe -> bool.
Variable sendMail : Mail -> Completion unit.

Abbreviation the_run :=
  (run getIncompleteRecipes (createReviewData extract classify page_loads) sendMail).



End RunReports.


Section ApplyChanges.

Import Part001.

Variable number_truthy : Z -> Z -> bool.
Variable notion_pages_update : NotionCall -> Completion unit.
Variable notion_blocks_append : NotionCall -> Completion unit.

Abbreviation applied :=
  (applyChangesToNotion number_truthy notion_pages_update notion_blocks_append).

Lemma built_properties_approved (changes : gmap string Approval)
  (properties : gmap string Property) (k : string) (p : Property) :
  (let properties : gmap string Property := ∅ in
   let properties :=
     if approved number_truthy changes "title"
     then <["Name" := Title (default JNull (suggestedOf changes "title"))]> properties
     else properties in
   let properties :=
     if approved number_truthy changes "meal"
     then <["Meal" := Select (default JNull (suggestedOf changes "meal"))]> properties
     else properties in
   let properties :=
     if approved number_truthy changes "cuisine"
     then <["Cuisine" := Select (default JNull (suggestedOf changes "cuisine"))]> properties
     else properties in
   let tagged : Completion (gmap string Property) :=
     if approved number_truthy changes "tags" then
       match namesOf (suggestedOf changes "tags") with
       | Return names => Return (<["Tags" := MultiSelect names]> properties)
       | Throw e => Throw e
       end
     else Return properties in
   match tagged with
   | Throw e => Throw e
   | Return properties =>
       if approved number_truthy changes "key_ingredients" then
         match namesOf (suggestedOf changes "key_ingredients") with
         | Return names => Return (<["Key Ingredients" := MultiSelect names]> properties)
         | Throw e => Throw e
         end
       else Return properties
   end) = Return properties ->
  properties !! k = Some p ->
  k ∈ propertyNames /\ approved number_truthy changes (changeOf k) = true.
Proof.
  cbv zeta.
  destruct (approved number_truthy changes "title") eqn:Et;
    destruct (approved number_truthy changes "meal") eqn:Em;
    destruct (approved number_truthy changes "cuisine") eqn:Ec;
    destruct (approved number_truthy changes "tags") eqn:Etg;
    destruct (approved number_truthy changes "key_ingredients") eqn:Ek;
    try destruct (namesOf (suggestedOf changes "tags"));
    try destruct (namesOf (suggestedOf changes "key_ingredients"));
    intros H; try discriminate H; injection H as <-; intros H;
    repeat (apply lookup_insert_Some in H as [[<- <-]|[_ H]]);
    try (by rewrite lookup_empty in H);
    (split; [apply (bool_decide_unpack _); vm_compute; exact I | assumption]).
Qed.

(** X23.  [applyChangesToNotion] never throws and writes approved changes
    only.  Every call it makes is on the page of the recipe; a property is
    written only if the change it comes from is marked [apply]; the image
    block is appended only after the properties were accepted and only for
    an approved image; and the answer is [true] exactly when the properties
    were accepted. *)
Theorem only_approved_changes_are_applied (recipeId : string)
  (changes : gmap string Approval) :
  Forall (fun call =>
            match call with
            | PagesUpdate page_id properties =>
                page_id = recipeId
                /\ forall k p, properties !! k = Some p ->
                     k ∈ propertyNames
                     /\ approved number_truthy changes (changeOf k) = true
            | BlocksAppend block_id url =>
                block_id = recipeId
                /\ fst (applied recipeId changes) = true
                /\ approved number_truthy changes "image" = true
                /\ url = suggestedOf changes "image"
            end)
         (snd (applied recipeId changes))
  /\ (fst (applied recipeId changes) = true <->
      exists properties calls,
        snd (applied recipeId changes) = PagesUpdate recipeId properties :: calls
        /\ notion_pages_update (PagesUpdate recipeId properties) = Return tt).
Proof.
  unfold applyChangesToNotion, addImageToPage.
  pose proof (built_properties_approved changes) as Hbuilt. cbv zeta in Hbuilt |- *.
  destruct (match (if approved number_truthy changes "tags" then _ else _) with
            | Return _ => _
            | Throw e => Throw e
            end) as [properties|e].
  - assert (Hp : forall k p,
               properties !! k = Some p ->
               k ∈ propertyNames /\ approved number_truthy changes (changeOf k) = true)
      by (intros k p; exact (Hbuilt properties k p eq_refl)).
    clear Hbuilt.
    destruct (notion_pages_update (PagesUpdate recipeId properties)) as [[]|e] eqn:Eu.
    + destruct (approved number_truthy changes "image") eqn:Ei; cbn [andb];
        [destruct (ToBoolean number_truthy (suggestedOf changes "image"));
         [destruct (notion_blocks_append _)|]|];
        cbn [fst snd];
        (split;
         [repeat (apply Forall_cons_2;
                  [first [split; [reflexivity | exact Hp] | repeat split; reflexivity]|]);
          apply Forall_nil_2
         |split; [intros _; by eexists _, _ | done]]).
    + cbn [fst snd].
      split; [apply Forall_cons_2; [split; [reflexivity | exact Hp] | apply Forall_nil_2]|].
      split; [discriminate|]. intros (props & calls & [= <- <-] & Hr). congruence.
  - cbn [fst snd]. split; [constructor|]. split; [discriminate|].
    intros (props & calls & H & _). discriminate.
Qed.

End ApplyChanges.

Lemma only_approved_changes_are_applied_witness :
  Part001.applyChangesToNotion nonzero (fun _ => Return tt) (fun _ => Return tt)
    "0123456789abcdef"
    (<["meal" := Part001.mkApproval (Some (JBool true)) (Some (JStr "Dessert"))]>
       (<["cuisine" := Part001.mkApproval (Some (JBool false)) (Some (JStr "French"))]> ∅))
  = (true, [Part001.PagesUpdate "0123456789abcdef" (<["Meal" := Select (JStr "Dessert")]> ∅)]).
Proof.
  apply injective_projections; [|vm_compute; reflexivity].
  apply (proj2 (proj2 (only_approved_changes_are_applied nonzero (fun _ => Return tt)
                         (fun _ => Return tt) "0123456789abcdef"
                         (<["meal" := Part001.mkApproval (Some (JBool true))
                                        (Some (JStr "Dessert"))]>
                            (<["cuisine" := Part001.mkApproval (Some (JBool false))
                                              (Some (JStr "French"))]> ∅))))).
  eexists _, _. split; reflexivity.
Defined.

(** ** The extractors *)

Lemma first_successful_from (collect : string -> list string) (selectors : list string) :
  (first_successful collect selectors [] = []
   /\ Forall (fun selector => collect selector = []) selectors)
  \/ exists before selector after,
       selectors = (before ++ selector :: after)%list
       /\ Forall (fun selector => collect selector = []) before
       /\ collect selector <> []
       /\ first_successful collect selectors [] = collect selector.
Proof.
  induction selectors as [|s selectors IH]; cbn [first_successful app].
  - left. by split.
  - destruct (collect s) as [|x l] eqn:E; cbn [length Nat.ltb Nat.leb].
    + destruct IH as [[H1 H2]|(before & sel & after & -> & Hb & Hne & H)].
      * left. split; [exact H1 | by constructor].
      * right. exists (s :: before), sel, after. repeat split; try done; by constructor.
    + right. exists [], s, selectors. rewrite E. repeat split; try done; constructor.
Qed.

Lemma Set_values_spec (arr seen : list string) :
  NoDup (Set_values seen arr)
  /\ forall x, x ∈ Set_values seen arr <-> x ∈ arr /\ x ∉ seen.
Proof.
  revert seen. induction arr as [|a arr IH]; intros seen; cbn [Set_values].
  - split; [constructor|]. intros x. rewrite elem_of_nil. tauto.
  - destruct (arr_includes seen a) eqn:E.
    + apply arr_includes_true in E. destruct (IH seen) as [Hn Hx].
      split; [exact Hn|]. intros x. rewrite Hx, elem_of_cons.
      split; [tauto|]. intros [[->|H] Hs]; tauto.
    + apply arr_includes_false in E. destruct (IH (a :: seen)) as [Hn Hx].
      split.
      * constructor; [|exact Hn]. rewrite Hx, elem_of_cons. tauto.
      * intros x. rewrite !elem_of_cons, Hx, elem_of_cons.
        split.
        -- intros [->|[H Hs]]; tauto.
        -- intros [[->|H] Hs]; [tauto|].
           destruct (decide (x = a)) as [->|Hne]; tauto.
Qed.

Lemma take_members {A} (n : nat) (l : list A) (x : A) : x ∈ take n l -> x ∈ l.
Proof. intros H. by apply (subseteq_take n l). Qed.

(** X24.  What the list extractors of [part_000] give for a page.  The
    ingredients are at most 25 lines without repetition, the instructions at
    most 20 lines; every line is the trimmed text of an element of the page,
    longer than 2 and shorter than 200 characters for an ingredient, longer
    than 5 and shorter than 1000 for an instruction; and all lines of a list
    come from one selector, the first in the order of the list of selectors
    under which the page has such a line. *)
Theorem extracted_lists (page : Page) :
  NoDup (Part000.extractIngredients page)
  /\ (length (Part000.extractIngredients page) <= 25)%nat
  /\ (length (Part000.extractInstructions page) <= 20)%nat
  /\ (exists selector,
         (forall x, x ∈ Part000.extractIngredients page ->
                    (2 < String.length x < 200)%nat
                    /\ exists el, el ∈ page selector /\ x = trim (el_text el))
         /\ (Part000.extractIngredients page <> [] ->
             exists before after,
               Part000.ingredientSelectors = (before ++ selector :: after)%list
               /\ Forall (fun s => Part000.ingredientsOf page s = []) before))
  /\ (exists selector,
         (forall x, x ∈ Part000.extractInstructions page ->
                    (5 < String.length x < 1000)%nat
                    /\ exists el, el ∈ page selector /\ x = trim (el_text el))
         /\ (Part000.extractInstructions page <> [] ->
             exists before after,
               Part000.instructionSelectors = (before ++ selector :: after)%list
               /\ Forall (fun s => Part000.instructionsOf page s = []) before)).
Proof.
  unfold Part000.extractIngredients, Part000.extractInstructions, slice0. cbv zeta.
  split; [|split; [|split; [|split]]].
  - eapply sublist_NoDup; [|apply sublist_take]. apply Set_values_spec.
  - rewrite length_take. lia.
  - rewrite length_take. lia.
  - destruct (first_successful_from (Part000.ingredientsOf page) Part000.ingredientSelectors)
      as [[-> _]|(before & selector & after & Hs & Hb & Hne & ->)].
    + exists "". split; [|done]. cbn. intros x H. by apply elem_of_nil in H.
    + exists selector. split; [|intros _; by exists before, after].
      intros x Hx. apply take_members, Set_values_spec in Hx as [Hx _].
      unfold Part000.ingredientsOf in Hx.
      apply list_elem_of_In, filter_In in Hx as [Hx Hlen].
      apply list_elem_of_In, list_elem_of_fmap in Hx as (el & -> & Hel).
      apply andb_true_iff in Hlen as [Hlen H200].
      apply andb_true_iff in Hlen as [_ H2].
      apply Nat.ltb_lt in H2, H200. split; [lia|]. by exists el.
  - destruct (first_successful_from (Part000.instructionsOf page)
                Part000.instructionSelectors)
      as [[-> _]|(before & selector & after & Hs & Hb & Hne & ->)].
    + exists "". split; [|done]. cbn. intros x H. by apply elem_of_nil in H.
    + exists selector. split; [|intros _; by exists before, after].
      intros x Hx. apply take_members in Hx.
      unfold Part000.instructionsOf in Hx.
      apply list_elem_of_In, filter_In in Hx as [Hx Hlen].
      apply list_elem_of_In, list_elem_of_fmap in Hx as (el & -> & Hel).
      apply andb_true_iff in Hlen as [Hlen H1000].
      apply andb_true_iff in Hlen as [_ H5].
      apply Nat.ltb_lt in H5, H1000. split; [lia|]. by exists el.
Qed.

(** X25.  The list extractors of [part_001] put no limit on the lines and
    keep repeated ones: the ingredients, and likewise the instructions, are
    all the non-empty trimmed texts of the elements under one selector, in
    the order of the page, that selector being the first in the list of
    selectors under which the page has a non-empty text; they are the empty
    list when there is no such selector. *)
Theorem extracted_lists_unbounded (page : Page) :
  from_first_selector (Part001.textsOf page) Part001.ingredientSelectors
    (Part001.extractIngredients page)
  /\ from_first_selector (Part001.textsOf page) Part001.instructionSelectors
       (Part001.extractInstructions page)
  /\ Forall (fun line =>
               line <> ""
               /\ exists selector el, el ∈ page selector /\ line = trim (el_text el))
            (Part001.extractIngredients page ++ Part001.extractInstructions page)%list.
Proof.
  assert (Hfrom : forall selectors,
             from_first_selector (Part001.textsOf page) selectors
               (first_successful (Part001.textsOf page) selectors [])).
  { intros selectors. unfold from_first_selector.
    destruct (first_successful_from (Part001.textsOf page) selectors)
      as [H|(before & selector & after & Hs & Hb & Hn & He)]; [by left|].
    right. exists before, selector, after. rewrite He. by repeat split. }
  assert (Hne : forall selectors,
             Forall (fun line =>
                       line <> ""
                       /\ exists selector el, el ∈ page selector /\ line = trim (el_text el))
                    (first_successful (Part001.textsOf page) selectors [])).
  { intros selectors.
    destruct (first_successful_from (Part001.textsOf page) selectors)
      as [[-> _]|(before & selector & after & _ & _ & _ & ->)]; [constructor|].
    unfold Part001.textsOf. apply Forall_forall. intros x Hx.
    apply list_elem_of_In, filter_In in Hx as [Hx Hn].
    apply list_elem_of_In, list_elem_of_fmap in Hx as (el & -> & Hel).
    split; [by apply truthy_Some | by exists selector, el]. }
  split; [apply Hfrom|]. split; [apply Hfrom|].
  apply Forall_app. split; apply Hne.
Qed.

Lemma extractTitle000_from (page : Page) (selectors : list string) (t : string) :
  Part000.extractTitle_from page selectors = Some t ->
  exists selector,
    selector ∈ selectors
    /\ t = str_slice0 200 (trim (first_text page selector))
    /\ (5 < String.length (trim (first_text page selector)))%nat.
Proof.
  induction selectors as [|s selectors IH]; cbn [Part000.extractTitle_from]; [discriminate|].
  destruct (truthy _ && (5 <? _)%nat) eqn:E.
  - intros H. injection H as <-. apply andb_true_iff in E as [_ E].
    apply Nat.ltb_lt in E. exists s. split; [left | done].
  - intros H. destruct (IH H) as (sel & Hin & Ht & Hl). exists sel. split; [by right | done].
Qed.

Lemma extractTitle001_from (page : Page) (selectors : list string) (t : string) :
  Part001.extractTitle_from page selectors = Some t ->
  exists selector,
    selector ∈ selectors
    /\ t = Part001.standardizeTitle (trim (first_text page selector))
    /\ (3 < String.length (trim (first_text page selector)))%nat.
Proof.
  induction selectors as [|s selectors IH]; cbn [Part001.extractTitle_from]; [discriminate|].
  destruct (truthy _ && (3 <? _)%nat) eqn:E.
  - intros H. injection H as <-. apply andb_true_iff in E as [_ E].
    apply Nat.ltb_lt in E. exists s. split; [left | done].
  - intros H. destruct (IH H) as (sel & Hin & Ht & Hl). exists sel. split; [by right | done].
Qed.

Lemma str_slice0_full (n : nat) (s : string) :
  String.length (str_slice0 n s) = Nat.min n (String.length s).
Proof.
  revert s. induction n as [|n IH]; intros [|c s]; cbn [str_slice0 String.length Nat.min];
    try reflexivity.
  by rewrite IH.
Qed.

Lemma trim_length (s : string) : (String.length (trim s) <= String.length s)%nat.
Proof.
  pose proof (sublist_length _ _ (trim_sublist s)) as H.
  by rewrite !chars_length in H.
Qed.

Lemma standardizeTitle_length (s : string) :
  (String.length (Part001.standardizeTitle s) <= String.length s)%nat.
Proof.
  unfold Part001.standardizeTitle.
  rewrite <- (toLowerCase_length (Part001.titleCase _)), titleCase_lower, toLowerCase_length.
  pose proof (sublist_length _ _ (stripBoilerplate_sublist s)) as H.
  by rewrite !chars_length in H.
Qed.

Lemma extractDescription_of (page : Page) (selectors : list string) (t : string) :
  Part000.extractDescription_from page selectors = Some t ->
  (50 < String.length t < 500)%nat
  /\ exists selector, selector ∈ selectors /\ t = trim (first_text page selector).
Proof.
  induction selectors as [|s selectors IH]; cbn [Part000.extractDescription_from];
    [discriminate|].
  destruct (truthy _ && (50 <? _)%nat && (_ <? 500)%nat) eqn:E.
  - intros H. injection H as <-. apply andb_true_iff in E as [E H500].
    apply andb_true_iff in E as [_ H50]. apply Nat.ltb_lt in H50, H500.
    split; [lia|]. exists s. split; [left | done].
  - intros H. destruct (IH H) as (Hl & sel & Hin & Ht). split; [exact Hl|].
    exists sel. split; [by right | done].
Qed.

(** X26.  The title and the description a page gives.  In [part_000] an
    extracted title has between 6 and 200 characters and is the start of the
    trimmed text of the first element under one of the title selectors, and
    an extracted description is such a text of more than 50 and fewer than
    500 characters.  In [part_001] the title is the standardized form of
    such a text of more than 3 characters and, on a page whose texts are
    ASCII, never longer than the text of the element; being standardized
    after the test of its length, it can be short, even empty. *)
Theorem extracted_titles (page : Page) (t : string) :
  (Part000.extractTitle page = Some t ->
   (6 <= String.length t <= 200)%nat
   /\ exists selector,
        selector ∈ Part000.titleSelectors
        /\ t = str_slice0 200 (trim (first_text page selector)))
  /\ (Part000.extractDescription page = Some t ->
      (50 < String.length t < 500)%nat
      /\ exists selector,
           selector ∈ Part000.descSelectors /\ t = trim (first_text page selector))
  /\ (Part001.extractTitle page = Some t ->
      exists selector,
        selector ∈ Part001.titleSelectors
        /\ t = Part001.standardizeTitle (trim (first_text page selector))
        /\ (3 < String.length (trim (first_text page selector)))%nat)
  /\ ((forall selector, ascii_text (first_text page selector)) ->
      Part001.extractTitle page = Some t ->
      exists selector,
        selector ∈ Part001.titleSelectors
        /\ t = Part001.standardizeTitle (trim (first_text page selector))
        /\ (String.length t <= String.length (first_text page selector))%nat).
Proof.
  split; [|split; [|split]].
  - intros H. apply extractTitle000_from in H as (selector & Hin & -> & Hlen).
    split; [|by exists selector]. rewrite str_slice0_full. lia.
  - apply extractDescription_of.
  - intros H. apply extractTitle001_from in H as (selector & Hin & -> & Hlen).
    by exists selector.
  - intros _ H. apply extractTitle001_from in H as (selector & Hin & -> & Hlen).
    exists selector. repeat split; try done.
    etrans; [apply standardizeTitle_length | apply trim_length].
Qed.

Section MainImage.

Variable parseInt : option string -> option Z.

Lemma dimension_nonzero (img : Element) (attribute : string) :
  Part000.dimension parseInt img attribute <> Some 0%Z.
Proof.
  unfold Part000.dimension. destruct (parseInt _) as [n|]; [|discriminate].
  destruct (Z.eqb_spec n 0); [discriminate|]. congruence.
Qed.

Lemma pushImage_scanned (state : list Image * list string) (img : Element) :
  scanned state -> scanned (Part000.pushImage parseInt "priority" state img).
Proof.
  destruct state as [images seenUrls]. intros (Hm & Hn & Hf).
  unfold Part000.pushImage. cbn [fst snd] in *.
  destruct (truthy (Part000.srcOf img) && Part000.isValidImageUrl (Part000.srcOf img)
            && negb (arr_includes seenUrls (default "" (Part000.srcOf img)))) eqn:E;
    [|done].
  apply andb_true_iff in E as [E Hnew]. apply andb_true_iff in E as [Ht Hv].
  apply negb_true_iff, arr_includes_false in Hnew.
  destruct (Part000.srcOf img) as [src|]; [|discriminate]. cbn [from_option id] in *.
  split; [|split]; cbn [fst snd].
  - by rewrite map_app, Hm.
  - apply NoDup_app. split; [exact Hn|]. split; [|apply NoDup_singleton].
    intros x Hx Hin. apply list_elem_of_singleton in Hin. by subst x.
  - apply Forall_app. split; [exact Hf|]. apply Forall_cons_2; [|apply Forall_nil_2].
    cbn [img_url img_source img_width img_height].
    repeat split; try done; apply dimension_nonzero.
Qed.

Lemma scanPriority_scanned (page : Page) (selectors : list string)
  (state : list Image * list string) :
  scanned state -> scanned (Part000.scanPriority parseInt page selectors state).
Proof.
  revert state. induction selectors as [|s selectors IH]; intros state H; [exact H|].
  cbn [Part000.scanPriority].
  assert (Hfold : scanned (fold_left (Part000.pushImage parseInt "priority") (page s) state)).
  { revert state H. induction (page s) as [|img imgs IHi]; intros state H; [exact H|].
    cbn [fold_left]. by apply IHi, pushImage_scanned. }
  destruct (3 <=? _)%nat; [exact Hfold | by apply IH].
Qed.

(** X27.  The images [extractMainImage] of [part_000] gives for a page are
    never an empty list (it answers [null] instead); no URL occurs twice;
    every URL starts with "http" and passes [isValidImageUrl]; every image
    is marked as found under a priority selector; and a width or height
    that reads as 0 or as no number is recorded as [null]. *)
Theorem main_images (page : Page) (images : list Image) :
  Part000.extractMainImage parseInt page = Some images ->
  images <> []
  /\ NoDup (map img_url images)
  /\ Forall (fun image =>
               startsWith (img_url image) "http" = true
               /\ Part000.isValidImageUrl (Some (img_url image)) = true
               /\ img_source image = "priority"
               /\ img_width image <> Some 0%Z /\ img_height image <> Some 0%Z)
            images.
Proof.
  unfold Part000.extractMainImage. cbv zeta.
  destruct (scanPriority_scanned page Part000.prioritySelectors ([], []))
    as (Hm & Hn & Hf).
  { split; [reflexivity|]. split; constructor. }
  destruct (fst (Part000.scanPriority parseInt page Part000.prioritySelectors ([], [])))
    as [|image rest] eqn:E; cbn [length Nat.ltb Nat.leb]; [discriminate|].
  intros H. injection H as <-. split; [done|]. split; [by rewrite Hm|].
  eapply Forall_impl; [exact Hf|]. intros i (Hv & Hs & Hw & Hh).
  repeat split; try done.
  unfold Part000.isValidImageUrl in Hv. cbn [from_option id] in Hv.
  destruct (negb (truthy (Some (img_url i)))); [discriminate|].
  by destruct (startsWith (img_url i) "http").
Qed.

End MainImage.

Lemma extracted_titles_witness :
  Part000.extractTitle cake_page = Some "Recipe: Chocolate cake | My Kitchen"
  /\ Part001.extractTitle cake_page = Some "Chocolate Cake"
  /\ exists selector,
       selector ∈ Part001.titleSelectors
       /\ "Chocolate Cake" = Part001.standardizeTitle (trim (first_text cake_page selector))
       /\ (String.length "Chocolate Cake" <= String.length (first_text cake_page selector))%nat.
Proof.
  split; [vm_compute; reflexivity|]. split; [vm_compute; reflexivity|].
  apply (proj2 (proj2 (proj2 (extracted_titles cake_page "Chocolate Cake")))); [|reflexivity].
  intros selector. unfold cake_page, first_text.
  destruct (String.eqb selector "h1"); [reflexivity|].
  destruct (String.eqb selector ".ingredient"); [reflexivity|].
  destruct (String.eqb selector ".recipe-image img"); reflexivity.
Defined.

Lemma standardizeTitle_only_removes_witness :
  String.length (Part001.titleCase "easy chicken and rice") = 21%nat
  /\ (String.length (Part001.standardizeTitle "Recipe: easy chicken and rice | My Kitchen")
      <= 42)%nat.
Proof.
  split.
  - exact (proj1 (proj2 (proj2 (standardizeTitle_only_removes "easy chicken and rice" eq_refl)))).
  - exact (proj2 (proj2 (proj2 (proj2 (standardizeTitle_only_removes
             "Recipe: easy chicken and rice | My Kitchen" eq_refl))))).
Defined.

(** The length is tested before the title is standardized. *)
Example empty_title_extracted :
  Part001.extractTitle (fun selector => [plain "Recipe:"]) = Some "".
Proof. vm_compute. reflexivity. Qed.

Lemma extracted_lists_witness :
  Part000.extractIngredients cake_page = ["200 g flour"; "3 eggs"]
  /\ NoDup (Part000.extractIngredients cake_page).
Proof.
  split; [vm_compute; reflexivity|].
  exact (proj1 (extracted_lists cake_page)).
Defined.

Lemma main_images_witness :
  [mkImage "https://example.com/cake.jpg" "" None None "priority"] <> []
  /\ NoDup (map img_url [mkImage "https://example.com/cake.jpg" "" None None "priority"])
  /\ Forall (fun image =>
               startsWith (img_url image) "http" = true
               /\ Part000.isValidImageUrl (Some (img_url image)) = true
               /\ img_source image = "priority"
               /\ img_width image <> Some 0%Z /\ img_height image <> Some 0%Z)
            [mkImage "https://example.com/cake.jpg" "" None None "priority"].
Proof.
  exact (main_images no_int cake_page
           [mkImage "https://example.com/cake.jpg" "" None None "priority"] eq_refl).
Defined.

Lemma refresh_requests_deliver_nothing_witness :
  Part001.handler no_number_text nonzero (Return [salad; soup])
    (Part001.createReviewData served_extract salad_classifier (fun _ => false))
    (Part001.createReviewDataWithWebsiteRefresh served_extract salad_classifier)
    (Part001.createReviewDataWithAIRefresh served_extract salad_classifier)
    (Return None) notion_accepts
    (mkRequest "GET" (Some "website") None)
  = (mkHttpResponse 500
       (ErrorBody "Cannot read properties of null (reading 'title')"), []).
Proof.
  destruct (refresh_requests_deliver_nothing blank_page
              (fun page => Return (Part001.extractTitle page))
              (fun page => Return (Part001.extractIngredients page))
              (fun page => Return (Part001.extractInstructions page))
              (fun page => Return None)
              served no_number_text nonzero (Return [salad; soup]) salad_classifier
              (fun _ => false) (Return None) notion_accepts
              (mkRequest "GET" (Some "website") None) eq_refl (or_introl eq_refl))
    as [H|[e H]].
  - discriminate H.
  - vm_compute. reflexivity.
Defined.

(** ** [getIncompleteRecipes] and a failing query *)

Section Queries.

Variable number_toString : Z -> Z -> string.
Variable number_truthy : Z -> Z -> bool.
Variable NOTION_TOKEN : option string.
Variable NOTION_DATABASE_ID : option string.
Variable notion : bool.
Variable notion_databases_query : Completion (list NotionPage).
Variable query_timed_out : bool.
Variable createReviewData000 : list Recipe -> Completion (list ReviewItem).
Variable extract : string -> Completion (option ExtractedData).
Variable classify : Recipe -> option ExtractedData -> Completion (option Analysis).
Variable page_loads : Recipe -> bool.
Variable enricher_run : Completion (option (nat * nat)).
Variable notion_pages_update : NotionWrite -> Completion unit.
Variable update_timed_out : bool.

Abbreviation get000 :=
  (Part000.getIncompleteRecipes notion notion_databases_query query_timed_out).

Abbreviation get001 := (Part001.getIncompleteRecipes notion_databases_query).

(** X28.  The recipes [getIncompleteRecipes] builds always carry arrays for
    their tags and key ingredients, whatever the page lacks.  When the query of the database fails, [part_000] throws
    "Failed to fetch recipes: ..." and its handler answers the GET with
    status 500 and that text; [part_001] returns no recipes instead, and its
    handler answers the GET with status 200 and an empty review. *)
Theorem failed_query_is_reported_or_hidden :
  (forall recipes,
      get000 = Return recipes \/ get001 = Return recipes ->
      Forall (fun r => is_array (current_tags r) = true
                       /\ is_array (current_ingredients r) = true) recipes)
  /\ (forall e req,
         notion_databases_query = Throw e ->
         req_method req = "GET" ->
         (notion = true -> query_timed_out = false -> truthy NOTION_TOKEN = true ->
          Part000.handler number_toString number_truthy NOTION_TOKEN NOTION_DATABASE_ID
            get000 createReviewData000 notion_pages_update update_timed_out req
          = (mkHttpResponse 500 (ErrorBody ("Failed to fetch recipes: " ++ e)), []))
         /\ Part001.handler number_toString number_truthy get001
              (Part001.createReviewData extract classify page_loads)
              (Part001.createReviewDataWithWebsiteRefresh extract classify)
              (Part001.createReviewDataWithAIRefresh extract classify)
              enricher_run notion_pages_update req
            = (mkHttpResponse 200 (ReviewBody [] 0 0 None), [])).
Proof.
  split.
  - assert (Hmap : forall (f : NotionPage -> Recipe) pages,
               (forall p, is_array (current_tags (f p)) = true
                          /\ is_array (current_ingredients (f p)) = true) ->
               Forall (fun r => is_array (current_tags r) = true
                                /\ is_array (current_ingredients r) = true)
                      (map f pages)).
    { intros f pages Hf. apply Forall_map, Forall_forall. intros p _. apply Hf. }
    intros recipes [H|H].
    + unfold Part000.getIncompleteRecipes, Part000.withTimeout in H.
      destruct notion; cbn [negb] in H; [|discriminate].
      destruct query_timed_out; [discriminate|].
      destruct notion_databases_query as [pages|e]; [|discriminate].
      injection H as <-. by apply Hmap.
    + unfold Part001.getIncompleteRecipes in H.
      destruct notion_databases_query as [pages|e]; injection H as <-;
        [by apply Hmap | constructor].
  - intros e req He Hm. split.
    + intros -> -> Ht.
      assert (Hdb : truthy (Some (Part000.DATABASE_ID NOTION_DATABASE_ID)) = true).
      { unfold Part000.DATABASE_ID, Part000.str_or.
        destruct NOTION_DATABASE_ID as [s|]; [|reflexivity].
        destruct (String.eqb_spec s ""); [reflexivity|]. by apply truthy_Some. }
      unfold Part000.handler, Part000.getIncompleteRecipes, Part000.withTimeout.
      rewrite Hm, Ht, Hdb, He. reflexivity.
    + unfold Part001.handler, Part001.getIncompleteRecipes. rewrite Hm, He.
      cbn [String.eqb Ascii.eqb Bool.eqb].
      by repeat destruct (String.eqb _ _).
Qed.

End Queries.

Lemma failed_query_is_reported_or_hidden_witness :
  Part000.handler no_number_text nonzero (Some "secret") None
    (Part000.getIncompleteRecipes true (Throw "ECONNRESET") false)
    (fun _ => Return []) notion_accepts false (mkRequest "GET" None None)
  = (mkHttpResponse 500 (ErrorBody "Failed to fetch recipes: ECONNRESET"), [])
  /\ Part001.handler no_number_text nonzero
       (Part001.getIncompleteRecipes (Throw "ECONNRESET"))
       (Part001.createReviewData refused_extract salad_classifier (fun _ => false))
       (Part001.createReviewDataWithWebsiteRefresh refused_extract salad_classifier)
       (Part001.createReviewDataWithAIRefresh refused_extract salad_classifier)
       (Return None) notion_accepts (mkRequest "GET" None None)
     = (mkHttpResponse 200 (ReviewBody [] 0 0 None), []).
Proof.
  pose proof (proj2 (failed_query_is_reported_or_hidden no_number_text nonzero
                       (Some "secret") None true (Throw "ECONNRESET") false
                       (fun _ => Return []) refused_extract salad_classifier
                       (fun _ => false) (Return None) notion_accepts false)
                    "ECONNRESET" (mkRequest "GET" None None) eq_refl eq_refl) as [H0 H1].
  split; [exact (H0 eq_refl eq_refl eq_refl) | exact H1].
Defined.
